(** * MT199 investigation back end: case lifecycle, response normalisation,
      policy tables, reports and routes

    A shallow embedding of [backend/app/services/investigation_service.py],
    of [backend/app/services/mt_service.py], of the routes of
    [backend/app/api/investigation_routes.py] and of the route
    [analyze_mt199] of [backend/app/api/routes.py], followed by the
    properties of the case lifecycle, of the response normalisation chain,
    of the policy tables, of the message pipeline, of the reports and of the
    routes.

    Conventions of the embedding.
    - A Python [str] is a [string]; one character of the model stands for
      one character of the Python string.
    - A value decoded from generative output is a [json] tree; a Python
      [dict] is an association list in insertion order.
    - Code that raises returns [Raised e]; code that threads the database
      session, the generative service or the clock runs in the monad [M]
      over [World], whose state survives an exception.
    - A table of the database is a finite map from primary key to row.
      [db.commit()] is the point where pending rows reach [store]; a
      request that raises before its commit leaves [store] as it was.
    - Library functions ([json.loads], [json.dumps], [str], [strftime],
      [timedelta]) are fields of the class [PyLib]; the generative service,
      the clock and the random source are fields of the class [Outside];
      ordering, offset and limit of a query are fields of the class
      [Engine], with the laws the service relies on.
      The general theorems hold for all instances of these classes; the
      examples are evaluated on the fixtures defined before them.
    - A route gives back the body it returns or the [HTTPException] it
      raises.
    - [json_loads] of [PyLib] stands for [json.loads] on the texts on which
      it returns a value or raises [json.JSONDecodeError]; the services are
      modelled on these texts. The exceptions [json.loads] raises where a
      limit of the interpreter is reached are the field of the class
      [PyLimits], and the module [AtLimits] embeds [_extract_attributes]
      with them.
    - A date is the number of microseconds since the epoch, and the sum of a
      date and a duration is taken in [Z]. The library adds within the years
      1 to 9999 only; a statement about a deadline computed from the days
      that a request or an answer of the generative service names says that
      the deadline is [representable]. *)

From Stdlib Require Import ZArith String Ascii List Bool Lia.
From stdpp Require Import gmap strings list fin_maps pretty sorting.

Local Open Scope string_scope.
Set Warnings "-register-all".

(** ** Values *)

(** A JSON number [JNum m e] is the decimal [m * 10^e]. *)
Inductive json : Type :=
| JNull
| JBool (b : bool)
| JNum (m e : Z)
| JStr (s : string)
| JArr (items : list json)
| JObj (fields : list (string * json)).

Inductive exn : Type :=
| ValueError (msg : string)
| KeyError (key : string)
| IndexError
| TypeError
| AttributeError
| IntegrityError
| RecursionError (msg : string)
| Exception (msg : string).

Inductive Result (A : Type) : Type :=
| Ok (a : A)
| Raised (e : exn).
Arguments Ok {A} a.
Arguments Raised {A} e.

(** The double quote character, for texts that contain it. *)
Definition dq : string := String (ascii_of_nat 34) EmptyString.

(** *** Python dictionaries *)

Fixpoint dict_get (k : string) (d : list (string * json)) : option json :=
  match d with
  | [] => None
  | (k', v) :: d' => if String.eqb k' k then Some v else dict_get k d'
  end.

Definition dict_contains (k : string) (d : list (string * json)) : bool :=
  match dict_get k d with Some _ => true | None => false end.

(** [d[k] = v]: an existing key keeps its position, a new key is appended. *)
Fixpoint dict_set (k : string) (v : json) (d : list (string * json))
  : list (string * json) :=
  match d with
  | [] => [(k, v)]
  | (k', v') :: d' =>
      if String.eqb k' k then (k', v) :: d' else (k', v') :: dict_set k v d'
  end.

(** [d.update(other)] *)
Definition dict_update (d other : list (string * json)) : list (string * json) :=
  fold_left (fun acc kv => dict_set (fst kv) (snd kv) acc) other d.

(** [d.get(k, default)] *)
Definition dict_get_default (k : string) (default : json)
  (d : list (string * json)) : json :=
  match dict_get k d with Some v => v | None => default end.

(** Truth value of a Python object. *)
Definition truthy (v : json) : bool :=
  match v with
  | JNull => false
  | JBool b => b
  | JNum m _ => negb (m =? 0)%Z
  | JStr s => negb (String.eqb s "")
  | JArr l => match l with [] => false | _ => true end
  | JObj d => match d with [] => false | _ => true end
  end.

(** ** Library functions and collaborators *)

Class PyLib : Type := {
  (** [json.loads]; [None] stands for [json.JSONDecodeError] *)
  json_loads : string -> option json;
  (** [json.dumps(v, indent=i)] *)
  json_dumps : option nat -> json -> string;
  (** [repr] of a value that is not a string *)
  py_repr : json -> string;
  (** message text of the exceptions raised by the interpreter itself *)
  builtin_message : exn -> string;
  (** [t.strftime(fmt)] of a UTC and of a local [datetime] *)
  strftime : string -> Z -> string;
  strftime_local : string -> Z -> string;
  (** [t.isoformat()] *)
  isoformat : Z -> string;
  (** [timedelta(days=v)] as a duration in clock units; raises for a value
      that is no number *)
  timedelta_days : json -> Result Z
}.

Class Outside : Type := {
  (** the generative text service: prompts sent so far, the new prompt *)
  respond : list string -> string -> Result string;
  (** the n-th reading of the clock, in microseconds since the epoch *)
  clock : nat -> Z;
  (** the n-th draw of [random.choices(ascii_uppercase + digits, k=4)] *)
  random_choices : nat -> string
}.

(** [str(v)] *)
Definition py_str `{PyLib} (v : json) : string :=
  match v with
  | JStr s => s
  | _ => py_repr v
  end.

(** [str(e)] *)
Definition exn_str `{PyLib} (e : exn) : string :=
  match e with
  | ValueError msg => msg
  | Exception msg => msg
  | _ => builtin_message e
  end.

(** ** The database *)

Record Message : Type := {
  m_message_id : string;
  m_content : string;
  m_attributes : list (string * string)
}.

Record Investigation : Type := {
  i_reference_number : string;
  i_message_id : nat;
  i_status : string;
  i_priority : string;
  i_customer_info : option string;
  i_resolution_notes : option string;
  i_created_at : Z;
  i_updated_at : Z;
  i_resolved_at : option Z
}.

(** Columns filled from generative output hold the JSON value found there. *)
Record InvestigationAction : Type := {
  a_investigation_id : nat;
  a_action_type : json;
  a_description : json;
  a_suggested_response : json;
  a_status : string;
  a_priority : json;
  a_notes : option string;
  a_deadline : option Z;
  a_completed_at : option Z;
  a_created_at : Z;
  a_updated_at : Z
}.

Record Store : Type := {
  messages : gmap nat Message;
  investigations : gmap nat Investigation;
  actions : gmap nat InvestigationAction
}.

Record World : Type := {
  store : Store;
  sent : list string;
  reads : nat;
  draws : nat
}.

(** Primary key given to the next inserted row. *)
Definition new_id {A : Type} (table : gmap nat A) : nat :=
  S (max_list (elements (dom table))).

Definition rows {A : Type} (table : gmap nat A) : list A :=
  (map_to_list table).*2.

(** ** The monad of a request *)

Definition M (A : Type) : Type := World -> Result A * World.

Definition ret {A : Type} (a : A) : M A := fun w => (Ok a, w).

Definition bind {A B : Type} (c : M A) (k : A -> M B) : M B :=
  fun w =>
    match c w with
    | (Ok a, w') => k a w'
    | (Raised e, w') => (Raised e, w')
    end.

Definition raise {A : Type} (e : exn) : M A := fun w => (Raised e, w).

(** [try: c  except Exception as e: handler e] *)
Definition try_except {A : Type} (c : M A) (handler : exn -> M A) : M A :=
  fun w =>
    match c w with
    | (Ok a, w') => (Ok a, w')
    | (Raised e, w') => handler e w'
    end.

Definition lift {A : Type} (r : Result A) : M A := fun w => (r, w).

Declare Scope monad_scope.
Delimit Scope monad_scope with monad.
Notation "x <- c ;; k" := (bind c (fun x => k))
  (at level 100, c at next level, right associativity) : monad_scope.
Notation "c ;;; k" := (bind c (fun _ => k))
  (at level 100, right associativity) : monad_scope.
Local Open Scope monad_scope.

Definition get_store : M Store := fun w => (Ok (store w), w).

(** [db.commit()] with the pending changes applied to the tables. *)
Definition commit (db : Store) : M unit :=
  fun w => (Ok tt, {| store := db; sent := sent w; reads := reads w; draws := draws w |}).

(** [datetime.utcnow()], [datetime.now()] and [time.time()] read the clock. *)
Definition utcnow `{Outside} : M Z :=
  fun w => (Ok (clock (reads w)),
            {| store := store w; sent := sent w; reads := S (reads w); draws := draws w |}).

Definition random_draw `{Outside} : M string :=
  fun w => (Ok (random_choices (draws w)),
            {| store := store w; sent := sent w; reads := reads w; draws := S (draws w) |}).

(** [OpenAIService.call_openai]: the prompt goes out, the service answers
    with a text or the call raises. *)
Definition call_openai `{Outside} (prompt : string) : M string :=
  fun w => (respond (sent w) prompt,
            {| store := store w; sent := sent w ++ [prompt]; reads := reads w; draws := draws w |}).

(** ** Response normalisation *)

(** [re.search(r'(<o>.*<c>)', s, re.DOTALL)] for single characters [o] and
    [c]: the leftmost [o] through the last [c] after it. *)
Fixpoint from_first (o : ascii) (s : string) : option string :=
  match s with
  | EmptyString => None
  | String a s' => if Ascii.eqb a o then Some s' else from_first o s'
  end.

Fixpoint through_last (c : ascii) (s : string) : option string :=
  match s with
  | EmptyString => None
  | String a s' =>
      match through_last c s' with
      | Some t => Some (String a t)
      | None => if Ascii.eqb a c then Some (String a EmptyString) else None
      end
  end.

Definition re_search (o c : ascii) (s : string) : option string :=
  match from_first o s with
  | Some rest =>
      match through_last c rest with
      | Some t => Some (String o t)
      | None => None
      end
  | None => None
  end.

(** The chain written out after each call of the generative service:
    [json.loads] of the whole text and, on [JSONDecodeError], of the text
    matched by the regular expression. [None] when both attempts fail. *)
Definition parse_attempts `{PyLib} (o c : ascii) (response : string)
  : option json :=
  match json_loads response with
  | Some v => Some v
  | None =>
      match re_search o c response with
      | Some blob => json_loads blob
      | None => None
      end
  end.

(** The chain closed by the basic structure of the call site. *)
Definition parse_response `{PyLib} (o c : ascii) (default : json)
  (response : string) : json :=
  match parse_attempts o c response with
  | Some v => v
  | None => default
  end.

(** ** Python object protocol on decoded values *)

(** [v[k]] for a string key *)
Definition getitem (v : json) (k : string) : Result json :=
  match v with
  | JObj d =>
      match dict_get k d with
      | Some x => Ok x
      | None => Raised (KeyError k)
      end
  | _ => Raised TypeError
  end.

(** [v.get(k, default)] *)
Definition method_get (v : json) (k : string) (default : json) : Result json :=
  match v with
  | JObj d => Ok (dict_get_default k default d)
  | _ => Raised AttributeError
  end.

(** [for x in v]: a list yields its items, a dict its keys, a string its
    characters; nothing else can be iterated. *)
Fixpoint chars (s : string) : list json :=
  match s with
  | EmptyString => []
  | String a s' => JStr (String a EmptyString) :: chars s'
  end.

Definition iterate (v : json) : Result (list json) :=
  match v with
  | JArr l => Ok l
  | JObj d => Ok (map (fun kv => JStr (fst kv)) d)
  | JStr s => Ok (chars s)
  | _ => Raised TypeError
  end.

(** [needle in hay] for two strings *)
Fixpoint is_substring (needle hay : string) : bool :=
  String.prefix needle hay
  || match hay with
     | EmptyString => false
     | String _ hay' => is_substring needle hay'
     end.

(** [k in v] for a string [k] *)
Definition contains (k : string) (v : json) : Result bool :=
  match v with
  | JObj d => Ok (dict_contains k d)
  | JArr l =>
      Ok (existsb (fun x => match x with JStr s => String.eqb s k | _ => false end) l)
  | JStr s => Ok (is_substring k s)
  | _ => Raised TypeError
  end.

(** [v[k] = x] for a string key *)
Definition setitem (v : json) (k : string) (x : json) : Result json :=
  match v with
  | JObj d => Ok (JObj (dict_set k x d))
  | _ => Raised TypeError
  end.

(** [target.update(arg)]. A dict is merged; the empty list and the empty
    string change nothing; a scalar cannot be iterated; a non-empty string
    has items of length one and is refused. A non-empty list is refused as
    well: the lists that [process_single_message] can pass here hold the
    text "regulations", which is no key and value pair. *)
Definition update_method (target arg : json) : Result json :=
  match target with
  | JObj d =>
      match arg with
      | JObj other => Ok (JObj (dict_update d other))
      | JArr [] => Ok target
      | JStr EmptyString => Ok target
      | JArr _ => Raised (ValueError "dictionary update sequence element has the wrong length")
      | JStr _ => Raised (ValueError "dictionary update sequence element has the wrong length")
      | _ => Raised TypeError
      end
  | _ => Raised AttributeError
  end.

(** [v == s] for a string [s] *)
Definition is_str (s : string) (v : json) : bool :=
  match v with
  | JStr x => String.eqb x s
  | _ => false
  end.

Fixpoint mapM {A B : Type} (f : A -> M B) (l : list A) : M (list B) :=
  match l with
  | [] => ret []
  | x :: l' => y <- f x ;; ys <- mapM f l' ;; ret (y :: ys)
  end.

(** ** Row updates *)

Definition inv_set_status (x : string) (i : Investigation) : Investigation :=
  {| i_reference_number := i_reference_number i;
     i_message_id := i_message_id i; i_status := x;
     i_priority := i_priority i; i_customer_info := i_customer_info i;
     i_resolution_notes := i_resolution_notes i;
     i_created_at := i_created_at i; i_updated_at := i_updated_at i;
     i_resolved_at := i_resolved_at i |}.

Definition inv_set_resolution_notes (x : option string) (i : Investigation) : Investigation :=
  {| i_reference_number := i_reference_number i;
     i_message_id := i_message_id i; i_status := i_status i;
     i_priority := i_priority i; i_customer_info := i_customer_info i;
     i_resolution_notes := x; i_created_at := i_created_at i;
     i_updated_at := i_updated_at i; i_resolved_at := i_resolved_at i |}.

Definition inv_set_updated_at (x : Z) (i : Investigation) : Investigation :=
  {| i_reference_number := i_reference_number i;
     i_message_id := i_message_id i; i_status := i_status i;
     i_priority := i_priority i; i_customer_info := i_customer_info i;
     i_resolution_notes := i_resolution_notes i;
     i_created_at := i_created_at i; i_updated_at := x;
     i_resolved_at := i_resolved_at i |}.

Definition inv_set_resolved_at (x : option Z) (i : Investigation) : Investigation :=
  {| i_reference_number := i_reference_number i;
     i_message_id := i_message_id i; i_status := i_status i;
     i_priority := i_priority i; i_customer_info := i_customer_info i;
     i_resolution_notes := i_resolution_notes i;
     i_created_at := i_created_at i; i_updated_at := i_updated_at i;
     i_resolved_at := x |}.

Definition act_set_status (x : string) (a : InvestigationAction)
  : InvestigationAction :=
  {| a_investigation_id := a_investigation_id a;
     a_action_type := a_action_type a; a_description := a_description a;
     a_suggested_response := a_suggested_response a; a_status := x;
     a_priority := a_priority a; a_notes := a_notes a;
     a_deadline := a_deadline a; a_completed_at := a_completed_at a;
     a_created_at := a_created_at a; a_updated_at := a_updated_at a |}.

Definition act_set_notes (x : option string) (a : InvestigationAction)
  : InvestigationAction :=
  {| a_investigation_id := a_investigation_id a;
     a_action_type := a_action_type a; a_description := a_description a;
     a_suggested_response := a_suggested_response a; a_status := a_status a;
     a_priority := a_priority a; a_notes := x; a_deadline := a_deadline a;
     a_completed_at := a_completed_at a; a_created_at := a_created_at a;
     a_updated_at := a_updated_at a |}.

Definition act_set_updated_at (x : Z) (a : InvestigationAction)
  : InvestigationAction :=
  {| a_investigation_id := a_investigation_id a;
     a_action_type := a_action_type a; a_description := a_description a;
     a_suggested_response := a_suggested_response a; a_status := a_status a;
     a_priority := a_priority a; a_notes := a_notes a;
     a_deadline := a_deadline a; a_completed_at := a_completed_at a;
     a_created_at := a_created_at a; a_updated_at := x |}.

Definition act_set_completed_at (x : option Z) (a : InvestigationAction)
  : InvestigationAction :=
  {| a_investigation_id := a_investigation_id a;
     a_action_type := a_action_type a; a_description := a_description a;
     a_suggested_response := a_suggested_response a; a_status := a_status a;
     a_priority := a_priority a; a_notes := a_notes a;
     a_deadline := a_deadline a; a_completed_at := x;
     a_created_at := a_created_at a; a_updated_at := a_updated_at a |}.

Definition set_investigations (t : gmap nat Investigation) (db : Store) : Store :=
  {| messages := messages db; investigations := t; actions := actions db |}.

Definition set_actions (t : gmap nat InvestigationAction) (db : Store) : Store :=
  {| messages := messages db; investigations := investigations db; actions := t |}.

(** Insertion of pending rows in the order they were added to the session. *)
Definition insert_all {A : Type} (pending : list A) (table : gmap nat A)
  : gmap nat A :=
  fold_left (fun t row => <[new_id t := row]> t) pending table.

(** ** [InvestigationService] *)

Module InvestigationService.
Section Service.
Context {lib : PyLib} {out : Outside}.

(** [_generate_reference_number] *)
Definition _generate_reference_number : M string :=
  let prefix := "INV" in
  now <- utcnow ;;
  let timestamp := strftime "%Y%m%d" now in
  random_part <- random_draw ;;
  ret (prefix +:+ "-" +:+ timestamp +:+ "-" +:+ random_part).

Definition default_actions : json :=
  JArr [ JObj [ ("type", JStr "information_request");
                ("description", JStr "Analyze the message and determine next steps");
                ("suggested_response",
                 JStr "Based on our initial analysis, we need to investigate further.");
                ("priority", JStr "medium");
                ("suggested_days", JNum 3 0) ] ].

Definition suggest_prompt (message_content : string) (attributes : json) : string :=
  "
        Analyze this SWIFT MT message and its extracted attributes to suggest investigation actions.
        Return a JSON array of actions with the following fields:
        - type: The type of action (information_request, amendment_request, customer_notification, cancellation, other)
        - description: A clear description of the action to take
        - suggested_response: Template text for a response (if applicable)
        - priority: Priority of the action (low, medium, high, critical)
        - suggested_days: Suggested days to complete (1-10)

        MT message:
        "
  +:+ message_content
  +:+ "
        
        Attributes:
        "
  +:+ json_dumps (Some 2) attributes
  +:+ "
        ".

(** [_suggest_investigation_actions] *)
Definition _suggest_investigation_actions (message_content : string)
  (attributes : json) : M json :=
  response <- call_openai (suggest_prompt message_content attributes) ;;
  ret (match json_loads response with
       | Some suggested =>
           match suggested with
           | JArr _ => suggested
           | _ => JArr [suggested]
           end
       | None =>
           match re_search "[" "]" response with
           | Some blob =>
               match json_loads blob with
               | Some suggested => suggested
               | None => default_actions
               end
           | None => default_actions
           end
       end).

(** One turn of the loop of [_analyze_and_create_actions]: the row built
    from a suggested action. The deadline is the sum in [Z], as in
    [add_investigation_action]. *)
Definition action_row (investigation_id : nat) (action : json)
  : M InvestigationAction :=
  ty <- lift (getitem action "type") ;;
  descr <- lift (getitem action "description") ;;
  resp <- lift (method_get action "suggested_response" JNull) ;;
  prio <- lift (method_get action "priority" (JStr "medium")) ;;
  t0 <- utcnow ;;
  days <- lift (method_get action "suggested_days" (JNum 3 0)) ;;
  delta <- lift (timedelta_days days) ;;
  t1 <- utcnow ;;
  t2 <- utcnow ;;
  ret {| a_investigation_id := investigation_id; a_action_type := ty;
         a_description := descr; a_suggested_response := resp;
         a_status := "pending"; a_priority := prio; a_notes := None;
         a_deadline := Some (t0 + delta)%Z; a_completed_at := None;
         a_created_at := t1; a_updated_at := t2 |}.

(** The dictionary [attributes] built from the rows of the message. *)
Definition attributes_dict (message : Message) : json :=
  JObj (fold_left (fun d attr => dict_set (fst attr) (JStr (snd attr)) d)
                  (m_attributes message) []).

(** [_analyze_and_create_actions] *)
Definition _analyze_and_create_actions (investigation_id : nat)
  (message : Message) : M unit :=
  let attributes := attributes_dict message in
  suggested <- _suggest_investigation_actions (m_content message) attributes ;;
  items <- lift (iterate suggested) ;;
  pending <- mapM (action_row investigation_id) items ;;
  db <- get_store ;;
  commit (set_actions (insert_all pending (actions db)) db).

(** The unique index on the column [reference_number]. *)
Definition reference_in_use (db : Store) (ref_number : string) : bool :=
  existsb (fun i => String.eqb (i_reference_number i) ref_number)
          (rows (investigations db)).

(** [db.add(investigation); db.commit(); db.refresh(investigation)] *)
Definition add_investigation (investigation : Investigation) : M nat :=
  db <- get_store ;;
  if reference_in_use db (i_reference_number investigation)
  then raise IntegrityError
  else
    let id := new_id (investigations db) in
    commit (set_investigations (<[id := investigation]> (investigations db)) db) ;;;
    ret id.

(** [create_investigation]; the result is the new row with its key. *)
Definition create_investigation (message_id : nat) (priority : string)
  (customer_info : option json) : M (nat * Investigation) :=
  db <- get_store ;;
  match messages db !! message_id with
  | None =>
      raise (ValueError ("Message with ID " +:+ pretty message_id +:+ " not found"))
  | Some message =>
      ref_number <- _generate_reference_number ;;
      t1 <- utcnow ;;
      t2 <- utcnow ;;
      let investigation :=
        {| i_reference_number := ref_number; i_message_id := message_id;
           i_status := "open"; i_priority := priority;
           i_customer_info :=
             match customer_info with
             | Some c => if truthy c then Some (json_dumps None c) else None
             | None => None
             end;
           i_resolution_notes := None; i_created_at := t1; i_updated_at := t2;
           i_resolved_at := None |} in
      id <- add_investigation investigation ;;
      _analyze_and_create_actions id message ;;;
      ret (id, investigation)
  end.

(** [add_investigation_action]; the result is the new row with its key.
    The deadline is the sum in [Z]: the library gives this date when it lies
    in the years 1 to 9999 and raises [OverflowError] otherwise. *)
Definition add_investigation_action (investigation_id : nat)
  (action_type description : string) (suggested_response : option string)
  (priority : string) (deadline_days : Z) : M (nat * InvestigationAction) :=
  db <- get_store ;;
  match investigations db !! investigation_id with
  | None =>
      raise (ValueError ("Investigation with ID " +:+ pretty investigation_id
                         +:+ " not found"))
  | Some investigation =>
      t0 <- utcnow ;;
      delta <- lift (timedelta_days (JNum deadline_days 0)) ;;
      t1 <- utcnow ;;
      t2 <- utcnow ;;
      let action :=
        {| a_investigation_id := investigation_id;
           a_action_type := JStr action_type;
           a_description := JStr description;
           a_suggested_response :=
             match suggested_response with Some s => JStr s | None => JNull end;
           a_status := "pending"; a_priority := JStr priority; a_notes := None;
           a_deadline := Some (t0 + delta)%Z; a_completed_at := None;
           a_created_at := t1; a_updated_at := t2 |} in
      let id := new_id (actions db) in
      commit (set_actions (<[id := action]> (actions db)) db) ;;;
      (if String.eqb (i_status investigation) "open" then
         t3 <- utcnow ;;
         db <- get_store ;;
         commit (set_investigations
                   (<[investigation_id :=
                        inv_set_updated_at t3
                          (inv_set_status "in_progress" investigation)]>
                      (investigations db)) db)
       else ret tt) ;;;
      ret (id, action)
  end.

(** [_check_investigation_completion] *)
Definition _check_investigation_completion (investigation_id : nat) : M unit :=
  db <- get_store ;;
  match investigations db !! investigation_id with
  | None => ret tt
  | Some investigation =>
      let total_actions :=
        length (filter (fun a => a_investigation_id a = investigation_id)
                       (rows (actions db))) in
      let completed_actions :=
        length (filter (fun a => a_investigation_id a = investigation_id
                                 /\ a_status a = "completed")
                       (rows (actions db))) in
      if bool_decide (0 < total_actions)
         && bool_decide (total_actions = completed_actions)
      then
        t1 <- utcnow ;;
        t2 <- utcnow ;;
        commit (set_investigations
                  (<[investigation_id :=
                       inv_set_updated_at t2
                         (inv_set_resolved_at (Some t1)
                            (inv_set_status "resolved" investigation))]>
                     (investigations db)) db)
      else ret tt
  end.

(** [update_action_status] *)
Definition update_action_status (action_id : nat) (status : string)
  (notes : option string) : M InvestigationAction :=
  db <- get_store ;;
  match actions db !! action_id with
  | None =>
      raise (ValueError ("Action with ID " +:+ pretty action_id +:+ " not found"))
  | Some action =>
      t1 <- utcnow ;;
      let action :=
        act_set_updated_at t1 (act_set_notes notes (act_set_status status action)) in
      action <- (if String.eqb status "completed"
                 then t2 <- utcnow ;; ret (act_set_completed_at (Some t2) action)
                 else ret action) ;;
      commit (set_actions (<[action_id := action]> (actions db)) db) ;;;
      _check_investigation_completion (a_investigation_id action) ;;;
      ret action
  end.

(** [resolve_investigation] *)
Definition resolve_investigation (investigation_id : nat)
  (resolution_notes : string) : M Investigation :=
  db <- get_store ;;
  match investigations db !! investigation_id with
  | None =>
      raise (ValueError ("Investigation with ID " +:+ pretty investigation_id
                         +:+ " not found"))
  | Some investigation =>
      let investigation :=
        inv_set_status
          (if negb (String.eqb (i_status investigation) "closed")
           then "resolved" else "closed") investigation in
      let investigation :=
        inv_set_resolution_notes (Some resolution_notes) investigation in
      resolved <- match i_resolved_at investigation with
                  | None => t <- utcnow ;; ret (Some t)
                  | Some t => ret (Some t)
                  end ;;
      let investigation := inv_set_resolved_at resolved investigation in
      t <- utcnow ;;
      let investigation := inv_set_updated_at t investigation in
      commit (set_investigations
                (<[investigation_id := investigation]> (investigations db)) db) ;;;
      ret investigation
  end.

(** [close_investigation] *)
Definition close_investigation (investigation_id : nat) : M Investigation :=
  db <- get_store ;;
  match investigations db !! investigation_id with
  | None =>
      raise (ValueError ("Investigation with ID " +:+ pretty investigation_id
                         +:+ " not found"))
  | Some investigation =>
      t <- utcnow ;;
      let investigation :=
        inv_set_updated_at t (inv_set_status "closed" investigation) in
      commit (set_investigations
                (<[investigation_id := investigation]> (investigations db)) db) ;;;
      ret investigation
  end.

End Service.
End InvestigationService.

(** ** [str.format] *)

(** A character that may occur in the name of a replacement field. *)
Definition name_char (a : ascii) : bool :=
  negb (existsb (Ascii.eqb a) ["{"; "["; "]"; "."; "!"; ":"]%char).

Definition is_digit (a : ascii) : bool :=
  (48 <=? nat_of_ascii a)%nat && (nat_of_ascii a <=? 57)%nat.

(** The value of the replacement field [name] among keyword arguments
    only: an empty or numeric name asks for a positional argument. *)
Definition lookup_field (kwargs : list (string * json)) (name : string)
  : Result json :=
  if forallb is_digit (list_ascii_of_string name) then Raised IndexError
  else match dict_get name kwargs with
       | Some v => Ok v
       | None => Raised (KeyError name)
       end.

Definition prepend (p : string) (r : Result string) : Result string :=
  match r with
  | Ok s => Ok (p +:+ s)
  | Raised e => Raised e
  end.

(** [template.format] applied to keyword arguments, left to right. [field]
    is the name read so far inside an open replacement field. Doubled braces are literal braces;
    a value is rendered by [str]. Replacement fields with a conversion, a
    format specification, an attribute or an index are rejected here: the
    templates of this program have none. *)
Fixpoint str_format `{PyLib} (kwargs : list (string * json))
  (field : option string) (s : string) : Result string :=
  match s with
  | EmptyString =>
      match field with
      | None => Ok EmptyString
      | Some _ => Raised (ValueError "expected '}' before end of string")
      end
  | String a s' =>
      match field with
      | None =>
          if Ascii.eqb a "{" then
            match s' with
            | String b s'' =>
                if Ascii.eqb b "{" then prepend "{" (str_format kwargs None s'')
                else str_format kwargs (Some EmptyString) s'
            | EmptyString => Raised (ValueError "Single '{' encountered in format string")
            end
          else if Ascii.eqb a "}" then
            match s' with
            | String b s'' =>
                if Ascii.eqb b "}" then prepend "}" (str_format kwargs None s'')
                else Raised (ValueError "Single '}' encountered in format string")
            | EmptyString => Raised (ValueError "Single '}' encountered in format string")
            end
          else prepend (String a EmptyString) (str_format kwargs None s')
      | Some name =>
          if Ascii.eqb a "}" then
            match lookup_field kwargs name with
            | Ok v => prepend (py_str v) (str_format kwargs None s')
            | Raised e => Raised e
            end
          else if name_char a then
            str_format kwargs (Some (name +:+ String a EmptyString)) s'
          else Raised (ValueError "replacement field outside the modelled syntax")
      end
  end.

(** ** [MTService] *)

Module MTService.
Section Service.
Context {lib : PyLib} {out : Outside}.

(** [_get_default_regulations] *)
Definition _get_default_regulations (workcase_type : json) : json :=
  let regulations :=
    [ JObj [ ("name", JStr "Record Keeping");
             ("description",
              JStr "All investigation communications must be archived for at least 7 years");
             ("reference", JStr "Banking Record-Keeping Standards") ] ] in
  let regulations :=
    if is_str "CANCELLATION" workcase_type || is_str "RETURN_FUNDS" workcase_type
    then (regulations ++
          [ JObj [ ("name", JStr "Return Timeframes");
                   ("description",
                    JStr "Funds return requests must be processed within 10 business days");
                   ("reference", JStr "SWIFT Return Guidelines") ] ])%list
    else regulations in
  let regulations :=
    if is_str "REGULATORY_COMPLIANCE" workcase_type
    then (regulations ++
          [ JObj [ ("name", JStr "Suspicious Activity Reporting");
                   ("description",
                    JStr "Potential suspicious activity must be reported to authorities within 30 days");
                   ("reference", JStr "AML Compliance Standards") ] ])%list
    else regulations in
  JArr regulations.

(** [_get_default_sla] *)
Definition _get_default_sla (workcase_type : json) : json :=
  let sla :=
    [ ("acknowledgment", JNum 24 0);
      ("initial_research", JNum 48 0);
      ("correspondence", JNum 72 0);
      ("follow_up", JNum 120 0);
      ("resolution", JNum 240 0) ] in
  JObj
    (if is_str "CANCELLATION" workcase_type then
       dict_set "resolution" (JNum 72 0)
         (dict_set "correspondence" (JNum 12 0)
            (dict_set "initial_research" (JNum 8 0)
               (dict_set "acknowledgment" (JNum 4 0) sla)))
     else if is_str "REGULATORY_COMPLIANCE" workcase_type then
       dict_set "resolution" (JNum 480 0)
         (dict_set "initial_research" (JNum 72 0) sla)
     else sla).

Definition template_NON_RECEIPT : string :=
  "
Subject: Investigation - Non-Receipt of Funds - Ref: {reference}

Dear {recipient},

We are investigating a case of non-receipt of funds reported by the beneficiary.

Transaction details:
- Reference: {reference}
- Amount: {amount} {currency}
- Date: {date}
- Beneficiary: {beneficiary}

Please provide information on the status of this payment.

Thank you,
Investigation Team
            ".

Definition template_CANCELLATION : string :=
  "
Subject: Urgent Cancellation Request - Ref: {reference}

Dear {recipient},

We request the cancellation of the following payment:

Transaction details:
- Reference: {reference}
- Amount: {amount} {currency}
- Date: {date}

Reason for cancellation: {reason}

Please confirm.
            ".

Definition template_UNKNOWN : string :=
  "
Subject: Investigation Request - Ref: {reference}

Dear {recipient},

We are investigating the following transaction:

Transaction details:
- Reference: {reference}

We will provide additional information shortly.

Thank you,
Investigation Team
            ".

(** [templates.get(workcase_type, templates["UNKNOWN"])]: a list or a dict
    cannot be hashed. *)
Definition templates_get (workcase_type : json) : Result string :=
  match workcase_type with
  | JStr s =>
      if String.eqb s "NON_RECEIPT" then Ok template_NON_RECEIPT
      else if String.eqb s "CANCELLATION" then Ok template_CANCELLATION
      else Ok template_UNKNOWN
  | JArr _ => Raised TypeError
  | JObj _ => Raised TypeError
  | _ => Ok template_UNKNOWN
  end.

(** The dictionary [safe_values]: a default for every placeholder, then
    the extracted fields whose key is not yet there. *)
Definition safe_values (fields : list (string * json)) (today : string)
  : list (string * json) :=
  let safe_values :=
    [ ("reference", dict_get_default "reference" (JStr "Unknown") fields);
      ("recipient", dict_get_default "recipient" (JStr "Valued Correspondent") fields);
      ("amount", dict_get_default "amount" (JStr "Unknown") fields);
      ("currency", dict_get_default "currency" (JStr "USD") fields);
      ("date", dict_get_default "date" (JStr today) fields);
      ("beneficiary", dict_get_default "beneficiary" (JStr "Unknown") fields);
      ("reason", JStr "Customer request") ] in
  fold_left (fun acc kv =>
               if dict_contains (fst kv) acc then acc
               else dict_set (fst kv) (snd kv) acc)
            fields safe_values.

(** [_get_default_response_template] *)
Definition _get_default_response_template (workcase_type fields : json)
  : M string :=
  template <- lift (templates_get workcase_type) ;;
  try_except
    (match fields with
     | JObj d =>
         now <- utcnow ;;
         lift (str_format (safe_values d (strftime_local "%Y-%m-%d" now))
                          None template)
     | _ => raise AttributeError
     end)
    (fun _ => ret template).

Definition convert_prompt (mt_message : string) : string :=
  "
        Convert the following SWIFT MT199 message to ISO camt110 format(XML tag format). Return the complete swift 'CAMT110' xml document properly formatted in json format with camt110 key and the xml document as value.:

        MT message:
        "
  +:+ mt_message
  +:+ "
        ".

Definition extract_prompt (mt_message : string) : string :=
  "
        Extract all important attributes from this SWIFT MT message. Return JSON with an 'attributes' key containing extracted fields and values:

        MT message:
        "
  +:+ mt_message
  +:+ "
        ".

Definition mt199_prompt (mt_message : string) : string :=
  "
        This is an MT199 message that failed Straight Through Processing (STP).
        Analyze this message in detail and provide the following:
        
        1. Determine the workcase type (e.g., NON_RECEIPT, CANCELLATION, RETURN_FUNDS, WRONG_AMOUNT, DUPLICATE_PAYMENT, 
           WRONG_BENEFICIARY, REGULATORY_COMPLIANCE, TECHNICAL_ISSUE, QUERY). If you cannot determine the workcase type 
           with reasonable certainty, use " +:+ dq +:+ "UNKNOWN" +:+ dq +:+ ".
        
        2. Provide clear reasoning for why you determined this workcase type.
        
        3. Extract all relevant details from the message (such as sender, receiver, references, dates, amounts, 
           account numbers, and any other important information).
           
        4. Suggest 3-5 next steps for investigating this case.
        
        5. Suggest a timeline for resolving this investigation.
        
        Return your response as structured JSON with the following keys:
        - " +:+ dq +:+ "workcase_type" +:+ dq +:+ ": the determined type
        - " +:+ dq +:+ "reasoning" +:+ dq +:+ ": detailed explanation for the workcase type
        - " +:+ dq +:+ "extracted_fields" +:+ dq +:+ ": object with all extracted details as key-value pairs
        - " +:+ dq +:+ "next_steps" +:+ dq +:+ ": array of suggested actions
        - " +:+ dq +:+ "timeline" +:+ dq +:+ ": array of objects with " +:+ dq +:+ "date" +:+ dq +:+ " (string), " +:+ dq +:+ "action" +:+ dq +:+ " (string), and " +:+ dq +:+ "status" +:+ dq +:+ " (string) fields
        
        MT199 message:
        "
  +:+ mt_message
  +:+ "

        Note: we are using synthetic data so there is no need to worry about privacy or confidentiality.
        ".

(** The parsing part of [_convert_mt_to_mx]. *)
Definition normalize_conversion (response : string) : json :=
  parse_response "{" "}"
    (JObj [ ("mx_message", JStr response);
            ("notes",
             JStr "Could not extract structured data, returning raw conversion") ])
    response.

(** [_convert_mt_to_mx] *)
Definition _convert_mt_to_mx (mt_message : string) : M json :=
  response <- call_openai (convert_prompt mt_message) ;;
  ret (normalize_conversion response).

(** The parsing part of [_extract_attributes]. *)
Definition normalize_extraction (response : string) : json :=
  parse_response "{" "}"
    (JObj [ ("attributes", JObj [ ("raw_extraction", JStr response) ]);
            ("notes", JStr "Could not extract structured data") ])
    response.

(** [_extract_attributes] *)
Definition _extract_attributes (mt_message : string) : M json :=
  response <- call_openai (extract_prompt mt_message) ;;
  ret (normalize_extraction response).

Definition mt199_default (today : string) : json :=
  JObj [ ("workcase_type", JStr "UNKNOWN");
         ("reasoning",
          JStr "Could not determine workcase type from message analysis");
         ("extracted_fields", JObj []);
         ("next_steps",
          JArr [ JStr "Review the message manually";
                 JStr "Consult with an investigation specialist";
                 JStr "Contact the sender for clarification" ]);
         ("timeline",
          JArr [ JObj [ ("date", JStr today);
                        ("action", JStr "Initial review");
                        ("status", JStr "open") ] ]) ].

(** [_process_mt199_stp_failure] *)
Definition _process_mt199_stp_failure (mt_message : string) : M json :=
  response <- call_openai (mt199_prompt mt_message) ;;
  result <- match parse_attempts "{" "}" response with
            | Some v => ret v
            | None =>
                now <- utcnow ;;
                ret (mt199_default (strftime "%Y-%m-%d" now))
            end ;;
  present <- lift (contains "regulations" result) ;;
  result <- (if present then ret result
             else
               workcase_type <- lift (method_get result "workcase_type" (JStr "UNKNOWN")) ;;
               lift (setitem result "regulations"
                             (_get_default_regulations workcase_type))) ;;
  present <- lift (contains "sla" result) ;;
  result <- (if present then ret result
             else
               workcase_type <- lift (method_get result "workcase_type" (JStr "UNKNOWN")) ;;
               lift (setitem result "sla" (_get_default_sla workcase_type))) ;;
  present <- lift (contains "response_template" result) ;;
  result <- (if present then ret result
             else
               workcase_type <- lift (method_get result "workcase_type" (JStr "UNKNOWN")) ;;
               fields <- lift (method_get result "extracted_fields" (JObj [])) ;;
               template <- _get_default_response_template workcase_type fields ;;
               lift (setitem result "response_template" (JStr template))) ;;
  ret result.

(** The test [if "199" in message_content[:20]]. *)
Definition is_mt199 (message_content : string) : bool :=
  is_substring "199" (String.substring 0 20 message_content).

(** [process_single_message]; [message_id] is [None] when not supplied.
    The processing time is the difference of two clock readings. *)
Definition process_single_message (message_content mode : string)
  (message_id : option string) : M (json * json) :=
  start_time <- utcnow ;;
  message_id <- match message_id with
                | Some id =>
                    if String.eqb id "" then
                      now <- utcnow ;;
                      ret ("MT-" +:+ pretty (now / 1000000)%Z)
                    else ret id
                | None =>
                    now <- utcnow ;;
                    ret ("MT-" +:+ pretty (now / 1000000)%Z)
                end ;;
  result <- (if String.eqb mode "convert"
             then _convert_mt_to_mx message_content
             else _extract_attributes message_content) ;;
  result <- (if is_mt199 message_content then
               workcase_info <- _process_mt199_stp_failure message_content ;;
               present <- lift (contains "attributes" result) ;;
               if present then
                 attributes <- lift (getitem result "attributes") ;;
                 merged <- lift (update_method attributes workcase_info) ;;
                 lift (setitem result "attributes" merged)
               else lift (setitem result "attributes" workcase_info)
             else ret result) ;;
  end_time <- utcnow ;;
  let processing_time := JNum (end_time - start_time) (-6) in
  result <- lift (setitem result "message_id" (JStr message_id)) ;;
  result <- lift (setitem result "processing_time" processing_time) ;;
  now <- utcnow ;;
  result <- lift (setitem result "processed_at" (JStr (isoformat now))) ;;
  ret (result, processing_time).

(** The entry that stands for a row whose processing raised. *)
Definition error_entry (message_id : string) (e : exn) : M json :=
  now <- utcnow ;;
  ret (JObj [ ("message_id", JStr message_id);
              ("error", JStr (exn_str e));
              ("processed_at", JStr (isoformat now)) ]).

(** The loop of [process_bulk_messages] over the rows of the parsed and
    validated table, each a pair of the columns [messageId] and [message]. *)
Fixpoint process_bulk_messages (df : list (string * string)) (mode : string)
  : M (list json) :=
  match df with
  | [] => ret []
  | (message_id, message_content) :: df' =>
      entry <- try_except
                 (r <- process_single_message message_content mode (Some message_id) ;;
                  ret (fst r))
                 (error_entry message_id) ;;
      results <- process_bulk_messages df' mode ;;
      ret (entry :: results)
  end.

End Service.
End MTService.

(** ** [json.loads] at the limits of the interpreter *)

(** The exception that [json.loads] raises on a text because a limit of the
    interpreter is reached: [ValueError] for an integer literal with more
    digits than [int] converts, [RecursionError] for nesting deeper than the
    recursion limit. [None] for every other text. Neither exception is a
    [json.JSONDecodeError]. *)
Class PyLimits : Type := {
  json_loads_limit : string -> option exn
}.

(** [json.loads] with all its outcomes: [Ok None] stands for
    [json.JSONDecodeError]. *)
Definition loads {lib : PyLib} {limits : PyLimits} (s : string)
  : Result (option json) :=
  match json_loads_limit s with
  | Some e => Raised e
  | None => Ok (json_loads s)
  end.

Module AtLimits.
Section Service.
Context {lib : PyLib} {out : Outside} {limits : PyLimits}.

(** [_extract_attributes]: both clauses [except json.JSONDecodeError] catch
    that exception and no other. *)
Definition _extract_attributes (mt_message : string) : M json :=
  response <- call_openai (MTService.extract_prompt mt_message) ;;
  whole <- lift (loads response) ;;
  match whole with
  | Some result => ret result
  | None =>
      let basic :=
        JObj [ ("attributes", JObj [ ("raw_extraction", JStr response) ]);
               ("notes", JStr "Could not extract structured data") ] in
      match re_search "{" "}" response with
      | Some blob =>
          inner <- lift (loads blob) ;;
          ret (match inner with
               | Some result => result
               | None => basic
               end)
      | None => ret basic
      end
  end.

End Service.
End AtLimits.

(** ** The query engine *)

(** What the service asks of the database beyond lookups by key. Rows come
    with their primary key. *)
Class Engine : Type := {
  (** [query.order_by(col.asc()).all()]: the rows in ascending order of the
      column; the engine chooses the order of rows that agree on it *)
  order_by : forall {A : Type}, (A -> Z) -> list (nat * A) -> list (nat * A);
  order_by_rows : forall (A : Type) (col : A -> Z) (l : list (nat * A)),
    order_by col l ≡ₚ l;
  order_by_sorted : forall (A : Type) (col : A -> Z) (l : list (nat * A)),
    StronglySorted (fun x y => (col (snd x) <= col (snd y))%Z) (order_by col l);
  (** [query.offset(n)] and [query.limit(n)]; what a negative number means
      is left to the engine *)
  offset_rows : forall {A : Type}, Z -> list A -> list A;
  offset_rows_nonneg : forall (A : Type) (n : Z) (l : list A),
    (0 <= n)%Z -> offset_rows n l = drop (Z.to_nat n) l;
  limit_rows : forall {A : Type}, Z -> list A -> list A;
  limit_rows_nonneg : forall (A : Type) (n : Z) (l : list A),
    (0 <= n)%Z -> limit_rows n l = take (Z.to_nat n) l
}.

(** [str(e)] of the [json.JSONDecodeError] that [json.loads] raises on a
    text. *)
Class PyErrors : Type := {
  decode_error : string -> string
}.

(** ** [InvestigationService], the reading side *)

Module InvestigationReports.
Section Service.
Context {lib : PyLib} {out : Outside} {engine : Engine} {errors : PyErrors}.

(** [t.isoformat() if t else None] *)
Definition isoformat_or_none (t : option Z) : json :=
  match t with
  | Some t => JStr (isoformat t)
  | None => JNull
  end.

Definition str_or_none (s : option string) : json :=
  match s with
  | Some s => JStr s
  | None => JNull
  end.

Definition int (n : nat) : json := JNum (Z.of_nat n) 0.

(** One turn of the loop that formats the actions. *)
Definition format_action (row : nat * InvestigationAction) : json :=
  let (id, action) := row in
  JObj [ ("id", int id);
         ("type", a_action_type action);
         ("description", a_description action);
         ("suggested_response", a_suggested_response action);
         ("status", JStr (a_status action));
         ("priority", a_priority action);
         ("deadline", isoformat_or_none (a_deadline action));
         ("completed_at", isoformat_or_none (a_completed_at action));
         ("created_at", JStr (isoformat (a_created_at action)));
         ("updated_at", JStr (isoformat (a_updated_at action))) ].

(** [json.loads(x.customer_info) if x.customer_info else {}];
    [json.JSONDecodeError] is a [ValueError]. *)
Definition load_customer_info (customer_info : option string) : Result json :=
  match customer_info with
  | Some s =>
      if String.eqb s "" then Ok (JObj [])
      else match json_loads s with
           | Some v => Ok v
           | None => Raised (ValueError (decode_error s))
           end
  | None => Ok (JObj [])
  end.

(** The actions of a case, oldest first. *)
Definition actions_of (db : Store) (investigation_id : nat)
  : list (nat * InvestigationAction) :=
  order_by a_created_at
    (filter (fun row => a_investigation_id (snd row) = investigation_id)
            (map_to_list (actions db))).

(** [get_investigation] *)
Definition get_investigation (investigation_id : nat) : M json :=
  db <- get_store ;;
  match investigations db !! investigation_id with
  | None =>
      raise (ValueError ("Investigation with ID " +:+ pretty investigation_id
                         +:+ " not found"))
  | Some investigation =>
      let message := messages db !! i_message_id investigation in
      let attributes :=
        match message with
        | Some m => InvestigationService.attributes_dict m
        | None => JObj []
        end in
      let formatted_actions := map format_action (actions_of db investigation_id) in
      customer_info <- lift (load_customer_info (i_customer_info investigation)) ;;
      ret (JObj
             [ ("id", int investigation_id);
               ("reference_number", JStr (i_reference_number investigation));
               ("status", JStr (i_status investigation));
               ("priority", JStr (i_priority investigation));
               ("message",
                JObj [ ("id", match message with
                              | Some _ => int (i_message_id investigation)
                              | None => JNull
                              end);
                       ("message_id", match message with
                                      | Some m => JStr (m_message_id m)
                                      | None => JNull
                                      end);
                       ("content", match message with
                                   | Some m => JStr (m_content m)
                                   | None => JNull
                                   end);
                       ("attributes", attributes) ]);
               ("customer_info", customer_info);
               ("actions", JArr formatted_actions);
               ("created_at", JStr (isoformat (i_created_at investigation)));
               ("updated_at", JStr (isoformat (i_updated_at investigation)));
               ("resolution_notes", str_or_none (i_resolution_notes investigation));
               ("resolved_at", isoformat_or_none (i_resolved_at investigation)) ])
  end.

(** [get_investigation_by_reference]; the column is unique, so at most one
    row matches in a database the service has filled. *)
Definition get_investigation_by_reference (reference_number : string) : M json :=
  db <- get_store ;;
  match head (filter (fun row => i_reference_number (snd row) = reference_number)
                     (map_to_list (investigations db))) with
  | None =>
      raise (ValueError ("Investigation with reference " +:+ reference_number
                         +:+ " not found"))
  | Some row => get_investigation (fst row)
  end.

(** [query.filter(col == x)] under [if x:] *)
Definition filter_by (col : Investigation -> string) (x : option string)
  (query : list (nat * Investigation)) : list (nat * Investigation) :=
  match x with
  | Some s =>
      if String.eqb s "" then query
      else filter (fun row => col (snd row) = s) query
  | None => query
  end.

(** The number of actions of a case, and of those with one status. *)
Definition count_actions (db : Store) (investigation_id : nat) : nat :=
  length (filter (fun a => a_investigation_id a = investigation_id)
                 (rows (actions db))).

Definition count_actions_with (db : Store) (investigation_id : nat)
  (status : string) : nat :=
  length (filter (fun a => a_investigation_id a = investigation_id
                           /\ a_status a = status)
                 (rows (actions db))).

(** One turn of the loop of [get_investigations]. *)
Definition summary (db : Store) (row : nat * Investigation) : M json :=
  let (id, inv) := row in
  let message := messages db !! i_message_id inv in
  let action_counts :=
    JObj [ ("total", int (count_actions db id));
           ("pending", int (count_actions_with db id "pending"));
           ("completed", int (count_actions_with db id "completed")) ] in
  customer_info <- lift (load_customer_info (i_customer_info inv)) ;;
  customer_name <- lift (method_get customer_info "name" (JStr "N/A")) ;;
  now <- utcnow ;;
  ret (JObj [ ("id", int id);
              ("reference_number", JStr (i_reference_number inv));
              ("status", JStr (i_status inv));
              ("priority", JStr (i_priority inv));
              ("message_id", match message with
                             | Some m => JStr (m_message_id m)
                             | None => JNull
                             end);
              ("customer_name", customer_name);
              ("action_counts", action_counts);
              ("created_at", JStr (isoformat (i_created_at inv)));
              ("updated_at", JStr (isoformat (i_updated_at inv)));
              ("days_open", JNum ((now - i_created_at inv) / 86400000000) 0) ]).

(** The rows a call of [get_investigations] selects and those it lists. *)
Definition selected (db : Store) (status priority : option string)
  : list (nat * Investigation) :=
  filter_by i_priority priority
    (filter_by i_status status (map_to_list (investigations db))).

Definition page (db : Store) (status priority : option string) (limit offset : Z)
  : list (nat * Investigation) :=
  limit_rows limit
    (offset_rows offset
       (order_by (fun inv => (- i_updated_at inv)%Z) (selected db status priority))).

(** [get_investigations] *)
Definition get_investigations (status priority : option string)
  (limit offset : Z) : M json :=
  db <- get_store ;;
  let total := length (selected db status priority) in
  results <- mapM (summary db) (page db status priority limit offset) ;;
  ret (JObj [ ("total", int total);
              ("investigations", JArr results);
              ("limit", JNum limit 0);
              ("offset", JNum offset 0) ]).

Definition notification_prompt (reference_number status created_at : string)
  (customer_info : json) (notification_type : string) : string :=
  "
        Generate a customer notification email for a SWIFT MT message investigation.
        
        Investigation details:
        - Reference: "
  +:+ reference_number
  +:+ "
        - Status: "
  +:+ status
  +:+ "
        - Created: "
  +:+ created_at
  +:+ "
        - Message Type: MT199
        
        Customer info:
        "
  +:+ json_dumps (Some 2) customer_info
  +:+ "
        
        Notification type: "
  +:+ notification_type
  +:+ "
        
        Return JSON with 'subject' and 'body' fields.
        ".

(** The basic notification of [generate_customer_notification]. *)
Definition default_notification (reference_number status : string) : json :=
  JObj [ ("subject",
          JStr ("Update on your payment investigation - Ref: "
  +:+ reference_number));
         ("body",
          JStr ("Dear Customer,

This is an update regarding your payment investigation (Reference: "
  +:+ reference_number
  +:+ ").

The current status is: "
  +:+ status
  +:+ ".

We will continue to keep you informed of any developments.

Best regards,
The Investigation Team")) ].

(** [generate_customer_notification] *)
Definition generate_customer_notification (investigation_id : nat)
  (notification_type : string) : M json :=
  investigation_data <- get_investigation investigation_id ;;
  reference_number <- lift (getitem investigation_data "reference_number") ;;
  status <- lift (getitem investigation_data "status") ;;
  created_at <- lift (getitem investigation_data "created_at") ;;
  customer_info <- lift (getitem investigation_data "customer_info") ;;
  response <- call_openai
                (notification_prompt (py_str reference_number) (py_str status)
                   (py_str created_at) customer_info notification_type) ;;
  let notification :=
    parse_response "{" "}"
      (default_notification (py_str reference_number) (py_str status)) response in
  notification <- lift (setitem notification "investigation_id" (int investigation_id)) ;;
  notification <- lift (setitem notification "reference_number" reference_number) ;;
  now <- utcnow ;;
  notification <- lift (setitem notification "generated_at" (JStr (isoformat now))) ;;
  lift (setitem notification "notification_type" (JStr notification_type)).

End Service.
End InvestigationReports.

(** ** The routes *)

(** What a route gives back: the body of the answer, or the
    [HTTPException] it raises. *)
Inductive response : Type :=
| Returned (body : json)
| HTTPException (status_code : nat) (detail : string).

(** [try: body  except ValueError as e: raise HTTPException(code, str(e))
    except Exception as e: raise HTTPException(500, str(e))] *)
Definition handle {lib : PyLib} (value_error_code : nat) (body : M json)
  : World -> response * World :=
  fun w =>
    match body w with
    | (Ok r, w') => (Returned r, w')
    | (Raised (ValueError msg), w') => (HTTPException value_error_code msg, w')
    | (Raised e, w') => (HTTPException 500 (exn_str e), w')
    end.

Module InvestigationRoutes.
Section Routes.
Context {lib : PyLib} {out : Outside} {engine : Engine} {errors : PyErrors}.
Import InvestigationReports.

Definition create_investigation (message_id : nat) (priority : string)
  (customer_info : option json) : World -> response * World :=
  handle 400
    (investigation <- InvestigationService.create_investigation message_id priority
                        customer_info ;;
     get_investigation (fst investigation)).

Definition get_investigations (status priority : option string) (limit offset : Z)
  : World -> response * World :=
  handle 500 (InvestigationReports.get_investigations status priority limit offset).

Definition get_investigation (investigation_id : nat) : World -> response * World :=
  handle 404 (InvestigationReports.get_investigation investigation_id).

Definition get_investigation_by_reference (reference_number : string)
  : World -> response * World :=
  handle 404 (InvestigationReports.get_investigation_by_reference reference_number).

Definition add_investigation_action (investigation_id : nat)
  (action_type description : string) (suggested_response : option string)
  (priority : string) (deadline_days : Z) : World -> response * World :=
  handle 400
    (r <- InvestigationService.add_investigation_action investigation_id action_type
            description suggested_response priority deadline_days ;;
     let (id, action) := r in
     ret (JObj [ ("id", int id);
                 ("investigation_id", int (a_investigation_id action));
                 ("action_type", a_action_type action);
                 ("description", a_description action);
                 ("suggested_response", a_suggested_response action);
                 ("status", JStr (a_status action));
                 ("priority", a_priority action);
                 ("deadline", isoformat_or_none (a_deadline action));
                 ("created_at", JStr (isoformat (a_created_at action)));
                 ("updated_at", JStr (isoformat (a_updated_at action))) ])).

Definition update_action_status (action_id : nat) (status : string)
  (notes : option string) : World -> response * World :=
  handle 400
    (action <- InvestigationService.update_action_status action_id status notes ;;
     ret (JObj [ ("id", int action_id);
                 ("investigation_id", int (a_investigation_id action));
                 ("status", JStr (a_status action));
                 ("notes", str_or_none (a_notes action));
                 ("completed_at", isoformat_or_none (a_completed_at action));
                 ("updated_at", JStr (isoformat (a_updated_at action))) ])).

Definition resolve_investigation (investigation_id : nat)
  (resolution_notes : string) : World -> response * World :=
  handle 400
    (investigation <- InvestigationService.resolve_investigation investigation_id
                        resolution_notes ;;
     ret (JObj [ ("id", int investigation_id);
                 ("reference_number", JStr (i_reference_number investigation));
                 ("status", JStr (i_status investigation));
                 ("resolution_notes", str_or_none (i_resolution_notes investigation));
                 ("resolved_at", isoformat_or_none (i_resolved_at investigation));
                 ("updated_at", JStr (isoformat (i_updated_at investigation))) ])).

Definition close_investigation (investigation_id : nat) : World -> response * World :=
  handle 400
    (investigation <- InvestigationService.close_investigation investigation_id ;;
     ret (JObj [ ("id", int investigation_id);
                 ("reference_number", JStr (i_reference_number investigation));
                 ("status", JStr (i_status investigation));
                 ("updated_at", JStr (isoformat (i_updated_at investigation))) ])).

Definition generate_customer_notification (investigation_id : nat)
  (notification_type : string) : World -> response * World :=
  handle 400
    (InvestigationReports.generate_customer_notification investigation_id
       notification_type).

End Routes.
End InvestigationRoutes.

Module MTRoutes.
Section Routes.
Context {lib : PyLib} {out : Outside}.

Definition formatted_response (reference response_template : string) : string :=
  "{1:F01SENDERXXXXXX0000000000}
{2:I199RECEIVERXXXXN}
{4:
:20:"
  +:+ reference
  +:+ "
:21:REPLY
:79:"
  +:+ response_template
  +:+ "
-}".

(** [analyze_mt199]; the line that logs the workcase type reads it with
    [result.get]. *)
Definition analyze_mt199 (content : string) : World -> response * World :=
  handle 500
    (result <- MTService._process_mt199_stp_failure content ;;
     lift (method_get result "workcase_type" JNull) ;;;
     present <- lift (contains "mt199_formatted_response" result) ;;
     if present then ret result
     else
       extracted_fields <- lift (method_get result "extracted_fields" (JObj [])) ;;
       reference <- lift (method_get extracted_fields "reference" (JStr "REF1234")) ;;
       response_template <-
         lift (method_get result "response_template"
                 (JStr "Investigation in progress. Will update shortly.")) ;;
       lift (setitem result "mt199_formatted_response"
               (JStr (formatted_response (py_str reference)
                        (py_str response_template))))).

End Routes.
End MTRoutes.

(** ** Vocabulary of the statements *)

(** The investigation [id] owns at least one action. *)
Definition has_action (db : Store) (id : nat) : Prop :=
  exists k a, actions db !! k = Some a /\ a_investigation_id a = id.

(** Every action owned by the investigation [id] has status completed. *)
Definition all_completed (db : Store) (id : nat) : Prop :=
  forall k a, actions db !! k = Some a -> a_investigation_id a = id ->
              a_status a = "completed".

(** The world after [n] more readings of the clock. *)
Definition tick (n : nat) (w : World) : World :=
  {| store := store w; sent := sent w; reads := n + reads w; draws := draws w |}.

Definition with_store (db : Store) (w : World) : World :=
  {| store := db; sent := sent w; reads := reads w; draws := draws w |}.

(** The test of [_check_investigation_completion] on the two counts. *)
Definition completion_due (db : Store) (id : nat) : bool :=
  bool_decide (0 < length (filter (fun a => a_investigation_id a = id)
                                  (rows (actions db))))
  && bool_decide (length (filter (fun a => a_investigation_id a = id)
                                 (rows (actions db)))
                  = length (filter (fun a => a_investigation_id a = id
                                             /\ a_status a = "completed")
                                   (rows (actions db)))).

(** The row written by [_check_investigation_completion]. *)
Definition resolved_by_check (t1 t2 : Z) (i : Investigation) : Investigation :=
  inv_set_updated_at t2 (inv_set_resolved_at (Some t1) (inv_set_status "resolved" i)).

(** The row written by [update_action_status]. *)
Definition updated_action (t1 t2 : Z) (status : string) (notes : option string)
  (action : InvestigationAction) : InvestigationAction :=
  let a := act_set_updated_at t1 (act_set_notes notes (act_set_status status action)) in
  if String.eqb status "completed" then act_set_completed_at (Some t2) a else a.

(** The reference number drawn in the world [w]. *)
Definition drawn_reference {lib : PyLib} {out : Outside} (w : World) : string :=
  "INV" +:+ "-" +:+ strftime "%Y%m%d" (clock (reads w)) +:+ "-"
  +:+ random_choices (draws w).

(** [a] occurs in [s]. *)
Fixpoint occurs (a : ascii) (s : string) : bool :=
  match s with
  | EmptyString => false
  | String b s' => Ascii.eqb b a || occurs a s'
  end.

(** [blob] is the part of [s] from its first [o] through its last [c]. *)
Definition spans (o c : ascii) (s blob : string) : Prop :=
  exists pre mid post,
    s = pre +:+ String o (mid +:+ String c post) /\
    occurs o pre = false /\
    occurs c post = false /\
    blob = String o (mid +:+ String c EmptyString).

(** The basic structure [_extract_attributes] falls back to. *)
Definition extraction_fallback (response : string) : json :=
  JObj [ ("attributes", JObj [ ("raw_extraction", JStr response) ]);
         ("notes", JStr "Could not extract structured data") ].

(** A template cut into literal characters and replacement fields, by the
    scan of [str_format]. *)
Inductive segment : Type :=
| Lit (a : ascii)
| Field (name : string).

Fixpoint parse_template (field : option string) (s : string)
  : option (list segment) :=
  match s with
  | EmptyString =>
      match field with
      | None => Some []
      | Some _ => None
      end
  | String a s' =>
      match field with
      | None =>
          if Ascii.eqb a "{" then
            match s' with
            | String b s'' =>
                if Ascii.eqb b "{"
                then option_map (cons (Lit "{")) (parse_template None s'')
                else parse_template (Some EmptyString) s'
            | EmptyString => None
            end
          else if Ascii.eqb a "}" then
            match s' with
            | String b s'' =>
                if Ascii.eqb b "}"
                then option_map (cons (Lit "}")) (parse_template None s'')
                else None
            | EmptyString => None
            end
          else option_map (cons (Lit a)) (parse_template None s')
      | Some name =>
          if Ascii.eqb a "}"
          then option_map (cons (Field name)) (parse_template None s')
          else if name_char a then
            parse_template (Some (name +:+ String a EmptyString)) s'
          else None
      end
  end.

Definition template_segments (template : string) : list segment :=
  match parse_template None template with
  | Some segs => segs
  | None => []
  end.

(** [str.format] on a template already cut into segments. *)
Fixpoint render {lib : PyLib} (kwargs : list (string * json)) (segs : list segment)
  : Result string :=
  match segs with
  | [] => Ok EmptyString
  | Lit a :: segs' => prepend (String a EmptyString) (render kwargs segs')
  | Field name :: segs' =>
      match lookup_field kwargs name with
      | Ok v => prepend (py_str v) (render kwargs segs')
      | Raised e => Raised e
      end
  end.

(** The segments with every field replaced by the text [f] gives it. *)
Fixpoint fill (f : string -> string) (segs : list segment) : string :=
  match segs with
  | [] => EmptyString
  | Lit a :: segs' => String a (fill f segs')
  | Field name :: segs' => f name +:+ fill f segs'
  end.

Definition field_names (segs : list segment) : list string :=
  omap (fun seg => match seg with Field n => Some n | Lit _ => None end) segs.

Definition placeholders : list string :=
  ["reference"; "recipient"; "amount"; "currency"; "date"; "beneficiary"; "reason"].

(** What [safe_values] holds for a placeholder. *)
Definition placeholder_value (fields : list (string * json)) (today : string)
  (name : string) : json :=
  if String.eqb name "reference" then
    dict_get_default "reference" (JStr "Unknown") fields
  else if String.eqb name "recipient" then
    dict_get_default "recipient" (JStr "Valued Correspondent") fields
  else if String.eqb name "amount" then
    dict_get_default "amount" (JStr "Unknown") fields
  else if String.eqb name "currency" then
    dict_get_default "currency" (JStr "USD") fields
  else if String.eqb name "date" then
    dict_get_default "date" (JStr today) fields
  else if String.eqb name "beneficiary" then
    dict_get_default "beneficiary" (JStr "Unknown") fields
  else JStr "Customer request".

(** The text of an extracted field, or of its default. *)
Definition field_text {lib : PyLib} (fields : list (string * json))
  (key default : string) : string :=
  py_str (dict_get_default key (JStr default) fields).

(** The three templates with their placeholders replaced by given texts. *)
Definition rendered_NON_RECEIPT
  (reference recipient amount currency date beneficiary reason : string)
  : string :=
  "
Subject: Investigation - Non-Receipt of Funds - Ref: " +:+ reference +:+ "

Dear " +:+ recipient +:+ ",

We are investigating a case of non-receipt of funds reported by the beneficiary.

Transaction details:
- Reference: " +:+ reference +:+ "
- Amount: " +:+ amount +:+ " " +:+ currency +:+ "
- Date: " +:+ date +:+ "
- Beneficiary: " +:+ beneficiary +:+ "

Please provide information on the status of this payment.

Thank you,
Investigation Team
            ".

Definition rendered_CANCELLATION
  (reference recipient amount currency date beneficiary reason : string)
  : string :=
  "
Subject: Urgent Cancellation Request - Ref: " +:+ reference +:+ "

Dear " +:+ recipient +:+ ",

We request the cancellation of the following payment:

Transaction details:
- Reference: " +:+ reference +:+ "
- Amount: " +:+ amount +:+ " " +:+ currency +:+ "
- Date: " +:+ date +:+ "

Reason for cancellation: " +:+ reason +:+ "

Please confirm.
            ".

Definition rendered_UNKNOWN
  (reference recipient amount currency date beneficiary reason : string)
  : string :=
  "
Subject: Investigation Request - Ref: " +:+ reference +:+ "

Dear " +:+ recipient +:+ ",

We are investigating the following transaction:

Transaction details:
- Reference: " +:+ reference +:+ "

We will provide additional information shortly.

Thank you,
Investigation Team
            ".

(** The text a response template is expected to become, by workcase type. *)
Definition rendered (workcase_type : string)
  (reference recipient amount currency date beneficiary reason : string)
  : string :=
  if String.eqb workcase_type "NON_RECEIPT" then
    rendered_NON_RECEIPT reference recipient amount currency date beneficiary reason
  else if String.eqb workcase_type "CANCELLATION" then
    rendered_CANCELLATION reference recipient amount currency date beneficiary reason
  else rendered_UNKNOWN reference recipient amount currency date beneficiary reason.

(** A computation that sends nothing to the generative service. *)
Definition silent {A : Type} (c : M A) : Prop :=
  forall w, sent (snd (c w)) = sent w.

(** The prompt and the parsing of the first call of [process_single_message]. *)
Definition base_prompt (mode message_content : string) : string :=
  if String.eqb mode "convert" then MTService.convert_prompt message_content
  else MTService.extract_prompt message_content.

Definition base_result {lib : PyLib} (mode response : string) : json :=
  if String.eqb mode "convert" then MTService.normalize_conversion response
  else MTService.normalize_extraction response.

(** The stages of [process_single_message]. *)
Definition message_id_stage {out : Outside} (message_id : option string)
  : M string :=
  match message_id with
  | Some id =>
      if String.eqb id "" then
        now <- utcnow ;;
        ret ("MT-" +:+ pretty (now / 1000000)%Z)
      else ret id
  | None =>
      now <- utcnow ;;
      ret ("MT-" +:+ pretty (now / 1000000)%Z)
  end.

Definition merge_stage {lib : PyLib} {out : Outside} (message_content : string)
  (result : json) : M json :=
  if MTService.is_mt199 message_content then
    workcase_info <- MTService._process_mt199_stp_failure message_content ;;
    present <- lift (contains "attributes" result) ;;
    if present then
      attributes <- lift (getitem result "attributes") ;;
      merged <- lift (update_method attributes workcase_info) ;;
      lift (setitem result "attributes" merged)
    else lift (setitem result "attributes" workcase_info)
  else ret result.

Definition stamp_stage {lib : PyLib} {out : Outside} (start_time : Z)
  (message_id : string) (result : json) : M (json * json) :=
  end_time <- utcnow ;;
  let processing_time := JNum (end_time - start_time) (-6) in
  result <- lift (setitem result "message_id" (JStr message_id)) ;;
  result <- lift (setitem result "processing_time" processing_time) ;;
  now <- utcnow ;;
  result <- lift (setitem result "processed_at" (JStr (isoformat now))) ;;
  ret (result, processing_time).


(** The entry produced for one row of a bulk input, and the world reached. *)
Definition row_outcome {lib : PyLib} {out : Outside} (mode : string)
  (row : string * string) (w : World) : json * World :=
  match MTService.process_single_message (snd row) mode (Some (fst row)) w with
  | (Ok r, w') => (fst r, w')
  | (Raised e, w') =>
      (JObj [ ("message_id", JStr (fst row));
              ("error", JStr (exn_str e));
              ("processed_at", JStr (isoformat (clock (reads w')))) ],
       tick 1 w')
  end.

(** ** Vocabulary of the further properties *)

(** A call of the case service. *)
Inductive call : Type :=
| CreateInvestigation (message_id : nat) (priority : string) (customer_info : option json)
| AddAction (investigation_id : nat) (action_type description : string)
    (suggested_response : option string) (priority : string) (deadline_days : Z)
| UpdateActionStatus (action_id : nat) (status : string) (notes : option string)
| ResolveInvestigation (investigation_id : nat) (resolution_notes : string)
| CloseInvestigation (investigation_id : nat).

(** The world after a call, whether it returned or raised. *)
Definition perform {lib : PyLib} {out : Outside} (c : call) (w : World) : World :=
  match c with
  | CreateInvestigation m p ci =>
      snd (InvestigationService.create_investigation m p ci w)
  | AddAction i ty d r p days =>
      snd (InvestigationService.add_investigation_action i ty d r p days w)
  | UpdateActionStatus a s n =>
      snd (InvestigationService.update_action_status a s n w)
  | ResolveInvestigation i text =>
      snd (InvestigationService.resolve_investigation i text w)
  | CloseInvestigation i =>
      snd (InvestigationService.close_investigation i w)
  end.

Definition perform_all {lib : PyLib} {out : Outside} (cs : list call) (w : World)
  : World :=
  fold_left (fun w c => perform c w) cs w.

(** A computation that leaves the tables alone. *)
Definition reads_only {A : Type} (c : M A) : Prop :=
  forall w, store (snd (c w)) = store w.

(** The columns of a case that no call writes after creation. *)
Definition same_identity (inv inv' : Investigation) : Prop :=
  i_reference_number inv' = i_reference_number inv /\
  i_message_id inv' = i_message_id inv /\
  i_priority inv' = i_priority inv /\
  i_customer_info inv' = i_customer_info inv /\
  i_created_at inv' = i_created_at inv.

(** What one call can do to a case that exists. *)
Definition case_evolves (inv inv' : Investigation) : Prop :=
  same_identity inv inv' /\
  (inv' = inv \/
   (i_status inv = "open" /\ i_status inv' = "in_progress" /\
    i_resolved_at inv' = i_resolved_at inv /\
    i_resolution_notes inv' = i_resolution_notes inv) \/
   (i_status inv' = "resolved" /\ is_Some (i_resolved_at inv')) \/
   i_status inv' = "closed").

(** A case as [create_investigation] stores it. *)
Definition new_case (db : Store) (inv : Investigation) : Prop :=
  i_status inv = "open" /\ i_resolved_at inv = None /\
  i_resolution_notes inv = None /\
  InvestigationService.reference_in_use db (i_reference_number inv) = false /\
  is_Some (messages db !! i_message_id inv).

(** What one call can do to an action that exists. *)
Definition action_evolves (a a' : InvestigationAction) : Prop :=
  a_investigation_id a' = a_investigation_id a /\
  a_action_type a' = a_action_type a /\
  a_description a' = a_description a /\
  a_suggested_response a' = a_suggested_response a /\
  a_priority a' = a_priority a /\
  a_deadline a' = a_deadline a /\
  a_created_at a' = a_created_at a /\
  (a' = a \/ (a_status a' = "completed" -> is_Some (a_completed_at a'))).

(** An action as the service stores it. *)
Definition new_action (db' : Store) (a : InvestigationAction) : Prop :=
  a_status a = "pending" /\ a_completed_at a = None /\
  is_Some (investigations db' !! a_investigation_id a).

(** What one call can do to the tables: rows are kept and evolve, at most
    one case is new, new rows are as the service creates them. *)
Definition evolves (db db' : Store) : Prop :=
  messages db' = messages db /\
  (forall i inv, investigations db !! i = Some inv ->
     exists inv', investigations db' !! i = Some inv' /\ case_evolves inv inv') /\
  (forall i j inv1 inv2,
     investigations db' !! i = Some inv1 -> investigations db !! i = None ->
     investigations db' !! j = Some inv2 -> investigations db !! j = None ->
     i = j /\ new_case db inv1) /\
  (forall k a, actions db !! k = Some a ->
     exists a', actions db' !! k = Some a' /\ action_evolves a a') /\
  (forall k a', actions db' !! k = Some a' -> actions db !! k = None ->
     new_action db' a').

(** Reference numbers are unique, every action belongs to a stored case and
    every case to a stored message. *)
Definition referential_integrity (db : Store) : Prop :=
  (forall i j inv1 inv2,
     investigations db !! i = Some inv1 -> investigations db !! j = Some inv2 ->
     i_reference_number inv1 = i_reference_number inv2 -> i = j) /\
  (forall k a, actions db !! k = Some a ->
     is_Some (investigations db !! a_investigation_id a)) /\
  (forall i inv, investigations db !! i = Some inv ->
     is_Some (messages db !! i_message_id inv)).

(** Status and time stamps agree. *)
Definition case_coherent (inv : Investigation) : Prop :=
  i_status inv ∈ ["open"; "in_progress"; "resolved"; "closed"] /\
  (i_status inv = "open" \/ i_status inv = "in_progress" ->
   i_resolved_at inv = None /\ i_resolution_notes inv = None) /\
  (i_status inv = "resolved" -> is_Some (i_resolved_at inv)).

Definition coherent (db : Store) : Prop :=
  (forall i inv, investigations db !! i = Some inv -> case_coherent inv) /\
  (forall k a, actions db !! k = Some a ->
     a_status a = "completed" -> is_Some (a_completed_at a)).

(** A case that is resolved or closed. *)
Definition settled (inv : Investigation) : Prop :=
  i_status inv = "resolved" \/ i_status inv = "closed".

(** The row [create_investigation] builds in the world [w]. *)
Definition created_case {lib : PyLib} {out : Outside} (w : World) (message_id : nat)
  (priority : string) (customer_info : option json) : Investigation :=
  {| i_reference_number := drawn_reference w; i_message_id := message_id;
     i_status := "open"; i_priority := priority;
     i_customer_info :=
       match customer_info with
       | Some c => if truthy c then Some (json_dumps None c) else None
       | None => None
       end;
     i_resolution_notes := None; i_created_at := clock (S (reads w));
     i_updated_at := clock (S (S (reads w))); i_resolved_at := None |}.

(** The world after [n] readings of the clock and one random draw. *)
Definition drawn (n : nat) (w : World) : World :=
  {| store := store w; sent := sent w; reads := n + reads w; draws := S (draws w) |}.

(** The columns of an action that no call writes after creation. *)
Definition same_task (a a' : InvestigationAction) : Prop :=
  a_investigation_id a' = a_investigation_id a /\
  a_action_type a' = a_action_type a /\
  a_description a' = a_description a /\
  a_suggested_response a' = a_suggested_response a /\
  a_priority a' = a_priority a /\
  a_deadline a' = a_deadline a /\
  a_created_at a' = a_created_at a.

(** The action stored when the suggestions cannot be parsed. *)
Definition default_action_row {out : Outside} (id : nat) (delta : Z) (w : World)
  : InvestigationAction :=
  {| a_investigation_id := id; a_action_type := JStr "information_request";
     a_description := JStr "Analyze the message and determine next steps";
     a_suggested_response :=
       JStr "Based on our initial analysis, we need to investigate further.";
     a_status := "pending"; a_priority := JStr "medium"; a_notes := None;
     a_deadline := Some (clock (reads w) + delta)%Z; a_completed_at := None;
     a_created_at := clock (S (reads w)); a_updated_at := clock (S (S (reads w))) |}.

(** A value that can be the key of a dict. *)
Definition hashable (v : json) : bool :=
  match v with
  | JArr _ => false
  | JObj _ => false
  | _ => true
  end.

(** The hours that [_get_default_sla] gives to a stage. *)
Definition sla_hours (workcase_type : json)
  (stage : string) : option Z :=
  match getitem (MTService._get_default_sla workcase_type) stage with
  | Ok (JNum h 0) => Some h
  | _ => None
  end.

(** The message id [process_single_message] gives to a message. *)
Definition assigned_id {out : Outside} (message_id : option string) (w : World)
  : string :=
  match message_id with
  | Some id =>
      if String.eqb id "" then "MT-" +:+ pretty (clock (S (reads w)) / 1000000)%Z
      else id
  | None => "MT-" +:+ pretty (clock (S (reads w)) / 1000000)%Z
  end.

(** A computation that never sets the clock back. *)
Definition advancing {A : Type} (c : M A) : Prop :=
  forall w, reads w <= reads (snd (c w)).

(** The prompts [process_single_message] sends in the world [w]. *)
Definition prompts_of {lib : PyLib} {out : Outside} (mode : string)
  (message_content : string) (w : World) : list string :=
  base_prompt mode message_content ::
  (if MTService.is_mt199 message_content then
     match respond (sent w) (base_prompt mode message_content) with
     | Ok _ => [MTService.mt199_prompt message_content]
     | Raised _ => []
     end
   else []).

(** A case whose customer information can be listed: absent, or stored as
    the text of an object. *)
Definition listable {lib : PyLib} {errors : PyErrors} (inv : Investigation) : Prop :=
  exists d, InvestigationReports.load_customer_info (i_customer_info inv) = Ok (JObj d).

(** The filter [if x: query.filter(col == x)] as a condition on a row. *)
Definition passes (x : option string) (value : string) : Prop :=
  x = None \/ x = Some "" \/ x = Some value.

(** The status code of the routes that answer 400 to a [ValueError]. *)
Definition status_code_of (e : exn) : nat :=
  match e with
  | ValueError _ => 400
  | _ => 500
  end.

(** The prompt [generate_customer_notification] sends for a case. *)
Definition prompt_for {lib : PyLib}
  (inv : Investigation) (customer_info : json) (notification_type : string) : string :=
  InvestigationReports.notification_prompt (i_reference_number inv) (i_status inv)
    (isoformat (i_created_at inv)) customer_info notification_type.

(** The four entries [generate_customer_notification] writes last. *)
Definition with_metadata {lib : PyLib} (id : nat) (reference_number : string)
  (generated_at : Z) (notification_type : string) (d : list (string * json))
  : list (string * json) :=
  dict_set "notification_type" (JStr notification_type)
    (dict_set "generated_at" (JStr (isoformat generated_at))
       (dict_set "reference_number" (JStr reference_number)
          (dict_set "investigation_id" (InvestigationReports.int id) d))).

(** A date the library can represent: from the first microsecond of the
    year 1 to the last of the year 9999. *)
Definition representable (t : Z) : Prop :=
  (-62135596800000000 <= t <= 253402300799999999)%Z.





(** ** Fixtures *)

(** A stand-in for the library: the parser knows the empty object and the
    empty array only. *)
Definition fixture_lib : PyLib := {|
  json_loads := fun s =>
    if String.eqb s "{}" then Some (JObj [])
    else if String.eqb s "[]" then Some (JArr [])
    else None;
  json_dumps := fun _ _ => "{}";
  py_repr := fun _ => "?";
  builtin_message := fun _ => "error";
  strftime := fun _ _ => "20240101";
  strftime_local := fun _ _ => "2024-01-01";
  isoformat := fun t => pretty t;
  timedelta_days := fun v =>
    match v with
    | JNum m 0 => Ok (m * 86400000000)%Z
    | _ => Raised TypeError
    end
|}.

(** The generative service is unreachable. *)
Definition offline : Outside := {|
  respond := fun _ _ => Raised (Exception "Error calling OpenAI API: connection refused");
  clock := fun n => Z.of_nat n;
  random_choices := fun _ => "AB12"
|}.

(** The generative service answers with an empty object wrapped in prose,
    and raises on a prompt that holds the text BROKEN. *)
Definition flaky : Outside := {|
  respond := fun _ prompt =>
    if is_substring "BROKEN" prompt
    then Raised (Exception "Error calling OpenAI API: timeout")
    else Ok "Here you are: {} I hope this helps";
  clock := fun n => Z.of_nat n;
  random_choices := fun _ => "AB12"
|}.

Definition case1 (status : string) (resolved : option Z) : Investigation :=
  {| i_reference_number := "INV-20231231-ZZ99"; i_message_id := 1;
     i_status := status; i_priority := "high"; i_customer_info := None;
     i_resolution_notes := None; i_created_at := 0; i_updated_at := 0;
     i_resolved_at := resolved |}.

Definition step1 (status : string) (completed : option Z) : InvestigationAction :=
  {| a_investigation_id := 1; a_action_type := JStr "information_request";
     a_description := JStr "Ask the sender"; a_suggested_response := JNull;
     a_status := status; a_priority := JStr "medium"; a_notes := None;
     a_deadline := None; a_completed_at := completed;
     a_created_at := 0; a_updated_at := 0 |}.

Definition mt199_message : Message :=
  {| m_message_id := "MT-1"; m_content := "{1:F01BANK}{2:I199BANKDEFF}";
     m_attributes := [] |}.

(** One message, one case, one action. *)
Definition world_of (inv : Investigation) (act : InvestigationAction) : World :=
  {| store := {| messages := {[ 1 := mt199_message ]};
                 investigations := {[ 1 := inv ]};
                 actions := {[ 1 := act ]} |};
     sent := []; reads := 10; draws := 0 |}.

(** One message, no case yet. *)
Definition empty_world : World :=
  {| store := {| messages := {[ 1 := mt199_message ]};
                 investigations := ∅; actions := ∅ |};
     sent := []; reads := 0; draws := 0 |}.

(** The only action of a case is completed, a second action is added and
    completed as well; the result is [resolved_at] after the first and after
    the second completion. *)
Definition recompletion : M (option (option Z) * option (option Z)) :=
  InvestigationService.update_action_status (out := offline) 1 "completed" None ;;;
  db <- get_store ;;
  let first := i_resolved_at <$> investigations db !! 1 in
  r <- InvestigationService.add_investigation_action (lib := fixture_lib)
         (out := offline) 1 "other" "Call the customer" None "medium" 3 ;;
  InvestigationService.update_action_status (out := offline) (fst r) "completed" None ;;;
  db <- get_store ;;
  ret (first, i_resolved_at <$> investigations db !! 1).

(** Three rows of a bulk input; the second makes the service raise. *)
Definition three_rows : list (string * string) :=
  [ ("M1", "{1:F01BANK}{2:I103BANKDEFF}");
    ("M2", "BROKEN");
    ("M3", "{1:F01BANK}{2:I199BANKDEFF}") ].

(** The generative service answers with an empty list. *)
Definition terse : Outside := {|
  respond := fun _ _ => Ok "[]";
  clock := fun n => Z.of_nat n;
  random_choices := fun _ => "AB12"
|}.

(** The generative service answers in prose. *)
Definition chatty : Outside := {|
  respond := fun _ _ => Ok "I cannot help with that";
  clock := fun n => Z.of_nat n;
  random_choices := fun _ => "AB12"
|}.

(** An engine that sorts by merging, and that reads a negative limit as no
    limit and a negative offset as none. *)
Definition fixture_engine : Engine := {|
  order_by := fun A col l =>
    @merge_sort _ (fun x y : nat * A => (col (snd x) <= col (snd y))%Z)
      (fun x y => decide (col (snd x) <= col (snd y))%Z) l;
  order_by_rows := fun A col l =>
    @merge_sort_Permutation _ (fun x y : nat * A => (col (snd x) <= col (snd y))%Z)
      (fun x y => decide (col (snd x) <= col (snd y))%Z) l;
  order_by_sorted := fun A col l =>
    @StronglySorted_merge_sort _
      (fun x y : nat * A => (col (snd x) <= col (snd y))%Z)
      (fun x y => decide (col (snd x) <= col (snd y))%Z)
      (fun x y z Hxy Hyz => Z.le_trans _ _ _ Hxy Hyz)
      (fun x y => Z.le_ge_cases _ _) l;
  offset_rows := fun A n l => if (0 <=? n)%Z then drop (Z.to_nat n) l else l;
  offset_rows_nonneg := fun A n l Hn =>
    @eq_ind_r bool true
      (fun b : bool => (if b then drop (Z.to_nat n) l else l) = drop (Z.to_nat n) l)
      eq_refl (0 <=? n)%Z (proj2 (Z.leb_le 0 n) Hn);
  limit_rows := fun A n l => if (0 <=? n)%Z then take (Z.to_nat n) l else l;
  limit_rows_nonneg := fun A n l Hn =>
    @eq_ind_r bool true
      (fun b : bool => (if b then take (Z.to_nat n) l else l) = take (Z.to_nat n) l)
      eq_refl (0 <=? n)%Z (proj2 (Z.leb_le 0 n) Hn)
|}.

Definition fixture_errors : PyErrors := {|
  decode_error := fun _ => "Expecting value: line 1 column 1 (char 0)"
|}.

(** The text of [n] times the character [a]. *)
Fixpoint repeated (a : ascii) (n : nat) : string :=
  match n with
  | O => EmptyString
  | S n' => String a (repeated a n')
  end.


(** The generative service answers with 1000 opening brackets. *)
Definition nested : Outside := {|
  respond := fun _ _ => Ok (repeated "[" 1000);
  clock := fun n => Z.of_nat n;
  random_choices := fun _ => "AB12"
|}.

(** Two limits of the interpreter with its default settings. The digits of
    an integer, on a text that is an integer literal without sign: more than
    4300 digits, the first of them not 0. The depth of the recursion, on a
    text of opening brackets alone: 1000 of them or more. *)
Definition default_limits : PyLimits := {|
  json_loads_limit := fun s =>
    if negb (String.prefix "0" s) && forallb is_digit (list_ascii_of_string s)
       && (4300 <? String.length s)%nat
    then Some (ValueError
                 ("Exceeds the limit (4300 digits) for integer string conversion: value has "
                  +:+ pretty (String.length s)
                  +:+ " digits; use sys.set_int_max_str_digits() to increase the limit"))
    else if forallb (Ascii.eqb "[") (list_ascii_of_string s)
            && (1000 <=? String.length s)%nat
    then Some (RecursionError
                 "maximum recursion depth exceeded while decoding a JSON array from a unicode string")
    else None
|}.

(** * Properties *)

(** ** Counting the actions of a case *)

Section Counting.

Lemma rows_elem {A : Type} (t : gmap nat A) (x : A) :
  x ∈ rows t <-> exists k, t !! k = Some x.
Proof.
  unfold rows. rewrite list_elem_of_fmap. split.
  - intros [[k y] [-> Hin]]. exists k. by apply elem_of_map_to_list.
  - intros [k Hk]. exists (k, x). split; [done|]. by apply elem_of_map_to_list.
Qed.

Lemma count_all {A : Type} (P Q : A -> Prop)
  `{forall x, Decision (P x)} `{forall x, Decision (Q x)} (l : list A) :
  length (filter (fun x => P x /\ Q x) l) <= length (filter P l) /\
  (length (filter P l) = length (filter (fun x => P x /\ Q x) l)
   <-> forall x, x ∈ l -> P x -> Q x).
Proof.
  induction l as [|x l [IHle IHeq]].
  - split; [done|]. split; [|done]. intros _ x Hx. by apply elem_of_nil in Hx.
  - rewrite !filter_cons.
    destruct (decide (P x)) as [HP|HP].
    + destruct (decide (P x /\ Q x)) as [HPQ|HPQ]; simpl.
      * split; [lia|]. rewrite Nat.succ_inj_wd, IHeq. split.
        -- intros Hall y Hy. apply elem_of_cons in Hy as [->|Hy]; [tauto|by apply Hall].
        -- intros Hall y Hy. apply Hall. by right.
      * split; [lia|]. split; [lia|].
        intros Hall. exfalso. apply HPQ. split; [done|]. apply Hall; [by left|done].
    + destruct (decide (P x /\ Q x)) as [HPQ|HPQ]; [tauto|].
      split; [done|]. rewrite IHeq. split.
      * intros Hall y Hy. apply elem_of_cons in Hy as [->|Hy]; [tauto|by apply Hall].
      * intros Hall y Hy. apply Hall. by right.
Qed.

Lemma count_pos {A : Type} (P : A -> Prop) `{forall x, Decision (P x)} (l : list A) :
  0 < length (filter P l) <-> exists x, x ∈ l /\ P x.
Proof.
  split.
  - intros Hlen. destruct (filter P l) as [|x l'] eqn:E; [simpl in Hlen; lia|].
    exists x. assert (Hx : x ∈ filter P l) by (rewrite E; by left).
    apply list_elem_of_filter in Hx. tauto.
  - intros [x [Hx HP]].
    assert (Hin : x ∈ filter P l) by (apply list_elem_of_filter; tauto).
    destruct (filter P l); [by apply elem_of_nil in Hin|simpl; lia].
Qed.

(** The two counts agree and are positive exactly when the case has an
    action and all its actions are completed. *)
Lemma completion_due_iff (db : Store) (id : nat) :
  completion_due db id = true <-> has_action db id /\ all_completed db id.
Proof.
  unfold completion_due, has_action, all_completed.
  rewrite andb_true_iff, !bool_decide_eq_true.
  rewrite count_pos.
  pose proof (count_all (fun a => a_investigation_id a = id)
                (fun a => a_status a = "completed") (rows (actions db))) as [_ ->].
  split.
  - intros [[a [Ha Hid]] Hall]. apply rows_elem in Ha as [k Hk]. split.
    + by exists k, a.
    + intros k' a' Hk' Hid'. apply Hall; [|done]. apply rows_elem. by exists k'.
  - intros [[k [a [Hk Hid]]] Hall]. split.
    + exists a. split; [|done]. apply rows_elem. by exists k.
    + intros a' Ha' Hid'. apply rows_elem in Ha' as [k' Hk']. by eapply Hall.
Qed.

Lemma completion_due_ext (db1 db2 : Store) (id : nat) :
  actions db1 = actions db2 -> completion_due db1 id = completion_due db2 id.
Proof. unfold completion_due. by intros ->. Qed.

Lemma new_id_fresh {A : Type} (t : gmap nat A) : t !! new_id t = None.
Proof.
  destruct (t !! new_id t) as [x|] eqn:E; [|done]. exfalso.
  assert (Hin : new_id t ∈ elements (dom t)).
  { apply elem_of_elements, elem_of_dom. by exists x. }
  apply max_list_elem_of_le in Hin. unfold new_id in Hin. lia.
Qed.

End Counting.

(** ** The case lifecycle *)

Section Lifecycle.
Context {lib : PyLib} {out : Outside}.
Import InvestigationService.

Lemma check_run (id : nat) (w : World) :
  _check_investigation_completion id w =
  match investigations (store w) !! id with
  | Some inv =>
      if completion_due (store w) id
      then (Ok tt,
            tick 2 (with_store
                      (set_investigations
                         (<[id := resolved_by_check (clock (reads w))
                                    (clock (S (reads w))) inv]>
                            (investigations (store w))) (store w)) w))
      else (Ok tt, w)
  | None => (Ok tt, w)
  end.
Proof.
  unfold _check_investigation_completion, bind, get_store. simpl.
  destruct (investigations (store w) !! id) as [inv|]; [|done].
  fold (completion_due (store w) id).
  destruct (completion_due (store w) id); done.
Qed.

Lemma check_ok (id : nat) (w : World) :
  _check_investigation_completion id w =
  (Ok tt, snd (_check_investigation_completion id w)).
Proof.
  rewrite check_run.
  destruct (investigations (store w) !! id); [|done].
  destruct (completion_due (store w) id); done.
Qed.

Lemma check_keeps_actions (id : nat) (w : World) :
  actions (store (snd (_check_investigation_completion id w))) = actions (store w).
Proof.
  rewrite check_run.
  destruct (investigations (store w) !! id); [|done].
  destruct (completion_due (store w) id); done.
Qed.

Lemma check_investigations (id : nat) (w : World) :
  investigations (store (snd (_check_investigation_completion id w))) =
  match investigations (store w) !! id with
  | Some inv =>
      if completion_due (store w) id
      then <[id := resolved_by_check (clock (reads w)) (clock (S (reads w))) inv]>
             (investigations (store w))
      else investigations (store w)
  | None => investigations (store w)
  end.
Proof.
  rewrite check_run.
  destruct (investigations (store w) !! id); [|done].
  destruct (completion_due (store w) id); done.
Qed.

(** An action that is not completed keeps the completion check from firing. *)
Lemma check_blocked (id k : nat) (a : InvestigationAction) (w : World) :
  actions (store w) !! k = Some a ->
  a_investigation_id a = id ->
  a_status a <> "completed" ->
  _check_investigation_completion id w = (Ok tt, w).
Proof.
  intros Hk Hid Hst. rewrite check_run.
  destruct (investigations (store w) !! id); [|done].
  destruct (completion_due (store w) id) eqn:E; [|done].
  apply completion_due_iff in E as [_ Hall]. exfalso. by eapply Hst, Hall.
Qed.

(** A case without actions is left alone by the completion check. *)
Lemma check_without_actions (id : nat) (w : World) :
  ~ has_action (store w) id ->
  _check_investigation_completion id w = (Ok tt, w).
Proof.
  intros Hno. rewrite check_run.
  destruct (investigations (store w) !! id); [|done].
  destruct (completion_due (store w) id) eqn:E; [|done].
  apply completion_due_iff in E as [Hhas _]. done.
Qed.

(** When the test holds the check writes the status and both time stamps,
    whatever the case held before. *)
Lemma check_fires (id : nat) (w : World) (inv : Investigation) :
  investigations (store w) !! id = Some inv ->
  has_action (store w) id ->
  all_completed (store w) id ->
  investigations (store (snd (_check_investigation_completion id w))) !! id
  = Some (resolved_by_check (clock (reads w)) (clock (S (reads w))) inv).
Proof.
  intros Hinv Hhas Hall. rewrite check_investigations, Hinv.
  assert (completion_due (store w) id = true) as -> by (by apply completion_due_iff).
  by rewrite lookup_insert_eq.
Qed.

Lemma update_run (w : World) (action_id : nat) (status : string)
  (notes : option string) (action : InvestigationAction) :
  actions (store w) !! action_id = Some action ->
  update_action_status action_id status notes w =
  let a' := updated_action (clock (reads w)) (clock (S (reads w))) status notes action in
  let w1 := tick (if String.eqb status "completed" then 2 else 1)
                 (with_store (set_actions (<[action_id := a']> (actions (store w)))
                                          (store w)) w) in
  (Ok a', snd (_check_investigation_completion (a_investigation_id action) w1)).
Proof.
  intros Hlook. unfold update_action_status, bind, get_store. simpl. rewrite Hlook.
  unfold updated_action.
  destruct (String.eqb status "completed"); simpl;
    rewrite check_ok; reflexivity.
Qed.

Lemma updated_action_status (t1 t2 : Z) (s : string) (notes : option string)
  (a : InvestigationAction) :
  a_status (updated_action t1 t2 s notes a) = s.
Proof. unfold updated_action. by destruct (String.eqb s "completed"). Qed.

Lemma updated_action_owner (t1 t2 : Z) (s : string) (notes : option string)
  (a : InvestigationAction) :
  a_investigation_id (updated_action t1 t2 s notes a) = a_investigation_id a.
Proof. unfold updated_action. by destruct (String.eqb s "completed"). Qed.

Lemma updated_action_completed_at (t1 t2 : Z) (s : string) (notes : option string)
  (a : InvestigationAction) :
  a_completed_at (updated_action t1 t2 s notes a) =
  if String.eqb s "completed" then Some t2 else a_completed_at a.
Proof. unfold updated_action. by destruct (String.eqb s "completed"). Qed.

(** C4. After [update_action_status] the owning case is resolved exactly
    when it has at least one action and all its actions are completed,
    counted after the update; a case for which this does not hold, among
    them every case without actions, keeps its row. *)
Theorem update_action_status_resolves_iff_all_completed
  (w : World) (action_id : nat) (status : string) (notes : option string)
  (action : InvestigationAction) :
  actions (store w) !! action_id = Some action ->
  exists action' w',
    update_action_status action_id status notes w = (Ok action', w') /\
    actions (store w') = <[action_id := action']> (actions (store w)) /\
    forall id inv,
      investigations (store w) !! id = Some inv ->
      (id = a_investigation_id action /\ has_action (store w') id
       /\ all_completed (store w') id ->
       exists inv', investigations (store w') !! id = Some inv'
                    /\ i_status inv' = "resolved") /\
      (~ (id = a_investigation_id action /\ has_action (store w') id
          /\ all_completed (store w') id) ->
       investigations (store w') !! id = Some inv).
Proof.
  intros Hlook. rewrite (update_run _ _ _ _ _ Hlook). cbv zeta.
  eexists _, _. split; [reflexivity|].
  match goal with
  | |- context [_check_investigation_completion ?i ?w0] =>
      set (owner := i); set (w1 := w0)
  end.
  split; [by rewrite check_keeps_actions|].
  intros id inv Hinv.
  assert (Hdue : forall j,
             completion_due (store (snd (_check_investigation_completion owner w1))) j
             = completion_due (store w1) j).
  { intros j. apply completion_due_ext, check_keeps_actions. }
  rewrite <- !completion_due_iff, !Hdue.
  rewrite check_investigations.
  assert (Hsame : investigations (store w1) = investigations (store w)) by done.
  rewrite !Hsame.
  destruct (decide (id = owner)) as [->|Hne].
  - rewrite Hinv. destruct (completion_due (store w1) owner).
    + split.
      * intros _. eexists. rewrite lookup_insert_eq. split; [reflexivity|done].
      * intros Hn. exfalso. by apply Hn.
    + split.
      * intros [_ Hd]. discriminate.
      * by intros _.
  - split; [intros [? _]; done|]. intros _.
    destruct (investigations (store w) !! owner); [|done].
    destruct (completion_due (store w1) owner); [|done].
    by rewrite lookup_insert_ne.
Qed.

(** C10. [update_action_status] stores any string as the status of the
    action; it writes [completed_at] only for the string "completed"; for
    every other string the action does not count as completed, so the
    completion check leaves every case as it was, and does so as long as
    the action keeps that status. *)
Theorem update_action_status_stores_status_verbatim
  (w : World) (action_id : nat) (s : string) (notes : option string)
  (action : InvestigationAction) :
  actions (store w) !! action_id = Some action ->
  exists action' w',
    update_action_status action_id s notes w = (Ok action', w') /\
    actions (store w') !! action_id = Some action' /\
    a_status action' = s /\
    (s = "completed" -> a_completed_at action' = Some (clock (S (reads w)))) /\
    (s <> "completed" ->
     a_completed_at action' = a_completed_at action /\
     ~ all_completed (store w') (a_investigation_id action) /\
     investigations (store w') = investigations (store w) /\
     forall w2 a2,
       actions (store w2) !! action_id = Some a2 ->
       a_investigation_id a2 = a_investigation_id action ->
       a_status a2 = s ->
       _check_investigation_completion (a_investigation_id action) w2 = (Ok tt, w2)).
Proof.
  intros Hlook. rewrite (update_run _ _ _ _ _ Hlook). cbv zeta.
  eexists _, _. split; [reflexivity|].
  match goal with
  | |- context [_check_investigation_completion ?i ?w0] =>
      set (owner := i); set (w1 := w0)
  end.
  assert (Hnew : actions (store w1) !! action_id
                 = Some (updated_action (clock (reads w)) (clock (S (reads w)))
                           s notes action)).
  { subst w1. simpl. by rewrite lookup_insert_eq. }
  split; [by rewrite check_keeps_actions|].
  split; [apply updated_action_status|].
  split.
  - intros ->. by rewrite updated_action_completed_at.
  - intros Hs. rewrite updated_action_completed_at.
    assert (String.eqb s "completed" = false) as -> by (by apply String.eqb_neq).
    split; [done|].
    rewrite (check_blocked owner action_id _ w1 Hnew).
    + split; [|split; [done|]].
      * intros Hall. apply Hs.
        rewrite <- (updated_action_status (clock (reads w)) (clock (S (reads w)))
                      s notes action).
        eapply Hall; [exact Hnew|]. apply updated_action_owner.
      * intros w2 a2 Hk Hid Hst. eapply check_blocked; [exact Hk|exact Hid|].
        by rewrite Hst.
    + apply updated_action_owner.
    + by rewrite updated_action_status.
Qed.

(** C5, amended. [update_action_status] stores the new status whatever the
    current one, so completed and cancelled are not terminal; it sets
    [completed_at] to the current time exactly when the new status is
    completed and leaves it alone otherwise, so a [completed_at] that is set
    is never cleared. *)
Theorem update_action_status_overwrites_any_status
  (w : World) (action_id : nat) (s : string) (notes : option string)
  (action : InvestigationAction) :
  actions (store w) !! action_id = Some action ->
  exists action' w',
    update_action_status action_id s notes w = (Ok action', w') /\
    actions (store w') !! action_id = Some action' /\
    a_status action' = s /\
    a_completed_at action' =
      (if String.eqb s "completed" then Some (clock (S (reads w)))
       else a_completed_at action) /\
    (is_Some (a_completed_at action) -> is_Some (a_completed_at action')).
Proof.
  intros Hlook. rewrite (update_run _ _ _ _ _ Hlook). cbv zeta.
  eexists _, _. split; [reflexivity|].
  split; [rewrite check_keeps_actions; simpl; by rewrite lookup_insert_eq|].
  split; [apply updated_action_status|].
  rewrite updated_action_completed_at. split; [done|].
  intros Hset. by destruct (String.eqb s "completed").
Qed.

(** [resolve_investigation] leaves a closed case closed. *)
Lemma resolve_investigation_keeps_closed (w : World) (id : nat) (text : string)
  (inv : Investigation) :
  investigations (store w) !! id = Some inv ->
  i_status inv = "closed" ->
  exists inv' w',
    resolve_investigation id text w = (Ok inv', w') /\
    investigations (store w') = <[id := inv']> (investigations (store w)) /\
    i_status inv' = "closed".
Proof.
  intros Hlook Hst. unfold resolve_investigation, bind, get_store. simpl.
  rewrite Hlook, Hst. simpl.
  destruct (i_resolved_at inv); simpl; eexists _, _; done.
Qed.

(** [resolve_investigation] resolves a case of any other status; it keeps a
    [resolved_at] that is set. *)
Lemma resolve_investigation_resolves (w : World) (id : nat) (text : string)
  (inv : Investigation) :
  investigations (store w) !! id = Some inv ->
  i_status inv <> "closed" ->
  exists inv' w',
    resolve_investigation id text w = (Ok inv', w') /\
    investigations (store w') = <[id := inv']> (investigations (store w)) /\
    i_status inv' = "resolved" /\
    i_resolution_notes inv' = Some text /\
    i_resolved_at inv' =
      Some (match i_resolved_at inv with Some t => t | None => clock (reads w) end).
Proof.
  intros Hlook Hst. unfold resolve_investigation, bind, get_store. simpl.
  rewrite Hlook. apply String.eqb_neq in Hst. rewrite Hst. simpl.
  destruct (i_resolved_at inv); simpl; eexists _, _; done.
Qed.

(** [close_investigation] closes a case whatever its status. *)
Lemma close_investigation_closes (w : World) (id : nat) (inv : Investigation) :
  investigations (store w) !! id = Some inv ->
  exists inv' w',
    close_investigation id w = (Ok inv', w') /\
    investigations (store w') = <[id := inv']> (investigations (store w)) /\
    i_status inv' = "closed".
Proof.
  intros Hlook. unfold close_investigation, bind, get_store. simpl.
  rewrite Hlook. simpl. eexists _, _; done.
Qed.

(** [add_investigation_action] moves a case out of [open] only. *)
Lemma add_investigation_action_keeps_other_statuses
  (w : World) (id : nat) (ty descr : string) (resp : option string)
  (prio : string) (days : Z) (j : nat) (inv : Investigation) :
  investigations (store w) !! j = Some inv ->
  i_status inv <> "open" ->
  investigations (store (snd (add_investigation_action id ty descr resp prio days w))) !! j
  = Some inv.
Proof.
  intros Hj Hst. unfold add_investigation_action, bind, get_store. simpl.
  destruct (investigations (store w) !! id) as [inv0|] eqn:Hid; [|done].
  unfold lift. destruct (timedelta_days (JNum days 0)); [|done]. simpl.
  destruct (String.eqb (i_status inv0) "open") eqn:Hopen; simpl; [|done].
  rewrite lookup_insert_ne; [done|].
  intros ->. rewrite Hj in Hid. injection Hid as ->.
  apply String.eqb_eq in Hopen. done.
Qed.

(** C1, amended. When the call of the generative service made during
    [create_investigation] raises, the exception reaches the caller and no
    action is stored; the case, committed before the call, stays stored with
    status open under a new key. *)
Theorem create_investigation_classifier_failure
  (w : World) (message_id : nat) (priority : string)
  (customer_info : option json) (message : Message) (e : exn) :
  messages (store w) !! message_id = Some message ->
  reference_in_use (store w) (drawn_reference w) = false ->
  respond (sent w) (suggest_prompt (m_content message) (attributes_dict message))
  = Raised e ->
  exists inv w',
    create_investigation message_id priority customer_info w = (Raised e, w') /\
    actions (store w') = actions (store w) /\
    messages (store w') = messages (store w) /\
    investigations (store w) !! new_id (investigations (store w)) = None /\
    investigations (store w')
    = <[new_id (investigations (store w)) := inv]> (investigations (store w)) /\
    i_status inv = "open" /\
    i_message_id inv = message_id.
Proof.
  intros Hmsg Hfree Hfail.
  unfold create_investigation, bind, get_store. simpl. rewrite Hmsg.
  unfold _generate_reference_number, add_investigation, _analyze_and_create_actions,
    _suggest_investigation_actions, bind, get_store, utcnow, random_draw,
    call_openai, commit, ret, raise. simpl.
  fold (drawn_reference w). rewrite Hfree. simpl. rewrite Hfail.
  eexists _, _. split; [reflexivity|]. simpl.
  repeat split; try done. apply new_id_fresh.
Qed.

End Lifecycle.

(** ** The case lifecycle on the fixtures *)

Lemma update_action_status_resolves_witness :
  actions (store (world_of (case1 "in_progress" None) (step1 "pending" None))) !! 1
  = Some (step1 "pending" None) /\
  exists action' w',
    InvestigationService.update_action_status (out := offline) 1 "completed" None
      (world_of (case1 "in_progress" None) (step1 "pending" None))
    = (Ok action', w').
Proof.
  split; [reflexivity|].
  destruct (update_action_status_resolves_iff_all_completed (out := offline)
              (world_of (case1 "in_progress" None) (step1 "pending" None))
              1 "completed" None (step1 "pending" None) eq_refl)
    as (action' & w' & Hrun & _).
  exists action', w'. exact Hrun.
Defined.

(** Completing the only action of a case in progress resolves the case. *)
Example last_action_completed_resolves_case :
  i_status <$>
    investigations
      (store (snd (InvestigationService.update_action_status (out := offline)
                     1 "completed" None
                     (world_of (case1 "in_progress" None) (step1 "pending" None)))))
    !! 1
  = Some "resolved".
Proof. vm_compute. reflexivity. Qed.

Lemma update_action_status_verbatim_witness :
  actions (store (world_of (case1 "in_progress" None) (step1 "pending" None))) !! 1
  = Some (step1 "pending" None) /\
  exists action' w',
    InvestigationService.update_action_status (out := offline) 1 "on hold" None
      (world_of (case1 "in_progress" None) (step1 "pending" None))
    = (Ok action', w') /\
    a_status action' = "on hold" /\
    investigations (store w')
    = investigations (store (world_of (case1 "in_progress" None) (step1 "pending" None))).
Proof.
  split; [reflexivity|].
  destruct (update_action_status_stores_status_verbatim (out := offline)
              (world_of (case1 "in_progress" None) (step1 "pending" None))
              1 "on hold" None (step1 "pending" None) eq_refl)
    as (action' & w' & Hrun & _ & Hst & _ & Hother).
  exists action', w'. split; [exact Hrun|]. split; [exact Hst|].
  destruct Hother as (_ & _ & Hinv & _); [discriminate|]. exact Hinv.
Defined.

(** C5 as stated fails: a completed action goes back to pending. *)
Lemma completed_action_is_reopened :
  a_status <$>
    actions (store (world_of (case1 "resolved" (Some 5%Z)) (step1 "completed" (Some 4%Z))))
    !! 1
  = Some "completed" /\
  a_status <$>
    actions
      (store (snd (InvestigationService.update_action_status (out := offline)
                     1 "pending" None
                     (world_of (case1 "resolved" (Some 5%Z))
                               (step1 "completed" (Some 4%Z))))))
    !! 1
  = Some "pending".
Proof. split; vm_compute; reflexivity. Qed.

Lemma update_action_status_overwrites_witness :
  actions (store (world_of (case1 "resolved" (Some 5%Z)) (step1 "completed" (Some 4%Z)))) !! 1
  = Some (step1 "completed" (Some 4%Z)) /\
  exists action' w',
    InvestigationService.update_action_status (out := offline) 1 "cancelled" None
      (world_of (case1 "resolved" (Some 5%Z)) (step1 "completed" (Some 4%Z)))
    = (Ok action', w') /\
    a_status action' = "cancelled" /\
    a_completed_at action' = Some 4%Z.
Proof.
  split; [reflexivity|].
  destruct (update_action_status_overwrites_any_status (out := offline)
              (world_of (case1 "resolved" (Some 5%Z)) (step1 "completed" (Some 4%Z)))
              1 "cancelled" None (step1 "completed" (Some 4%Z)) eq_refl)
    as (action' & w' & Hrun & _ & Hst & Hat & _).
  exists action', w'. split; [exact Hrun|]. split; [exact Hst|]. exact Hat.
Defined.

(** C2. The completion check run by [update_action_status] sets the status
    of a closed case to resolved: the case leaves the closed status, which
    [resolve_investigation] keeps. *)
Theorem completion_check_reopens_closed_case :
  i_status <$>
    investigations (store (world_of (case1 "closed" None) (step1 "pending" None))) !! 1
  = Some "closed" /\
  i_status <$>
    investigations
      (store (snd (InvestigationService.update_action_status (out := offline)
                     1 "completed" None
                     (world_of (case1 "closed" None) (step1 "pending" None)))))
    !! 1
  = Some "resolved".
Proof. split; vm_compute; reflexivity. Qed.

(** C3. The completion check writes [resolved_at] each time it finds all
    actions completed: a case resolved at clock reading 12 is stamped 19
    once a second action is added and completed, and a case resolved at 5
    is stamped 12 when its completed action is reported completed again. *)
Theorem completion_check_overwrites_resolved_at :
  fst (recompletion (world_of (case1 "in_progress" None) (step1 "pending" None)))
  = Ok (Some (Some 12%Z), Some (Some 19%Z)) /\
  i_resolved_at <$>
    investigations
      (store (snd (InvestigationService.update_action_status (out := offline)
                     1 "completed" None
                     (world_of (case1 "resolved" (Some 5%Z))
                               (step1 "completed" (Some 4%Z))))))
    !! 1
  = Some (Some 12%Z).
Proof. split; vm_compute; reflexivity. Qed.

(** C1 as stated fails: the service is unreachable, [create_investigation]
    raises, and the store holds a case it did not hold before. *)
Lemma create_investigation_failure_keeps_case :
  fst (InvestigationService.create_investigation (lib := fixture_lib) (out := offline)
         1 "high" None empty_world)
  = Raised (Exception "Error calling OpenAI API: connection refused") /\
  store (snd (InvestigationService.create_investigation (lib := fixture_lib)
                (out := offline) 1 "high" None empty_world))
  <> store empty_world.
Proof.
  split; [vm_compute; reflexivity|].
  intros Heq. apply (f_equal (fun db => i_status <$> investigations db !! 1)) in Heq.
  vm_compute in Heq. discriminate.
Qed.

Lemma create_investigation_classifier_failure_witness :
  messages (store empty_world) !! 1 = Some mt199_message /\
  exists inv w',
    InvestigationService.create_investigation (lib := fixture_lib) (out := offline)
      1 "high" None empty_world
    = (Raised (Exception "Error calling OpenAI API: connection refused"), w') /\
    actions (store w') = actions (store empty_world) /\
    i_status inv = "open".
Proof.
  split; [reflexivity|].
  destruct (create_investigation_classifier_failure (lib := fixture_lib) (out := offline)
              empty_world 1 "high" None mt199_message
              (Exception "Error calling OpenAI API: connection refused")
              eq_refl eq_refl eq_refl)
    as (inv & w' & Hrun & Hacts & _ & _ & _ & Hst & _).
  exists inv, w'. split; [exact Hrun|]. split; [exact Hacts|]. exact Hst.
Defined.

(** ** The regular expression *)

Section Search.

Lemma from_first_app (o : ascii) (pre rest : string) :
  occurs o pre = false -> from_first o (pre +:+ String o rest) = Some rest.
Proof.
  induction pre as [|a pre IH]; simpl.
  - intros _. by rewrite Ascii.eqb_refl.
  - intros Hocc. apply orb_false_iff in Hocc as [Ha Hpre].
    rewrite Ha. by apply IH.
Qed.

Lemma from_first_split (o : ascii) (s rest : string) :
  from_first o s = Some rest ->
  exists pre, s = pre +:+ String o rest /\ occurs o pre = false.
Proof.
  revert rest. induction s as [|a s IH]; simpl; intros rest Hs; [done|].
  destruct (Ascii.eqb a o) eqn:Ea.
  - apply Ascii.eqb_eq in Ea as ->. injection Hs as ->. by exists EmptyString.
  - destruct (IH _ Hs) as [pre [-> Hpre]]. exists (String a pre). simpl.
    split; [done|]. by rewrite Ea.
Qed.

Lemma from_first_none (o : ascii) (s : string) :
  from_first o s = None <-> occurs o s = false.
Proof.
  induction s as [|a s IH]; simpl; [done|].
  destruct (Ascii.eqb a o); simpl; [split; discriminate|done].
Qed.

Lemma through_last_none (c : ascii) (s : string) :
  through_last c s = None <-> occurs c s = false.
Proof.
  induction s as [|a s IH]; simpl; [done|].
  destruct (through_last c s) as [t|].
  - split; [discriminate|]. intros Hocc. apply orb_false_iff in Hocc as [_ Hs].
    apply IH in Hs. discriminate.
  - destruct (Ascii.eqb a c); simpl; [split; discriminate|]. tauto.
Qed.

Lemma through_last_app (c : ascii) (mid post : string) :
  occurs c post = false ->
  through_last c (mid +:+ String c post) = Some (mid +:+ String c EmptyString).
Proof.
  intros Hpost. induction mid as [|a mid IH]; simpl.
  - apply through_last_none in Hpost. rewrite Hpost. by rewrite Ascii.eqb_refl.
  - by rewrite IH.
Qed.

Lemma through_last_split (c : ascii) (s t : string) :
  through_last c s = Some t ->
  exists mid post, s = mid +:+ String c post /\ occurs c post = false
                   /\ t = mid +:+ String c EmptyString.
Proof.
  revert t. induction s as [|a s IH]; simpl; intros t Hs; [done|].
  destruct (through_last c s) as [t'|] eqn:Es.
  - injection Hs as <-. destruct (IH _ eq_refl) as [mid [post [-> [Hpost ->]]]].
    by exists (String a mid), post.
  - destruct (Ascii.eqb a c) eqn:Ea; [|done]. injection Hs as <-.
    apply Ascii.eqb_eq in Ea as ->. exists EmptyString, s.
    split; [done|]. split; [|done]. by apply through_last_none.
Qed.

(** [re_search] finds the span from the first [o] through the last [c]. *)
Lemma re_search_spans (o c : ascii) (s blob : string) :
  re_search o c s = Some blob <-> spans o c s blob.
Proof.
  unfold re_search, spans. split.
  - destruct (from_first o s) as [rest|] eqn:Ef; [|done].
    destruct (through_last c rest) as [t|] eqn:Et; [|done].
    intros [= <-].
    apply from_first_split in Ef as [pre [-> Hpre]].
    apply through_last_split in Et as [mid [post [-> [Hpost ->]]]].
    by exists pre, mid, post.
  - intros [pre [mid [post [-> [Hpre [Hpost ->]]]]]].
    rewrite from_first_app by done. by rewrite through_last_app.
Qed.

Lemma re_search_none (o c : ascii) (s : string) :
  re_search o c s = None <-> forall blob, ~ spans o c s blob.
Proof.
  split.
  - intros Hnone blob Hspan. apply re_search_spans in Hspan. congruence.
  - intros Hno. destruct (re_search o c s) as [blob|] eqn:E; [|done].
    exfalso. by eapply Hno, re_search_spans.
Qed.

Lemma spans_unique (o c : ascii) (s blob1 blob2 : string) :
  spans o c s blob1 -> spans o c s blob2 -> blob1 = blob2.
Proof. rewrite <- !re_search_spans. congruence. Qed.

End Search.

(** ** The normalisation chain *)

Section Normalisation.
Context {lib : PyLib} {out : Outside}.
Import MTService.

(** The chain tries the whole text, then the span of the regular
    expression, then gives the default. *)
Lemma parse_response_chain (o c : ascii) (default : json) (response : string) :
  (forall v, json_loads response = Some v ->
             parse_response o c default response = v) /\
  (json_loads response = None ->
   forall blob, spans o c response blob ->
     parse_response o c default response
     = match json_loads blob with Some v => v | None => default end) /\
  (json_loads response = None ->
   (forall blob, spans o c response blob -> json_loads blob = None) ->
   parse_response o c default response = default).
Proof.
  unfold parse_response, parse_attempts. split; [|split].
  - by intros v ->.
  - intros -> blob Hspan. apply re_search_spans in Hspan. by rewrite Hspan.
  - intros -> Hall. destruct (re_search o c response) as [blob|] eqn:E; [|done].
    apply re_search_spans in E. by rewrite (Hall _ E).
Qed.

(** The same chain with brackets, in [_suggest_investigation_actions]; a
    value parsed from the whole text that is no list is wrapped in one. *)
Lemma suggested_actions_chain (message_content : string) (attributes : json)
  (w : World) (response : string) :
  respond (sent w) (InvestigationService.suggest_prompt message_content attributes)
  = Ok response ->
  exists suggested w',
    InvestigationService._suggest_investigation_actions message_content attributes w
    = (Ok suggested, w') /\
    (forall v, json_loads response = Some v ->
               suggested = match v with JArr _ => v | _ => JArr [v] end) /\
    (json_loads response = None ->
     forall blob, spans "[" "]" response blob ->
       suggested = match json_loads blob with
                   | Some v => v
                   | None => InvestigationService.default_actions
                   end) /\
    (json_loads response = None ->
     (forall blob, spans "[" "]" response blob -> json_loads blob = None) ->
     suggested = InvestigationService.default_actions).
Proof.
  intros Hresp.
  unfold InvestigationService._suggest_investigation_actions, bind, call_openai, ret.
  rewrite Hresp. eexists _, _. split; [reflexivity|].
  split; [|split].
  - by intros v ->.
  - intros -> blob Hspan. apply re_search_spans in Hspan. by rewrite Hspan.
  - intros -> Hall. destruct (re_search "[" "]" response) as [blob|] eqn:E; [|done].
    apply re_search_spans in E. by rewrite (Hall _ E).
Qed.

(** The parsing part of [_extract_attributes] on a text within the limits
    of the interpreter: a text that parses as a whole gives its value;
    otherwise the span from the first opening brace through the last closing
    brace is parsed; when no attempt succeeds the result is the basic
    structure of the call site, marked by its notes entry. *)
Lemma normalize_extraction_chain (response : string) :
      (forall v, json_loads response = Some v -> normalize_extraction response = v) /\
      (json_loads response = None ->
       forall blob, spans "{" "}" response blob ->
         normalize_extraction response
         = match json_loads blob with
           | Some v => v
           | None => extraction_fallback response
           end) /\
      (json_loads response = None ->
       (forall blob, spans "{" "}" response blob -> json_loads blob = None) ->
       normalize_extraction response = extraction_fallback response) /\
      getitem (extraction_fallback response) "notes"
      = Ok (JStr "Could not extract structured data").
Proof.
  destruct (parse_response_chain "{" "}" (extraction_fallback response) response)
    as [H1 [H2 H3]].
  unfold normalize_extraction. fold (extraction_fallback response).
  repeat split; done.
Qed.

(** Within the limits of the interpreter the two embeddings of
    [_extract_attributes] agree. *)
Lemma extract_attributes_within_limits {limits : PyLimits}
  (mt_message response : string) (w : World) :
  respond (sent w) (extract_prompt mt_message) = Ok response ->
  json_loads_limit response = None ->
  (forall blob, spans "{" "}" response blob -> json_loads_limit blob = None) ->
  AtLimits._extract_attributes mt_message w = _extract_attributes mt_message w.
Proof.
  intros Hresp Hwhole Hspan.
  unfold AtLimits._extract_attributes, _extract_attributes, bind, call_openai, lift,
    loads, ret, normalize_extraction, parse_response, parse_attempts.
  rewrite Hresp, Hwhole.
  destruct (json_loads response) as [v|]; [done|].
  destruct (re_search "{" "}" response) as [blob|] eqn:E; [|done].
  apply re_search_spans in E. rewrite (Hspan _ E).
  by destruct (json_loads blob).
Qed.


End Normalisation.

(** ** Rendering of the response templates *)

Section Rendering.
Context {lib : PyLib} {out : Outside}.
Import MTService.

Lemma str_format_segments (kwargs : list (string * json)) (n : nat) :
  forall (s : string) (field : option string) (segs : list segment),
    String.length s <= n ->
    parse_template field s = Some segs ->
    str_format kwargs field s
    = render kwargs segs.
Proof.
  induction n as [|n IH]; intros s field segs Hlen Hparse.
  - destruct s; [|simpl in Hlen; lia]. simpl in *.
    destruct field; [done|]. by injection Hparse as <-.
  - destruct s as [|a s']; simpl in *.
    { destruct field; [done|]. by injection Hparse as <-. }
    destruct field as [name|].
    + destruct (Ascii.eqb a "}").
      * destruct (parse_template None s') as [segs'|] eqn:E; [|done].
        injection Hparse as <-. rewrite (IH s' None segs') by (done || lia). done.
      * destruct (name_char a); [|done]. apply IH; [lia|done].
    + destruct (Ascii.eqb a "{").
      * destruct s' as [|b s'']; [done|].
        destruct (Ascii.eqb b "{").
        -- destruct (parse_template None s'') as [segs'|] eqn:E; [|done].
           injection Hparse as <-. simpl in Hlen.
           rewrite (IH s'' None segs') by (done || lia). done.
        -- apply IH; [lia|done].
      * destruct (Ascii.eqb a "}").
        -- destruct s' as [|b s'']; [done|].
           destruct (Ascii.eqb b "}"); [|done].
           destruct (parse_template None s'') as [segs'|] eqn:E; [|done].
           injection Hparse as <-. simpl in Hlen.
           rewrite (IH s'' None segs') by (done || lia). done.
        -- destruct (parse_template None s') as [segs'|] eqn:E; [|done].
           injection Hparse as <-. rewrite (IH s' None segs') by (done || lia). done.
Qed.

Lemma render_fill (kwargs : list (string * json)) (g : string -> json)
  (segs : list segment) :
  (forall name, name ∈ field_names segs -> lookup_field kwargs name = Ok (g name)) ->
  render kwargs segs
  = Ok (fill (fun name => py_str (g name)) segs).
Proof.
  induction segs as [|[a|name] segs IH]; intros Hall; [done| |]; simpl.
  - rewrite IH; [done|]. intros name Hname. apply Hall. done.
  - rewrite (Hall name) by (simpl; by left).
    rewrite IH; [done|]. intros name' Hname'. apply Hall. simpl. by right.
Qed.


Lemma dict_get_set_ne (k k' : string) (v : json) (d : list (string * json)) :
  k <> k' -> dict_get k (dict_set k' v d) = dict_get k d.
Proof.
  intros Hne. induction d as [|[k0 v0] d IH]; simpl.
  - destruct (String.eqb k' k) eqn:E; [|done].
    apply String.eqb_eq in E. congruence.
  - destruct (String.eqb k0 k') eqn:E0; simpl.
    + apply String.eqb_eq in E0 as ->.
      destruct (String.eqb k' k) eqn:E; [|done].
      apply String.eqb_eq in E. congruence.
    + by rewrite IH.
Qed.

Lemma safe_values_keeps (fields base : list (string * json)) (k : string) :
  dict_contains k base = true ->
  dict_get k (fold_left (fun acc kv =>
                           if dict_contains (fst kv) acc then acc
                           else dict_set (fst kv) (snd kv) acc) fields base)
  = dict_get k base.
Proof.
  revert base. induction fields as [|[k' v'] fields IH]; intros base Hk; [done|].
  simpl. destruct (dict_contains k' base) eqn:Hk'.
  - by apply IH.
  - assert (Hne : k <> k') by (intros ->; congruence).
    rewrite IH.
    + by apply dict_get_set_ne.
    + unfold dict_contains in *. by rewrite dict_get_set_ne.
Qed.

Lemma safe_values_lookup (fields : list (string * json)) (today name : string) :
  existsb (String.eqb name) placeholders = true ->
  lookup_field (safe_values fields today) name
  = Ok (placeholder_value fields today name).
Proof.
  intros Hname. unfold lookup_field, safe_values.
  unfold placeholders in Hname. simpl in Hname.
  repeat (apply orb_true_iff in Hname as [Hname|Hname];
          [apply String.eqb_eq in Hname as ->;
           rewrite safe_values_keeps by reflexivity; reflexivity|]).
  discriminate.
Qed.

Lemma template_names_are_placeholders (workcase_type : json) (template : string) :
  templates_get workcase_type = Ok template ->
  parse_template None template = Some (template_segments template) /\
  forallb (fun name => existsb (String.eqb name) placeholders)
          (field_names (template_segments template)) = true.
Proof.
  unfold templates_get. intros Hget.
  assert (Hcases : template = template_NON_RECEIPT \/ template = template_CANCELLATION
                   \/ template = template_UNKNOWN).
  { destruct workcase_type; try (injection Hget as <-; tauto); try discriminate.
    destruct (String.eqb s "NON_RECEIPT"); [injection Hget as <-; tauto|].
    destruct (String.eqb s "CANCELLATION"); injection Hget as <-; tauto. }
  destruct Hcases as [->|[->| ->]]; split; vm_compute; reflexivity.
Qed.

Lemma fill_rendered (workcase_type : string) (template : string) (f : string -> string) :
  templates_get (JStr workcase_type) = Ok template ->
  fill f (template_segments template)
  = rendered workcase_type (f "reference") (f "recipient") (f "amount")
      (f "currency") (f "date") (f "beneficiary") (f "reason").
Proof.
  unfold templates_get, rendered.
  destruct (String.eqb workcase_type "NON_RECEIPT").
  { intros [= <-]. vm_compute. reflexivity. }
  destruct (String.eqb workcase_type "CANCELLATION").
  { intros [= <-]. vm_compute. reflexivity. }
  intros [= <-]. vm_compute. reflexivity.
Qed.

Lemma templates_get_string (workcase_type : string) :
  exists template, templates_get (JStr workcase_type) = Ok template.
Proof.
  unfold templates_get.
  destruct (String.eqb workcase_type "NON_RECEIPT"); [by eexists|].
  destruct (String.eqb workcase_type "CANCELLATION"); by eexists.
Qed.

Lemma template_run (workcase_type : string) (fields : list (string * json)) (w : World) :
  _get_default_response_template (JStr workcase_type) (JObj fields) w =
  (Ok (rendered workcase_type
         (field_text fields "reference" "Unknown")
         (field_text fields "recipient" "Valued Correspondent")
         (field_text fields "amount" "Unknown")
         (field_text fields "currency" "USD")
         (field_text fields "date" (strftime_local "%Y-%m-%d" (clock (reads w))))
         (field_text fields "beneficiary" "Unknown")
         "Customer request"),
   tick 1 w).
Proof.
  destruct (templates_get_string workcase_type) as [template Hget].
  destruct (template_names_are_placeholders _ _ Hget) as [Hparse Hnames].
  unfold _get_default_response_template, bind, lift, try_except, utcnow.
  rewrite Hget. simpl.
  set (today := strftime_local "%Y-%m-%d" (clock (reads w))).
  rewrite (str_format_segments _ (String.length template) template None _ (le_n _) Hparse).
  rewrite (render_fill _ (placeholder_value fields today)).
  - rewrite (fill_rendered workcase_type template _ Hget). reflexivity.
  - intros name Hname. apply safe_values_lookup.
    rewrite forallb_forall in Hnames. apply Hnames. by apply list_elem_of_In.
Qed.

Lemma occurs_app (a : ascii) (s t : string) :
  occurs a (s +:+ t) = occurs a s || occurs a t.
Proof. induction s as [|b s IH]; simpl; [done|]. by rewrite IH, orb_assoc. Qed.

Lemma rendered_defaults_brace_free (a : ascii) (workcase_type today : string) :
  (a = "{" \/ a = "}")%char ->
  occurs a today = false ->
  occurs a (rendered workcase_type "Unknown" "Valued Correspondent" "Unknown" "USD"
              today "Unknown" "Customer request") = false.
Proof.
  intros Ha Htoday. unfold rendered.
  destruct (String.eqb workcase_type "NON_RECEIPT");
    [|destruct (String.eqb workcase_type "CANCELLATION")];
    destruct Ha as [-> | ->];
    unfold rendered_NON_RECEIPT, rendered_CANCELLATION, rendered_UNKNOWN;
    repeat (rewrite occurs_app; apply orb_false_iff; split; [try reflexivity; try exact Htoday|]);
    try reflexivity; try exact Htoday.
Qed.

(** C7. For a workcase type given as a string and an extracted-fields
    dict, [_get_default_response_template] never takes its exception path:
    the result is the template of the type with every placeholder replaced
    by the text of the field or of its default. With no field extracted the
    defaults appear and no brace is left unless the date holds one. Only the
    six fields of the template schema are read. *)
Theorem response_template_rendering_never_fails
  (workcase_type : string) (fields : list (string * json)) (w : World) :
  let today := strftime_local "%Y-%m-%d" (clock (reads w)) in
  _get_default_response_template (JStr workcase_type) (JObj fields) w
  = (Ok (rendered workcase_type
           (field_text fields "reference" "Unknown")
           (field_text fields "recipient" "Valued Correspondent")
           (field_text fields "amount" "Unknown")
           (field_text fields "currency" "USD")
           (field_text fields "date" today)
           (field_text fields "beneficiary" "Unknown")
           "Customer request"),
     tick 1 w) /\
  _get_default_response_template (JStr workcase_type) (JObj []) w
  = (Ok (rendered workcase_type "Unknown" "Valued Correspondent" "Unknown" "USD"
           today "Unknown" "Customer request"),
     tick 1 w) /\
  (occurs "{" today = false -> occurs "}" today = false ->
   forall text w',
     _get_default_response_template (JStr workcase_type) (JObj []) w = (Ok text, w') ->
     occurs "{" text = false /\ occurs "}" text = false) /\
  (forall fields',
     (forall k, k ∈ ["reference"; "recipient"; "amount"; "currency"; "date"; "beneficiary"] ->
                dict_get k fields' = dict_get k fields) ->
     _get_default_response_template (JStr workcase_type) (JObj fields') w
     = _get_default_response_template (JStr workcase_type) (JObj fields) w).
Proof.
  cbv zeta. split; [|split; [|split]].
  - apply template_run.
  - apply template_run.
  - intros Ho Hc text w'. rewrite template_run. intros [= <- <-].
    split; apply rendered_defaults_brace_free; auto.
  - intros fields' Hsame. rewrite !template_run. unfold field_text, dict_get_default.
    rewrite !Hsame by set_solver. reflexivity.
Qed.

End Rendering.

(** ** The message pipeline *)

Section Pipeline.
Context {lib : PyLib} {out : Outside}.
Import MTService.

Lemma silent_ret {A : Type} (a : A) : silent (ret a).
Proof. by intros w. Qed.

Lemma silent_raise {A : Type} (e : exn) : silent (@raise A e).
Proof. by intros w. Qed.

Lemma silent_lift {A : Type} (r : Result A) : silent (lift r).
Proof. by intros w. Qed.

Lemma silent_utcnow : silent utcnow.
Proof. by intros w. Qed.

Lemma silent_bind {A B : Type} (c : M A) (k : A -> M B) :
  silent c -> (forall a, silent (k a)) -> silent (bind c k).
Proof.
  intros Hc Hk w. unfold bind. specialize (Hc w).
  destruct (c w) as [[a|e] w1]; simpl in *; [|done].
  by rewrite Hk.
Qed.

Lemma silent_try_except {A : Type} (c : M A) (h : exn -> M A) :
  silent c -> (forall e, silent (h e)) -> silent (try_except c h).
Proof.
  intros Hc Hh w. unfold try_except. specialize (Hc w).
  destruct (c w) as [[a|e] w1]; simpl in *; [done|].
  by rewrite Hh.
Qed.

Lemma silent_if {A : Type} (b : bool) (c1 c2 : M A) :
  silent c1 -> silent c2 -> silent (if b then c1 else c2).
Proof. by destruct b. Qed.

Create HintDb silent.
#[local] Hint Resolve silent_ret silent_raise silent_lift silent_utcnow
  silent_try_except silent_if : silent.
#[local] Hint Extern 2 (silent (bind _ _)) =>
  apply silent_bind; [|intros ?] : silent.

Lemma silent_template (workcase_type fields : json) :
  silent (_get_default_response_template workcase_type fields).
Proof.
  unfold _get_default_response_template.
  apply silent_bind; [auto with silent|]. intros template.
  apply silent_try_except; [|auto with silent].
  destruct fields; auto with silent.
Qed.


Lemma silent_stamp_stage (start_time : Z) (message_id : string) (result : json) :
  silent (stamp_stage start_time message_id result).
Proof. unfold stamp_stage. auto 10 with silent. Qed.

(** [_process_mt199_stp_failure] sends its prompt and nothing else. *)
Lemma mt199_sends_one_prompt (mt_message : string) (w : World) :
  sent (snd (_process_mt199_stp_failure mt_message w))
  = (sent w ++ [mt199_prompt mt_message])%list.
Proof.
  unfold _process_mt199_stp_failure.
  unfold bind at 1. unfold call_openai at 1.
  destruct (respond (sent w) (mt199_prompt mt_message)) as [response|e]; [|done].
  match goal with
  | |- sent (snd (?c ?w1)) = _ =>
      assert (Hs : silent c); [|by rewrite Hs]
  end.
  apply silent_bind.
  { destruct (parse_attempts "{" "}" response); auto with silent. }
  intros result. apply silent_bind; [auto with silent|]. intros p1.
  apply silent_bind.
  { destruct p1; auto with silent. }
  intros r1. apply silent_bind; [auto with silent|]. intros p2.
  apply silent_bind.
  { destruct p2; auto with silent. }
  intros r2. apply silent_bind; [auto with silent|]. intros p3.
  apply silent_bind; [|auto with silent].
  destruct p3; [auto with silent|].
  apply silent_bind; [auto with silent|]. intros wt.
  apply silent_bind; [auto with silent|]. intros fields.
  apply silent_bind; [apply silent_template|]. auto with silent.
Qed.

Lemma process_single_message_stages (message_content mode : string)
  (message_id : option string) :
  process_single_message message_content mode message_id =
  (start_time <- utcnow ;;
   id <- message_id_stage message_id ;;
   result <- (if String.eqb mode "convert"
              then _convert_mt_to_mx message_content
              else _extract_attributes message_content) ;;
   result <- merge_stage message_content result ;;
   stamp_stage start_time id result).
Proof. reflexivity. Qed.


Lemma dict_get_set_eq (k : string) (v : json) (d : list (string * json)) :
  dict_get k (dict_set k v d) = Some v.
Proof.
  induction d as [|[k0 v0] d IH]; simpl.
  - by rewrite String.eqb_refl.
  - destruct (String.eqb k0 k) eqn:E; simpl; by rewrite E.
Qed.


Lemma base_stage_run (mode message_content : string) (w : World) :
  (if String.eqb mode "convert"
   then _convert_mt_to_mx message_content
   else _extract_attributes message_content) w
  = (match respond (sent w) (base_prompt mode message_content) with
     | Ok response => Ok (base_result mode response)
     | Raised e => Raised e
     end,
     {| store := store w;
        sent := (sent w ++ [base_prompt mode message_content])%list;
        reads := reads w; draws := draws w |}).
Proof.
  unfold base_prompt, base_result, _convert_mt_to_mx, _extract_attributes,
    bind, call_openai, ret.
  destruct (String.eqb mode "convert");
    match goal with |- context [respond ?h ?p] => destruct (respond h p) end; done.
Qed.



(** A merge that raises leaves the world where the classification left it. *)
Lemma merge_stage_world (message_content : string) (base : json) (w : World) :
  is_mt199 message_content = true ->
  snd (merge_stage message_content base w)
  = snd (_process_mt199_stp_failure message_content w).
Proof.
  intros Hmark. unfold merge_stage. rewrite Hmark. unfold bind, lift.
  destruct (_process_mt199_stp_failure message_content w) as [[info|e'] w5]; [|done].
  destruct (contains "attributes" base) as [[]|]; simpl; [| |done].
  - destruct (getitem base "attributes") as [attrs|]; simpl; [|done].
    destruct (update_method attrs info); simpl; [|done].
    by destruct (setitem base "attributes" a).
  - by destruct (setitem base "attributes" info).
Qed.

Lemma process_single_message_run (message_content mode : string)
  (message_id : option string) (w : World) :
  process_single_message message_content mode message_id w =
  match message_id_stage message_id (tick 1 w) with
  | (Ok id, w2) =>
      match respond (sent w2) (base_prompt mode message_content) with
      | Ok response =>
          bind (merge_stage message_content (base_result mode response))
               (stamp_stage (clock (reads w)) id)
               {| store := store w2;
                  sent := (sent w2 ++ [base_prompt mode message_content])%list;
                  reads := reads w2; draws := draws w2 |}
      | Raised e =>
          (Raised e,
           {| store := store w2;
              sent := (sent w2 ++ [base_prompt mode message_content])%list;
              reads := reads w2; draws := draws w2 |})
      end
  | (Raised e, w2) => (Raised e, w2)
  end.
Proof.
  rewrite process_single_message_stages.
  unfold bind at 1. unfold utcnow at 1. change (tick 1 w) with
    {| store := store w; sent := sent w; reads := S (reads w); draws := draws w |}.
  unfold bind at 1.
  destruct (message_id_stage message_id _) as [[id|e] w2]; [|done].
  unfold bind at 1. rewrite base_stage_run.
  by destruct (respond (sent w2) (base_prompt mode message_content)).
Qed.


(** ** Bulk processing *)

Lemma bulk_cons (row : string * string) (df : list (string * string))
  (mode : string) (w : World) :
  process_bulk_messages (row :: df) mode w =
  match process_bulk_messages df mode (snd (row_outcome mode row w)) with
  | (Ok results, w') => (Ok (fst (row_outcome mode row w) :: results), w')
  | (Raised e, w') => (Raised e, w')
  end.
Proof.
  destruct row as [id content]. simpl. unfold bind at 1. unfold try_except.
  unfold row_outcome. simpl. unfold bind at 1.
  destruct (process_single_message content mode (Some id) w) as [[r|e] w1]; simpl.
  - unfold bind. by destruct (process_bulk_messages df mode w1) as [[results|e] w2].
  - unfold bind. by destruct (process_bulk_messages df mode _) as [[results|e'] w2].
Qed.

(** Every row gives one entry, computed in the world the rows before it
    left. *)
Lemma bulk_rows
  (df : list (string * string)) (mode : string) (w : World) :
  exists results w',
    process_bulk_messages df mode w = (Ok results, w') /\
    length results = length df /\
    forall i row,
      df !! i = Some row ->
      results !! i
      = Some (fst (row_outcome mode row
                     (snd (process_bulk_messages (take i df) mode w)))).
Proof.
  revert w. induction df as [|row df IH]; intros w.
  - exists [], w. split; [done|]. split; [done|]. intros i row Hrow. done.
  - rewrite bulk_cons.
    destruct (IH (snd (row_outcome mode row w))) as [results [w' [Hrun [Hlen Hrows]]]].
    rewrite Hrun. eexists _, _. split; [reflexivity|]. split; [simpl; lia|].
    intros [|i] row' Hrow'.
    + simpl in Hrow'. injection Hrow' as <-. done.
    + simpl in Hrow'. simpl take. rewrite bulk_cons.
      specialize (Hrows i row' Hrow'). simpl. rewrite Hrows.
      destruct (IH (snd (row_outcome mode row w))) as [_ [_ _]].
      assert (Hok : exists rs wi, process_bulk_messages (take i df) mode
                                    (snd (row_outcome mode row w)) = (Ok rs, wi)).
      { clear. generalize (snd (row_outcome mode row w)). generalize (take i df).
        intros l. induction l as [|r l IHl]; intros w0; [by eexists _, _|].
        rewrite bulk_cons. destruct (IHl (snd (row_outcome mode r w0))) as [rs [wi ->]].
        by eexists _, _. }
      destruct Hok as [rs [wi ->]]. done.
Qed.


(** C8. [process_bulk_messages] never raises on parsed rows and returns one
    entry per row, in row order: the result of the row when its processing
    returned, and otherwise an entry with the message id of the row and the
    text of the exception; the rows after it are processed all the same. *)
Theorem bulk_processing_is_row_isolated
  (df : list (string * string)) (mode : string) (w : World) :
  exists results w',
    process_bulk_messages df mode w = (Ok results, w') /\
    length results = length df /\
    forall i id message_content,
      df !! i = Some (id, message_content) ->
      (forall r t w2,
         process_single_message message_content mode (Some id)
           (snd (process_bulk_messages (take i df) mode w)) = (Ok (r, t), w2) ->
         results !! i = Some r) /\
      (forall e w2,
         process_single_message message_content mode (Some id)
           (snd (process_bulk_messages (take i df) mode w)) = (Raised e, w2) ->
         results !! i
         = Some (JObj [ ("message_id", JStr id);
                        ("error", JStr (exn_str e));
                        ("processed_at", JStr (isoformat (clock (reads w2)))) ])).
Proof.
  destruct (bulk_rows df mode w) as (results & w' & Hrun & Hlen & Hrows).
  exists results, w'. split; [done|]. split; [done|].
  intros i id message_content Hrow. specialize (Hrows i _ Hrow).
  unfold row_outcome in Hrows. simpl in Hrows.
  split.
  - intros r t w2 Hone. by rewrite Hone in Hrows.
  - intros e w2 Hone. by rewrite Hone in Hrows.
Qed.

End Pipeline.

(** ** Normalisation, rendering and the pipeline on the fixtures *)


(** The service answers with 1000 opening brackets: the parser raises
    [RecursionError], and so does [_extract_attributes]. *)
Example extraction_raises_on_deep_nesting :
  fst (AtLimits._extract_attributes (lib := fixture_lib) (out := nested)
         (limits := default_limits) "{1:F01BANK}{2:I199BANKDEFF}" empty_world)
  = Raised (RecursionError "maximum recursion depth exceeded while decoding a JSON array from a unicode string").
Proof. vm_compute. reflexivity. Qed.


(** Text that holds no brace gives the basic structure with its notes. *)
Example extraction_of_garbage :
  MTService.normalize_extraction (lib := fixture_lib) "I cannot help with that"
  = extraction_fallback "I cannot help with that".
Proof. vm_compute. reflexivity. Qed.

Lemma response_template_rendering_witness :
  occurs "{" "2024-01-01" = false /\
  occurs "}" "2024-01-01" = false /\
  exists text,
    fst (MTService._get_default_response_template (lib := fixture_lib) (out := offline)
           (JStr "CANCELLATION") (JObj []) empty_world) = Ok text /\
    occurs "{" text = false /\ occurs "}" text = false.
Proof.
  split; [reflexivity|]. split; [reflexivity|].
  destruct (response_template_rendering_never_fails (lib := fixture_lib) (out := offline)
              "CANCELLATION" [] empty_world) as (_ & Hrun & Hfree & _).
  eexists. split; [rewrite Hrun; reflexivity|].
  exact (Hfree eq_refl eq_refl _ _ Hrun).
Defined.

(** An extracted field that the template does not name changes nothing. *)
Example extra_field_is_ignored :
  MTService._get_default_response_template (lib := fixture_lib) (out := offline)
    (JStr "NON_RECEIPT") (JObj [("reference", JStr "REF7"); ("sender_bic", JStr "BANKBEBB")])
    empty_world
  = MTService._get_default_response_template (lib := fixture_lib) (out := offline)
      (JStr "NON_RECEIPT") (JObj [("reference", JStr "REF7")]) empty_world.
Proof. vm_compute. reflexivity. Qed.


Lemma bulk_processing_witness :
  three_rows !! 1 = Some ("M2", "BROKEN") /\
  exists results,
    fst (MTService.process_bulk_messages (lib := fixture_lib) (out := flaky)
           three_rows "convert" empty_world) = Ok results /\
    length results = 3 /\
    results !! 1
    = Some (JObj [ ("message_id", JStr "M2");
                   ("error", JStr "Error calling OpenAI API: timeout");
                   ("processed_at", JStr "4") ]).
Proof.
  split; [reflexivity|].
  destruct (bulk_processing_is_row_isolated (lib := fixture_lib) (out := flaky)
              three_rows "convert" empty_world)
    as (results & w' & Hrun & Hlen & Hrows).
  exists results. split; [by rewrite Hrun|]. split; [exact Hlen|].
  destruct (Hrows 1 "M2" "BROKEN" eq_refl) as [_ Hraised].
  refine (Hraised (Exception "Error calling OpenAI API: timeout")
            (snd (MTService.process_single_message (lib := fixture_lib) (out := flaky)
                    "BROKEN" "convert" (Some "M2")
                    (snd (MTService.process_bulk_messages (lib := fixture_lib)
                            (out := flaky) (take 1 three_rows) "convert" empty_world))))
            _).
  vm_compute. reflexivity.
Defined.

(** Three rows of which the second raises: three entries, the first and the
    third with their processing time, the second with the error. *)
Example three_rows_second_raises :
  match fst (MTService.process_bulk_messages (lib := fixture_lib) (out := flaky)
               three_rows "convert" empty_world) with
  | Ok [JObj first; JObj second; JObj third] =>
      dict_contains "processing_time" first && negb (dict_contains "error" first)
      && dict_contains "error" second
      && dict_contains "processing_time" third && negb (dict_contains "error" third)
      && dict_contains "attributes" third
  | _ => false
  end = true.
Proof. vm_compute. reflexivity. Qed.

(** * Further properties *)

(** The properties below cover the calls of the case service as a whole,
    the outcomes of single calls, the analysis of MT199 messages, the
    message pipeline, the reading side of the case service and the routes. *)

Create HintDb reads_only.
Create HintDb advancing.

(** ** Computations that leave the tables alone *)

Section Effects.
Context {lib : PyLib} {out : Outside}.
Import InvestigationService.

Lemma reads_only_ret {A : Type} (a : A) : reads_only (ret a).
Proof. by intros w. Qed.

Lemma reads_only_raise {A : Type} (e : exn) : reads_only (@raise A e).
Proof. by intros w. Qed.

Lemma reads_only_lift {A : Type} (r : Result A) : reads_only (lift r).
Proof. by intros w. Qed.

Lemma reads_only_utcnow : reads_only utcnow.
Proof. by intros w. Qed.

Lemma reads_only_call_openai (prompt : string) : reads_only (call_openai prompt).
Proof. by intros w. Qed.

Lemma reads_only_get_store : reads_only get_store.
Proof. by intros w. Qed.

Lemma reads_only_bind {A B : Type} (c : M A) (k : A -> M B) :
  reads_only c -> (forall a, reads_only (k a)) -> reads_only (bind c k).
Proof.
  intros Hc Hk w. unfold bind. specialize (Hc w).
  destruct (c w) as [[a|e] w1]; simpl in *; [|done].
  by rewrite Hk.
Qed.

Lemma reads_only_try_except {A : Type} (c : M A) (h : exn -> M A) :
  reads_only c -> (forall e, reads_only (h e)) -> reads_only (try_except c h).
Proof.
  intros Hc Hh w. unfold try_except. specialize (Hc w).
  destruct (c w) as [[a|e] w1]; simpl in *; [done|].
  by rewrite Hh.
Qed.

Lemma reads_only_mapM {A B : Type} (f : A -> M B) (l : list A) :
  (forall x, reads_only (f x)) -> reads_only (mapM f l).
Proof.
  intros Hf. induction l as [|x l IH]; simpl; [apply reads_only_ret|].
  apply reads_only_bind; [apply Hf|]. intros y.
  apply reads_only_bind; [apply IH|]. intros ys. apply reads_only_ret.
Qed.

#[local] Hint Resolve reads_only_ret reads_only_raise reads_only_lift
  reads_only_utcnow reads_only_call_openai reads_only_get_store
  reads_only_try_except : reads_only.
#[local] Hint Extern 2 (reads_only (bind _ _)) =>
  apply reads_only_bind; [|intros ?] : reads_only.

Lemma reads_only_action_row (id : nat) (action : json) :
  reads_only (action_row id action).
Proof. unfold action_row. auto 20 with reads_only. Qed.

Lemma reads_only_suggest (content : string) (attributes : json) :
  reads_only (_suggest_investigation_actions content attributes).
Proof. unfold _suggest_investigation_actions. auto with reads_only. Qed.

(** A row built by [action_row] is pending and owned by the case. *)
Lemma action_row_pending (id : nat) (action : json) (w w' : World)
  (row : InvestigationAction) :
  action_row id action w = (Ok row, w') ->
  a_investigation_id row = id /\ a_status row = "pending" /\
  a_completed_at row = None /\ a_notes row = None.
Proof.
  unfold action_row, bind, lift, utcnow, ret.
  destruct (getitem action "type"); [|discriminate].
  destruct (getitem action "description"); [|discriminate].
  destruct (method_get action "suggested_response" JNull); [|discriminate].
  destruct (method_get action "priority" (JStr "medium")); [|discriminate].
  simpl.
  destruct (method_get action "suggested_days" (JNum 3 0)); [|discriminate].
  destruct (timedelta_days _); [|discriminate]. simpl.
  by intros [= <- _].
Qed.

Lemma mapM_action_rows (id : nat) (items : list json) (w w' : World)
  (pending : list InvestigationAction) :
  mapM (action_row id) items w = (Ok pending, w') ->
  length pending = length items /\
  Forall (fun a => a_investigation_id a = id /\ a_status a = "pending"
                   /\ a_completed_at a = None /\ a_notes a = None) pending.
Proof.
  revert w w' pending. induction items as [|x items IH]; intros w w' pending; simpl.
  - unfold ret. by intros [= <- _].
  - unfold bind at 1.
    destruct (action_row id x w) as [[row|e] w1] eqn:Erow; [|discriminate].
    unfold bind at 1.
    destruct (mapM (action_row id) items w1) as [[rows|e] w2] eqn:Erows; [|discriminate].
    unfold ret. intros [= <- _].
    destruct (IH _ _ _ Erows) as [Hlen Hall].
    split; [simpl; lia|]. constructor; [|done].
    by eapply action_row_pending.
Qed.

Lemma insert_all_old {A : Type} (pending : list A) (t : gmap nat A) (k : nat) (x : A) :
  t !! k = Some x -> insert_all pending t !! k = Some x.
Proof.
  revert t. induction pending as [|y pending IH]; intros t Hk; [done|].
  simpl. apply IH. rewrite lookup_insert_ne; [done|].
  intros <-. rewrite new_id_fresh in Hk. discriminate.
Qed.

Lemma insert_all_new {A : Type} (pending : list A) (t : gmap nat A) (k : nat) (x : A) :
  insert_all pending t !! k = Some x -> t !! k = None -> x ∈ pending.
Proof.
  revert t. induction pending as [|y pending IH]; intros t Hk Hnone; simpl in Hk.
  - congruence.
  - destruct (decide (k = new_id t)) as [->|Hne].
    + rewrite (insert_all_old pending _ _ y) in Hk by apply lookup_insert_eq.
      injection Hk as <-. by left.
    + right. apply (IH (<[new_id t := y]> t)); [done|]. by rewrite lookup_insert_ne.
Qed.

Lemma insert_all_size {A : Type} (pending : list A) (t : gmap nat A) :
  size (insert_all pending t) = length pending + size t.
Proof.
  revert t. induction pending as [|y pending IH]; intros t; [done|].
  simpl. rewrite IH, map_size_insert_None by apply new_id_fresh. lia.
Qed.

End Effects.

(** ** What one call does to the tables *)

Section Evolution.
Context {lib : PyLib} {out : Outside}.
Import InvestigationService.

Lemma same_identity_refl (inv : Investigation) : same_identity inv inv.
Proof. by repeat split. Qed.

Lemma case_evolves_refl (inv : Investigation) : case_evolves inv inv.
Proof. split; [apply same_identity_refl|by left]. Qed.

Lemma action_evolves_refl (a : InvestigationAction) : action_evolves a a.
Proof. repeat split; by left. Qed.

Lemma evolves_refl (db : Store) : evolves db db.
Proof.
  split; [done|]. split; [|split; [|split]].
  - intros i inv Hi. exists inv. split; [done|apply case_evolves_refl].
  - intros i j inv1 inv2 H1 H2. congruence.
  - intros k a Hk. exists a. split; [done|apply action_evolves_refl].
  - intros k a H1 H2. congruence.
Qed.

(** One case row is rewritten. *)
Lemma evolves_case (db : Store) (id : nat) (inv inv' : Investigation) :
  investigations db !! id = Some inv ->
  case_evolves inv inv' ->
  evolves db (set_investigations (<[id := inv']> (investigations db)) db).
Proof.
  intros Hid Hev. split; [done|]. simpl. split; [|split; [|split]].
  - intros i x Hi. destruct (decide (i = id)) as [->|Hne].
    + rewrite lookup_insert_eq. assert (x = inv) as -> by congruence. by exists inv'.
    + rewrite lookup_insert_ne by done. exists x. split; [done|apply case_evolves_refl].
  - intros i j inv1 inv2 H1 H2. destruct (decide (i = id)) as [->|Hne]; [congruence|].
    rewrite lookup_insert_ne in H1 by done. congruence.
  - intros k a Hk. exists a. split; [done|apply action_evolves_refl].
  - intros k a H1 H2. congruence.
Qed.

(** The analysis stores all the rows it built or none. *)
Lemma analyze_run (id : nat) (message : Message) (w : World) :
  match _analyze_and_create_actions id message w with
  | (Ok _, w') =>
      exists pending,
        store w' = set_actions (insert_all pending (actions (store w))) (store w) /\
        Forall (fun a => a_investigation_id a = id /\ a_status a = "pending"
                         /\ a_completed_at a = None /\ a_notes a = None) pending
  | (Raised _, w') => store w' = store w
  end.
Proof.
  unfold _analyze_and_create_actions. unfold bind at 1.
  pose proof (reads_only_suggest (m_content message) (attributes_dict message) w) as Hs.
  destruct (_suggest_investigation_actions _ _ w) as [[suggested|e] w1];
    simpl in Hs; [|done].
  unfold bind at 1. unfold lift at 1.
  destruct (iterate suggested) as [items|e]; [|done].
  unfold bind at 1.
  pose proof (reads_only_mapM (action_row id) items (reads_only_action_row id) w1) as Hm.
  destruct (mapM (action_row id) items w1) as [[pending|e] w2] eqn:Erows;
    simpl in Hm; [|congruence].
  unfold bind, get_store, commit. simpl.
  exists pending. rewrite Hm, Hs. split; [done|].
  by destruct (mapM_action_rows _ _ _ _ _ Erows).
Qed.

Lemma create_unfold (m : nat) (p : string) (ci : option json) (w : World) :
  create_investigation m p ci w =
  match messages (store w) !! m with
  | None => (Raised (ValueError ("Message with ID " +:+ pretty m +:+ " not found")), w)
  | Some message =>
      if reference_in_use (store w) (drawn_reference w)
      then (Raised IntegrityError, drawn 3 w)
      else
        match _analyze_and_create_actions (new_id (investigations (store w))) message
                (with_store
                   (set_investigations
                      (<[new_id (investigations (store w)) := created_case w m p ci]>
                         (investigations (store w))) (store w))
                   (drawn 3 w)) with
        | (Ok _, w') => (Ok (new_id (investigations (store w)), created_case w m p ci), w')
        | (Raised e, w') => (Raised e, w')
        end
  end.
Proof.
  unfold create_investigation, bind at 1, get_store.
  destruct (messages (store w) !! m) as [message|] eqn:Hm; [|done].
  cbv beta iota zeta delta [bind get_store utcnow random_draw ret raise commit
    add_investigation _generate_reference_number]. simpl.
  fold (drawn_reference w).
  destruct (reference_in_use (store w) (drawn_reference w)); [done|].
  reflexivity.
Qed.

Lemma create_run (m : nat) (p : string) (ci : option json) (w : World) :
  store (snd (create_investigation m p ci w)) = store w \/
  exists message pending,
    messages (store w) !! m = Some message /\
    new_case (store w) (created_case w m p ci) /\
    store (snd (create_investigation m p ci w))
    = set_actions (insert_all pending (actions (store w)))
        (set_investigations
           (<[new_id (investigations (store w)) := created_case w m p ci]>
              (investigations (store w)))
           (store w)) /\
    Forall (fun a => a_investigation_id a = new_id (investigations (store w))
                     /\ a_status a = "pending" /\ a_completed_at a = None
                     /\ a_notes a = None) pending.
Proof.
  rewrite create_unfold.
  destruct (messages (store w) !! m) as [message|] eqn:Hm; [|by left].
  destruct (reference_in_use (store w) (drawn_reference w)) eqn:Hfree; [by left|].
  right.
  assert (Hnew : new_case (store w) (created_case w m p ci)).
  { repeat split; simpl; try done; by rewrite Hm. }
  match goal with
  | |- context [_analyze_and_create_actions ?i message ?w0] =>
      pose proof (analyze_run i message w0) as Ha;
      destruct (_analyze_and_create_actions i message w0) as [[[]|e] w2]
  end; simpl in *.
  - destruct Ha as [pending [Hst Hall]]. by exists message, pending.
  - exists message, []. split; [done|]. split; [done|]. split; [|constructor].
    by rewrite Ha.
Qed.

(** A case and its first actions are inserted. *)
Lemma evolves_create (db : Store) (inv : Investigation)
  (pending : list InvestigationAction) :
  new_case db inv ->
  Forall (fun a => a_investigation_id a = new_id (investigations db)
                   /\ a_status a = "pending" /\ a_completed_at a = None
                   /\ a_notes a = None) pending ->
  evolves db
    (set_actions (insert_all pending (actions db))
       (set_investigations (<[new_id (investigations db) := inv]> (investigations db)) db)).
Proof.
  intros Hnew Hall. split; [done|]. simpl. split; [|split; [|split]].
  - intros i x Hi. exists x. split; [|apply case_evolves_refl].
    rewrite lookup_insert_ne; [done|]. intros <-. rewrite new_id_fresh in Hi. done.
  - intros i j inv1 inv2 H1 H2 H3 H4.
    assert (Hi : i = new_id (investigations db)).
    { destruct (decide (i = new_id (investigations db))); [done|].
      rewrite lookup_insert_ne in H1 by done. congruence. }
    assert (Hj : j = new_id (investigations db)).
    { destruct (decide (j = new_id (investigations db))); [done|].
      rewrite lookup_insert_ne in H3 by done. congruence. }
    split; [congruence|]. subst i. rewrite lookup_insert_eq in H1. congruence.
  - intros k a Hk. exists a. split; [by apply insert_all_old|apply action_evolves_refl].
  - intros k a Hk Hnone. apply insert_all_new in Hk; [|done].
    rewrite Forall_forall in Hall. destruct (Hall a Hk) as (Hid & Hst & Hc & _).
    repeat split; try done. simpl. rewrite Hid, lookup_insert_eq. done.
Qed.

(** Every call lets the tables evolve. *)
Lemma perform_evolves (c : call) (w : World) :
  evolves (store w) (store (perform c w)).
Proof.
  destruct c as [m p ci|id ty d r p days|a s n|id text|id]; simpl.
  - destruct (create_run m p ci w) as [->|(message & pending & _ & Hnew & -> & Hall)].
    + apply evolves_refl.
    + by apply evolves_create.
  - unfold add_investigation_action, bind at 1, get_store.
    destruct (investigations (store w) !! id) as [inv|] eqn:Hid; [|apply evolves_refl].
    unfold bind, utcnow, lift, commit, get_store, ret. simpl.
    destruct (timedelta_days (JNum days 0)) as [delta|e]; [|apply evolves_refl]. simpl.
    set (row := {| a_investigation_id := id |}).
    assert (Hact : evolves (store w)
                     (set_actions (<[new_id (actions (store w)) := row]> (actions (store w)))
                                  (store w))).
    { split; [done|]. simpl. split; [|split; [|split]].
      - intros i x Hi. exists x. split; [done|apply case_evolves_refl].
      - intros i j inv1 inv2 H1 H2. congruence.
      - intros k x Hk. exists x. split; [|apply action_evolves_refl].
        rewrite lookup_insert_ne; [done|]. intros <-. rewrite new_id_fresh in Hk. done.
      - intros k x Hk Hnone. destruct (decide (k = new_id (actions (store w)))) as [->|Hne].
        + rewrite lookup_insert_eq in Hk. injection Hk as <-.
          repeat split; simpl; try done; by rewrite Hid.
        + rewrite lookup_insert_ne in Hk by done. congruence. }
    destruct (String.eqb (i_status inv) "open") eqn:Hopen; simpl; [|exact Hact].
    apply String.eqb_eq in Hopen.
    destruct Hact as (Hm & Hc & Hn & Ha & Hna). split; [done|]. simpl.
    split; [|split; [|split]].
    + intros i x Hi. destruct (decide (i = id)) as [->|Hne].
      * rewrite lookup_insert_eq. assert (x = inv) as -> by congruence.
        eexists. split; [reflexivity|]. split; [by repeat split|].
        right. left. by repeat split.
      * rewrite lookup_insert_ne by done. exists x. split; [done|apply case_evolves_refl].
    + intros i j inv1 inv2 H1 H2. destruct (decide (i = id)) as [->|Hne]; [congruence|].
      rewrite lookup_insert_ne in H1 by done. congruence.
    + exact Ha.
    + intros k x Hk Hnone. destruct (Hna k x Hk Hnone) as (H1 & H2 & H3).
      repeat split; try done. simpl in *.
      destruct (decide (a_investigation_id x = id)) as [->|Hne].
      * by rewrite lookup_insert_eq.
      * by rewrite lookup_insert_ne.
  - destruct (actions (store w) !! a) as [action|] eqn:Ha.
    + rewrite (update_run _ _ _ _ _ Ha). cbv zeta.
      change (snd (Ok ?x, ?y)) with y.
      match goal with
      | |- context [_check_investigation_completion ?i ?w0] =>
          set (owner := i); set (w1 := w0)
      end.
      pose proof (check_keeps_actions owner w1) as Hacts.
      pose proof (check_investigations owner w1) as Hinv.
      assert (Hsame : investigations (store w1) = investigations (store w)) by done.
      assert (Hnew : actions (store w1)
                     = <[a := updated_action (clock (reads w)) (clock (S (reads w)))
                               s n action]> (actions (store w))) by done.
      rewrite !Hsame in Hinv. rewrite Hnew in Hacts.
      assert (Hmsg : messages (store (snd (_check_investigation_completion owner w1)))
                     = messages (store w)).
      { rewrite check_run. destruct (investigations (store w1) !! owner); [|done].
        by destruct (completion_due (store w1) owner). }
      split; [done|]. split; [|split; [|split]].
      * intros i x Hi. rewrite Hinv.
        destruct (investigations (store w) !! owner) as [inv0|] eqn:Ho.
        -- destruct (completion_due (store w1) owner).
           ++ destruct (decide (i = owner)) as [->|Hne].
              ** rewrite lookup_insert_eq. assert (x = inv0) as -> by congruence.
                 eexists. split; [reflexivity|]. split; [by repeat split|].
                 right. right. left. by split.
              ** rewrite lookup_insert_ne by done. exists x.
                 split; [done|apply case_evolves_refl].
           ++ exists x. split; [done|apply case_evolves_refl].
        -- exists x. split; [done|apply case_evolves_refl].
      * intros i j inv1 inv2 H1 H2. rewrite Hinv in H1.
        destruct (investigations (store w) !! owner) as [inv0|] eqn:Ho; [|congruence].
        destruct (completion_due (store w1) owner); [|congruence].
        destruct (decide (i = owner)) as [->|Hne]; [congruence|].
        rewrite lookup_insert_ne in H1 by done. congruence.
      * intros k x Hk. rewrite Hacts.
        destruct (decide (k = a)) as [->|Hne].
        -- rewrite lookup_insert_eq. assert (x = action) as -> by congruence.
           eexists. split; [reflexivity|].
           unfold updated_action. destruct (String.eqb s "completed") eqn:Es; simpl.
           ++ repeat split; try done. right. done.
           ++ repeat split; try done. right. simpl. intros ->. discriminate.
        -- rewrite lookup_insert_ne by done. exists x.
           split; [done|apply action_evolves_refl].
      * intros k x Hk Hnone. rewrite Hacts in Hk.
        destruct (decide (k = a)) as [->|Hne]; [congruence|].
        rewrite lookup_insert_ne in Hk by done. congruence.
    + unfold update_action_status, bind, get_store. simpl. rewrite Ha.
      apply evolves_refl.
  - unfold resolve_investigation, bind at 1, get_store.
    destruct (investigations (store w) !! id) as [inv|] eqn:Hid; [|apply evolves_refl].
    unfold bind, utcnow, commit, ret. simpl.
    destruct (i_resolved_at inv) eqn:Hres; simpl.
    + apply (evolves_case _ _ inv); [done|]. split; [by repeat split|]. simpl.
      destruct (String.eqb (i_status inv) "closed"); simpl; [by right; right; right|].
      right. right. left. by split.
    + apply (evolves_case _ _ inv); [done|]. split; [by repeat split|]. simpl.
      destruct (String.eqb (i_status inv) "closed"); simpl; [by right; right; right|].
      right. right. left. by split.
  - unfold close_investigation, bind at 1, get_store.
    destruct (investigations (store w) !! id) as [inv|] eqn:Hid; [|apply evolves_refl].
    unfold bind, utcnow, commit, ret. simpl.
    apply (evolves_case _ _ inv); [done|]. split; [by repeat split|]. simpl.
    by right; right; right.
Qed.

End Evolution.

(** ** Invariants of the case service *)

Section Invariants.
Context {lib : PyLib} {out : Outside}.
Import InvestigationService.

Lemma reference_free (db : Store) (ref : string) (i : nat) (inv : Investigation) :
  reference_in_use db ref = false ->
  investigations db !! i = Some inv ->
  i_reference_number inv <> ref.
Proof.
  unfold reference_in_use. intros Hfree Hi Href.
  assert (Hin : In inv (rows (investigations db))).
  { apply list_elem_of_In, rows_elem. by exists i. }
  assert (existsb (fun x => String.eqb (i_reference_number x) ref)
                  (rows (investigations db)) = true); [|congruence].
  apply existsb_exists. exists inv. split; [done|]. by apply String.eqb_eq.
Qed.

Lemma evolves_integrity (db db' : Store) :
  evolves db db' -> referential_integrity db -> referential_integrity db'.
Proof.
  intros (Hmsg & Hold & Hnew & Haold & Hanew) (Huniq & Hown & Hmess).
  split; [|split].
  - intros i j inv1 inv2 Hi Hj Href.
    destruct (investigations db !! i) as [x|] eqn:Ei;
      destruct (investigations db !! j) as [y|] eqn:Ej.
    + destruct (Hold _ _ Ei) as (x' & Hx' & (Hrx & _) & _).
      destruct (Hold _ _ Ej) as (y' & Hy' & (Hry & _) & _).
      apply (Huniq i j x y Ei Ej). congruence.
    + exfalso. destruct (Hnew j j inv2 inv2 Hj Ej Hj Ej) as (_ & _ & _ & _ & Hfree & _).
      destruct (Hold _ _ Ei) as (x' & Hx' & (Hrx & _) & _).
      apply (reference_free _ _ _ _ Hfree Ei). congruence.
    + exfalso. destruct (Hnew i i inv1 inv1 Hi Ei Hi Ei) as (_ & _ & _ & _ & Hfree & _).
      destruct (Hold _ _ Ej) as (y' & Hy' & (Hry & _) & _).
      apply (reference_free _ _ _ _ Hfree Ej). congruence.
    + by destruct (Hnew i j inv1 inv2 Hi Ei Hj Ej).
  - intros k a Hk. destruct (actions db !! k) as [a0|] eqn:Ek.
    + destruct (Haold _ _ Ek) as (a' & Ha' & Hsame & _).
      assert (a' = a) as -> by congruence. rewrite Hsame.
      destruct (Hown _ _ Ek) as [inv Hinv].
      destruct (Hold _ _ Hinv) as (inv' & Hinv' & _). by exists inv'.
    + by destruct (Hanew _ _ Hk Ek) as (_ & _ & Hex).
  - intros i inv Hi. rewrite Hmsg. destruct (investigations db !! i) as [x|] eqn:Ei.
    + destruct (Hold _ _ Ei) as (x' & Hx' & (_ & Hm & _) & _).
      assert (x' = inv) as -> by congruence. rewrite Hm. by eapply Hmess.
    + by destruct (Hnew i i inv inv Hi Ei Hi Ei) as (_ & _ & _ & _ & _ & Hex).
Qed.

Lemma evolves_coherent (db db' : Store) :
  evolves db db' -> coherent db -> coherent db'.
Proof.
  intros (Hmsg & Hold & Hnew & Haold & Hanew) (Hcase & Hact). split.
  - intros i inv Hi. destruct (investigations db !! i) as [x|] eqn:Ei.
    + destruct (Hold _ _ Ei) as (x' & Hx' & _ & Hstep).
      assert (x' = inv) as -> by congruence.
      destruct (Hcase _ _ Ei) as (Hdom & Hopen & Hres).
      destruct Hstep as [->|[(Ho & Hp & Hr & Hn)|[(Hr & Hs)| Hc]]].
      * done.
      * split; [rewrite Hp; by repeat constructor|]. split.
        -- intros _. rewrite Hr, Hn. apply Hopen. by left.
        -- rewrite Hp. discriminate.
      * split; [rewrite Hr; by repeat constructor|]. split; [|done].
        rewrite Hr. intros [?|?]; discriminate.
      * split; [rewrite Hc; by repeat constructor|]. split.
        -- rewrite Hc. intros [?|?]; discriminate.
        -- rewrite Hc. discriminate.
    + destruct (Hnew i i inv inv Hi Ei Hi Ei) as (_ & Ho & Hr & Hn & _).
      split; [rewrite Ho; by repeat constructor|]. split; [done|]. rewrite Ho. discriminate.
  - intros k a Hk Hst. destruct (actions db !! k) as [a0|] eqn:Ek.
    + destruct (Haold _ _ Ek) as (a' & Ha' & Hev).
      assert (a' = a) as -> by congruence.
      destruct Hev as (_ & _ & _ & _ & _ & _ & _ & [->|Himp]); [by eapply Hact|by apply Himp].
    + destruct (Hanew _ _ Hk Ek) as (Hp & _). rewrite Hp in Hst. discriminate.
Qed.

Lemma case_evolves_settled (inv inv' : Investigation) :
  case_evolves inv inv' -> settled inv -> settled inv'.
Proof.
  intros (_ & [->|[(Ho & _)|[(Hr & _)|Hc]]]) Hs; [done| |by left|by right].
  destruct Hs as [Hs|Hs]; rewrite Hs in Ho; discriminate.
Qed.

Lemma perform_all_snoc (cs : list call) (c : call) (w : World) :
  perform_all (cs ++ [c]) w = perform c (perform_all cs w).
Proof. unfold perform_all. by rewrite fold_left_app. Qed.

(** X1. Whatever sequence of calls of [create_investigation],
    [add_investigation_action], [update_action_status],
    [resolve_investigation] and [close_investigation] is made, and whether
    each call returns or raises, a database in which reference numbers are
    unique, every action belongs to a stored case and every case to a stored
    message stays such a database. *)
Theorem calls_keep_referential_integrity (cs : list call) (w : World) :
  referential_integrity (store w) ->
  referential_integrity (store (perform_all cs w)).
Proof.
  intros Hw. induction cs as [|c cs IH] using rev_ind; [done|].
  rewrite perform_all_snoc. eapply evolves_integrity; [apply perform_evolves|done].
Qed.

(** X2. The same sequences of calls keep status and time stamps in
    agreement: the status of a case is one of open, in_progress, resolved
    and closed, an open or in_progress case has neither [resolved_at] nor
    resolution notes, a resolved case has [resolved_at], and a completed
    action has [completed_at]. *)
Theorem calls_keep_status_coherent (cs : list call) (w : World) :
  coherent (store w) -> coherent (store (perform_all cs w)).
Proof.
  intros Hw. induction cs as [|c cs IH] using rev_ind; [done|].
  rewrite perform_all_snoc. eapply evolves_coherent; [apply perform_evolves|done].
Qed.

(** X3. No sequence of calls deletes a case or an action or touches the
    messages. A case keeps its reference number, message, priority, customer
    information and creation time; an action keeps its case, type,
    description, suggested response, priority, deadline and creation time.
    A case that is resolved or closed never goes back to open or
    in_progress. *)
Theorem calls_never_delete_or_reopen (cs : list call) (w : World) :
  (forall i inv,
     investigations (store w) !! i = Some inv ->
     exists inv',
       investigations (store (perform_all cs w)) !! i = Some inv' /\
       same_identity inv inv' /\ (settled inv -> settled inv')) /\
  (forall k a,
     actions (store w) !! k = Some a ->
     exists a',
       actions (store (perform_all cs w)) !! k = Some a' /\ same_task a a') /\
  messages (store (perform_all cs w)) = messages (store w).
Proof.
  induction cs as [|c cs IH] using rev_ind.
  - split; [|split; [|done]].
    + intros i inv Hi. exists inv. split; [done|]. split; [by repeat split|done].
    + intros k a Hk. exists a. split; [done|by repeat split].
  - rewrite perform_all_snoc.
    destruct IH as (IHc & IHa & IHm).
    destruct (perform_evolves c (perform_all cs w)) as (Hmsg & Hold & _ & Haold & _).
    split; [|split; [|congruence]].
    + intros i inv Hi. destruct (IHc _ _ Hi) as (x & Hx & Hid & Hset).
      destruct (Hold _ _ Hx) as (x' & Hx' & Hev).
      exists x'. split; [done|]. split.
      * destruct Hev as ((H1 & H2 & H3 & H4 & H5) & _).
        destruct Hid as (G1 & G2 & G3 & G4 & G5).
        repeat split; congruence.
      * intros Hs. eapply case_evolves_settled; [done|]. by apply Hset.
    + intros k a Hk. destruct (IHa _ _ Hk) as (x & Hx & Hid).
      destruct (Haold _ _ Hx) as (x' & Hx' & (H1 & H2 & H3 & H4 & H5 & H6 & H7 & _)).
      exists x'. split; [done|].
      destruct Hid as (G1 & G2 & G3 & G4 & G5 & G6 & G7).
      repeat split; congruence.
Qed.

End Invariants.

(** ** Outcomes of single calls *)

Section Outcomes.
Context {lib : PyLib} {out : Outside}.
Import InvestigationService.

(** X4. [resolve_investigation] on a stored case returns and writes that
    case only, whatever the status of its actions: the status becomes
    resolved unless it was closed, the notes are those given,
    [resolved_at] is kept when set and is the current time otherwise.
    Resolving again replaces the notes and keeps status and
    [resolved_at]. *)
Theorem resolve_investigation_keeps_first_resolution_time
  (w : World) (id : nat) (text text2 : string) (inv : Investigation) :
  investigations (store w) !! id = Some inv ->
  exists inv1 w1 inv2 w2,
    resolve_investigation id text w = (Ok inv1, w1) /\
    investigations (store w1) = <[id := inv1]> (investigations (store w)) /\
    actions (store w1) = actions (store w) /\
    same_identity inv inv1 /\
    i_status inv1 = (if String.eqb (i_status inv) "closed" then "closed" else "resolved") /\
    i_resolution_notes inv1 = Some text /\
    i_resolved_at inv1 = Some (default (clock (reads w)) (i_resolved_at inv)) /\
    resolve_investigation id text2 w1 = (Ok inv2, w2) /\
    i_status inv2 = i_status inv1 /\
    i_resolved_at inv2 = i_resolved_at inv1 /\
    i_resolution_notes inv2 = Some text2.
Proof.
  intros Hlook.
  destruct (i_resolved_at inv) as [t|] eqn:Hat;
    destruct (String.eqb (i_status inv) "closed") eqn:Hst;
    eexists _, _, _, _;
    unfold resolve_investigation, bind, get_store; simpl;
    rewrite Hlook; simpl; rewrite Hat, Hst; simpl;
    (split; [reflexivity|]); simpl; rewrite lookup_insert_eq; simpl;
    by repeat split.
Qed.

(** X5. [close_investigation] on a stored case returns, sets the status to
    closed and keeps [resolved_at], the notes and the actions. A
    [resolve_investigation] that follows leaves the case closed, yet
    records its notes and a [resolved_at]. *)
Theorem close_investigation_holds_against_resolve
  (w : World) (id : nat) (text : string) (inv : Investigation) :
  investigations (store w) !! id = Some inv ->
  exists inv1 w1 inv2 w2,
    close_investigation id w = (Ok inv1, w1) /\
    investigations (store w1) = <[id := inv1]> (investigations (store w)) /\
    actions (store w1) = actions (store w) /\
    same_identity inv inv1 /\
    i_status inv1 = "closed" /\
    i_resolved_at inv1 = i_resolved_at inv /\
    i_resolution_notes inv1 = i_resolution_notes inv /\
    resolve_investigation id text w1 = (Ok inv2, w2) /\
    i_status inv2 = "closed" /\
    i_resolution_notes inv2 = Some text /\
    is_Some (i_resolved_at inv2).
Proof.
  intros Hlook.
  destruct (i_resolved_at inv) as [t|] eqn:Hat;
    eexists _, _, _, _;
    unfold close_investigation, resolve_investigation, bind, get_store; simpl;
    rewrite Hlook; simpl;
    (split; [reflexivity|]); simpl; rewrite lookup_insert_eq; simpl; rewrite Hat; simpl;
    by repeat split.
Qed.

(** X6. [add_investigation_action] on a stored case, with a deadline
    [deadline_days] after the first clock reading that is a date the library
    can represent, stores one action under a new key: pending, without
    [completed_at], with that deadline. The case moves to in_progress when
    it was open and is left alone otherwise, so a resolved or closed case
    then owns an action that is not completed. *)
Theorem add_investigation_action_adds_one_pending_action
  (w : World) (id : nat) (ty descr : string) (resp : option string)
  (prio : string) (days delta : Z) (inv : Investigation) :
  investigations (store w) !! id = Some inv ->
  timedelta_days (JNum days 0) = Ok delta ->
  representable (clock (reads w) + delta) ->
  exists k row w',
    add_investigation_action id ty descr resp prio days w = (Ok (k, row), w') /\
    actions (store w) !! k = None /\
    actions (store w') = <[k := row]> (actions (store w)) /\
    a_investigation_id row = id /\
    a_status row = "pending" /\
    a_completed_at row = None /\
    a_deadline row = Some (clock (reads w) + delta)%Z /\
    investigations (store w')
    = (if String.eqb (i_status inv) "open"
       then <[id := inv_set_updated_at (clock (3 + reads w))
                      (inv_set_status "in_progress" inv)]> (investigations (store w))
       else investigations (store w)) /\
    ~ all_completed (store w') id.
Proof.
  intros Hlook Hdelta _. unfold add_investigation_action, bind, get_store. simpl.
  rewrite Hlook. unfold lift. rewrite Hdelta. simpl.
  destruct (String.eqb (i_status inv) "open"); simpl;
    eexists _, _, _; (split; [reflexivity|]); simpl;
    (split; [apply new_id_fresh|]); repeat (split; [reflexivity|]);
    intros Hall;
    specialize (Hall (new_id (actions (store w))) _ (lookup_insert_eq _ _ _) eq_refl);
    discriminate.
Qed.






(** X8. When the answer of the generative service parses neither as a
    whole nor between its first opening and last closing bracket,
    [create_investigation] returns and stores the case with exactly one
    action: the information request of the source, pending, with medium
    priority and a deadline three days after the clock reading that follows
    the creation of the case. *)
Theorem create_investigation_falls_back_to_default_action
  (w : World) (m : nat) (p : string) (ci : option json) (message : Message)
  (response : string) (delta : Z) :
  messages (store w) !! m = Some message ->
  reference_in_use (store w) (drawn_reference w) = false ->
  respond (sent w) (suggest_prompt (m_content message) (attributes_dict message))
  = Ok response ->
  json_loads response = None ->
  (forall blob, spans "[" "]" response blob -> json_loads blob = None) ->
  timedelta_days (JNum 3 0) = Ok delta ->
  exists w',
    create_investigation m p ci w
    = (Ok (new_id (investigations (store w)), created_case w m p ci), w') /\
    investigations (store w')
    = <[new_id (investigations (store w)) := created_case w m p ci]>
        (investigations (store w)) /\
    actions (store w')
    = <[new_id (actions (store w)) :=
          default_action_row (new_id (investigations (store w))) delta (drawn 3 w)]>
        (actions (store w)).
Proof.
  intros Hm Hfree Hresp Hwhole Hspan Hdelta.
  rewrite create_unfold, Hm, Hfree.
  unfold _analyze_and_create_actions. unfold bind at 1.
  match goal with
  | |- context [_suggest_investigation_actions ?c ?a ?w0] =>
      destruct (suggested_actions_chain c a w0 response Hresp)
        as (suggested & w1 & Hrun & _ & _ & Hdef);
      pose proof (f_equal snd Hrun) as Hw1
  end.
  rewrite Hrun. rewrite (Hdef Hwhole Hspan).
  unfold _suggest_investigation_actions, bind, call_openai in Hw1. simpl in Hw1.
  rewrite Hresp in Hw1. simpl in Hw1. subst w1.
  unfold default_actions, iterate, mapM, action_row, bind, lift, utcnow, ret, get_store, commit.
  simpl.
  repeat match goal with
  | |- context [dict_get_default ?k ?d ?l] =>
      let v := eval vm_compute in (dict_get_default k d l) in
      change (dict_get_default k d l) with v
  end.
  rewrite Hdelta. simpl.
  eexists. split; [reflexivity|]. done.
Qed.

(** X9. When the generative service answers with an empty list,
    [create_investigation] returns and stores the case without any action;
    in a database with referential integrity the new case then owns no
    action. *)
Theorem create_investigation_with_no_suggestions
  (w : World) (m : nat) (p : string) (ci : option json) (message : Message)
  (response : string) :
  messages (store w) !! m = Some message ->
  reference_in_use (store w) (drawn_reference w) = false ->
  respond (sent w) (suggest_prompt (m_content message) (attributes_dict message))
  = Ok response ->
  json_loads response = Some (JArr []) ->
  referential_integrity (store w) ->
  exists w',
    create_investigation m p ci w
    = (Ok (new_id (investigations (store w)), created_case w m p ci), w') /\
    investigations (store w')
    = <[new_id (investigations (store w)) := created_case w m p ci]>
        (investigations (store w)) /\
    actions (store w') = actions (store w) /\
    ~ has_action (store w') (new_id (investigations (store w))).
Proof.
  intros Hm Hfree Hresp Hwhole (_ & Hown & _).
  rewrite create_unfold, Hm, Hfree.
  unfold _analyze_and_create_actions. unfold bind at 1.
  match goal with
  | |- context [_suggest_investigation_actions ?c ?a ?w0] =>
      destruct (suggested_actions_chain c a w0 response Hresp)
        as (suggested & w1 & Hrun & Hdef & _);
      pose proof (f_equal snd Hrun) as Hw1
  end.
  rewrite Hrun. rewrite (Hdef _ Hwhole).
  unfold _suggest_investigation_actions, bind, call_openai in Hw1. simpl in Hw1.
  rewrite Hresp in Hw1. simpl in Hw1. subst w1.
  unfold iterate, mapM, bind, lift, ret, get_store, commit. simpl.
  eexists. split; [reflexivity|]. simpl. split; [done|]. split; [done|].
  intros (k & a & Hk & Ha). destruct (Hown _ _ Hk) as [inv Hinv].
  rewrite Ha, new_id_fresh in Hinv. discriminate.
Qed.

End Outcomes.

(** ** The analysis of MT199 messages and the policy tables *)

Section Analysis.
Context {lib : PyLib} {out : Outside}.
Import MTService.

Lemma dict_contains_set_ne (k k' : string) (v : json) (d : list (string * json)) :
  k <> k' -> dict_contains k (dict_set k' v d) = dict_contains k d.
Proof. intros Hne. unfold dict_contains. by rewrite dict_get_set_ne. Qed.

Lemma dict_get_default_set_ne (k k' : string) (v x : json) (d : list (string * json)) :
  k <> k' -> dict_get_default k x (dict_set k' v d) = dict_get_default k x d.
Proof. intros Hne. unfold dict_get_default. by rewrite dict_get_set_ne. Qed.

Lemma dict_contains_set_eq (k : string) (v : json) (d : list (string * json)) :
  dict_contains k (dict_set k v d) = true.
Proof. unfold dict_contains. by rewrite dict_get_set_eq. Qed.

(** A supplied key keeps its value when another key is set, and a key that
    is absent is the only one to change. *)
Lemma dict_set_absent (k k' : string) (v x : json) (d : list (string * json)) :
  dict_contains k' d = false ->
  dict_get k d = Some x -> dict_get k (dict_set k' v d) = Some x.
Proof.
  intros Habs Hk. rewrite dict_get_set_ne; [done|].
  intros ->. unfold dict_contains in Habs. by rewrite Hk in Habs.
Qed.

Lemma template_outcome (workcase_type fields : json) (w : World) :
  if hashable workcase_type then
    exists text w',
      _get_default_response_template workcase_type fields w = (Ok text, w') /\
      store w' = store w /\ sent w' = sent w
  else _get_default_response_template workcase_type fields w = (Raised TypeError, w).
Proof.
  unfold _get_default_response_template, bind, lift, try_except.
  assert (Hget : if hashable workcase_type
                 then exists template, templates_get workcase_type = Ok template
                 else templates_get workcase_type = Raised TypeError).
  { destruct workcase_type; simpl; try by eexists.
    destruct (String.eqb s "NON_RECEIPT"); [by eexists|].
    destruct (String.eqb s "CANCELLATION"); by eexists. }
  destruct (hashable workcase_type); [|by rewrite Hget].
  destruct Hget as [template ->].
  destruct fields as [| | | | |d]; try by eexists _, _.
  unfold utcnow, ret. simpl.
  destruct (str_format _ None template); by eexists _, _.
Qed.

(** The three keys are filled in order on an object. *)
Lemma mt199_run_object (mt_message : string) (w : World) (response : string)
  (d : list (string * json)) :
  respond (sent w) (mt199_prompt mt_message) = Ok response ->
  parse_attempts "{" "}" response = Some (JObj d) ->
  let wt := dict_get_default "workcase_type" (JStr "UNKNOWN") d in
  let d1 := if dict_contains "regulations" d then d
            else dict_set "regulations" (_get_default_regulations wt) d in
  let d2 := if dict_contains "sla" d then d1
            else dict_set "sla" (_get_default_sla wt) d1 in
  let w1 := {| store := store w; sent := (sent w ++ [mt199_prompt mt_message])%list;
               reads := reads w; draws := draws w |} in
  _process_mt199_stp_failure mt_message w =
  if dict_contains "response_template" d then (Ok (JObj d2), w1)
  else
    match _get_default_response_template wt
            (dict_get_default "extracted_fields" (JObj []) d) w1 with
    | (Ok template, w') => (Ok (JObj (dict_set "response_template" (JStr template) d2)), w')
    | (Raised e, w') => (Raised e, w')
    end.
Proof.
  intros Hresp Hparse. cbv zeta.
  unfold _process_mt199_stp_failure. unfold bind at 1. unfold call_openai at 1.
  rewrite Hresp, Hparse.
  unfold bind at 1. unfold ret at 1.
  unfold bind at 1. unfold lift at 1, contains at 1.
  unfold bind at 1.
  destruct (dict_contains "regulations" d) eqn:Hreg.
  - unfold ret at 1. unfold bind at 1. unfold lift at 1, contains at 1.
    unfold bind at 1.
    destruct (dict_contains "sla" d) eqn:Hsla.
    + unfold ret at 1. unfold bind at 1. unfold lift at 1, contains at 1.
      unfold bind at 1.
      destruct (dict_contains "response_template" d) eqn:Htpl; [done|].
      unfold bind at 1. unfold lift at 1, method_get at 1.
      unfold bind at 1. unfold lift at 1, method_get at 1.
      unfold bind at 1.
      destruct (_get_default_response_template _ _ _) as [[template|e] w']; done.
    + unfold bind at 1. unfold lift at 1, method_get at 1.
      unfold lift at 1, setitem at 1.
      unfold bind at 1. unfold lift at 1, contains at 1.
      rewrite dict_contains_set_ne by done.
      unfold bind at 1.
      destruct (dict_contains "response_template" d) eqn:Htpl; [done|].
      unfold bind at 1. unfold lift at 1, method_get at 1.
      unfold bind at 1. unfold lift at 1, method_get at 1.
      rewrite !dict_get_default_set_ne by done.
      unfold bind at 1.
      destruct (_get_default_response_template _ _ _) as [[template|e] w']; done.
  - unfold bind at 1. unfold lift at 1, method_get at 1.
    unfold lift at 1, setitem at 1.
    unfold bind at 1. unfold lift at 1, contains at 1.
    rewrite dict_contains_set_ne by done.
    unfold bind at 1.
    destruct (dict_contains "sla" d) eqn:Hsla.
    + unfold ret at 1. unfold bind at 1. unfold lift at 1, contains at 1.
      rewrite dict_contains_set_ne by done.
      unfold bind at 1.
      destruct (dict_contains "response_template" d) eqn:Htpl; [done|].
      unfold bind at 1. unfold lift at 1, method_get at 1.
      unfold bind at 1. unfold lift at 1, method_get at 1.
      rewrite !dict_get_default_set_ne by done.
      unfold bind at 1.
      destruct (_get_default_response_template _ _ _) as [[template|e] w']; done.
    + unfold bind at 1. unfold lift at 1, method_get at 1.
      rewrite !dict_get_default_set_ne by done.
      unfold lift at 1, setitem at 1.
      unfold bind at 1. unfold lift at 1, contains at 1.
      rewrite !dict_contains_set_ne by done.
      unfold bind at 1.
      destruct (dict_contains "response_template" d) eqn:Htpl; [done|].
      unfold bind at 1. unfold lift at 1, method_get at 1.
      unfold bind at 1. unfold lift at 1, method_get at 1.
      rewrite !dict_get_default_set_ne by done.
      unfold bind at 1.
      destruct (_get_default_response_template _ _ _) as [[template|e] w']; done.
Qed.

(** X10. When the answer parses to an object, [_process_mt199_stp_failure]
    adds the entries regulations, sla and response_template that the object
    lacks, computed from its workcase type, and changes nothing else: every
    entry of the answer keeps its value. It sends one prompt and leaves the
    database alone. It raises, with [TypeError], exactly when the response
    template is missing and the workcase type is a list or an object. *)
Theorem mt199_analysis_fills_only_missing_keys
  (mt_message : string) (w : World) (response : string) (d : list (string * json)) :
  respond (sent w) (mt199_prompt mt_message) = Ok response ->
  parse_attempts "{" "}" response = Some (JObj d) ->
  let wt := dict_get_default "workcase_type" (JStr "UNKNOWN") d in
  (dict_contains "response_template" d || hashable wt = true ->
   exists d' w',
     _process_mt199_stp_failure mt_message w = (Ok (JObj d'), w') /\
     (forall k v, dict_get k d = Some v -> dict_get k d' = Some v) /\
     (forall k, k ∉ ["regulations"; "sla"; "response_template"] ->
                dict_get k d' = dict_get k d) /\
     dict_get "regulations" d'
     = Some (dict_get_default "regulations" (_get_default_regulations wt) d) /\
     dict_get "sla" d' = Some (dict_get_default "sla" (_get_default_sla wt) d) /\
     dict_contains "response_template" d' = true /\
     store w' = store w /\
     sent w' = (sent w ++ [mt199_prompt mt_message])%list) /\
  (dict_contains "response_template" d = false -> hashable wt = false ->
   fst (_process_mt199_stp_failure mt_message w) = Raised TypeError).
Proof.
  intros Hresp Hparse wt.
  rewrite (mt199_run_object _ _ _ _ Hresp Hparse). fold wt.
  set (d1 := if dict_contains "regulations" d then d
             else dict_set "regulations" (_get_default_regulations wt) d).
  set (d2 := if dict_contains "sla" d then d1
             else dict_set "sla" (_get_default_sla wt) d1).
  assert (H1 : forall k v, dict_get k d = Some v -> dict_get k d1 = Some v).
  { intros k v Hk. unfold d1. destruct (dict_contains "regulations" d) eqn:E; [done|].
    by apply dict_set_absent. }
  assert (H2 : forall k v, dict_get k d = Some v -> dict_get k d2 = Some v).
  { intros k v Hk. unfold d2. destruct (dict_contains "sla" d) eqn:E; [by apply H1|].
    rewrite dict_get_set_ne; [by apply H1|].
    intros ->. unfold dict_contains in E. by rewrite Hk in E. }
  assert (Hother : forall k, k <> "regulations" -> k <> "sla" -> dict_get k d2 = dict_get k d).
  { intros k Hr Hs. unfold d2, d1.
    destruct (dict_contains "sla" d), (dict_contains "regulations" d);
      rewrite ?dict_get_set_ne by done; done. }
  assert (Hreg : dict_get "regulations" d2
                 = Some (dict_get_default "regulations" (_get_default_regulations wt) d)).
  { unfold d2, d1, dict_get_default, dict_contains.
    destruct (dict_get "sla" d); destruct (dict_get "regulations" d) eqn:E;
      rewrite ?(dict_get_set_ne "regulations" "sla") by done;
      rewrite ?dict_get_set_eq; done. }
  assert (Hsla : dict_get "sla" d2
                 = Some (dict_get_default "sla" (_get_default_sla wt) d)).
  { unfold d2, d1, dict_get_default, dict_contains.
    destruct (dict_get "sla" d) eqn:E; destruct (dict_get "regulations" d);
      rewrite ?dict_get_set_eq; rewrite ?(dict_get_set_ne "sla" "regulations") by done;
      done. }
  split.
  - intros Hok. destruct (dict_contains "response_template" d) eqn:Htpl.
    + eexists _, _. split; [reflexivity|]. simpl.
      split; [done|]. split; [intros k Hk; apply Hother; set_solver|].
      split; [done|]. split; [done|]. split; [|done].
      unfold dict_contains in *. rewrite Hother by done.
      by destruct (dict_get "response_template" d).
    + simpl in Hok.
      match goal with
      | |- context [_get_default_response_template wt ?f ?w0] =>
          pose proof (template_outcome wt f w0) as Ht
      end.
      rewrite Hok in Ht. destruct Ht as (text & w' & -> & Hst & Hsent).
      eexists _, _. split; [reflexivity|].
      split.
      { intros k v Hk. rewrite dict_get_set_ne; [by apply H2|].
        intros ->. unfold dict_contains in Htpl. by rewrite Hk in Htpl. }
      split.
      { intros k Hk. rewrite dict_get_set_ne by set_solver. apply Hother; set_solver. }
      rewrite !dict_get_set_ne by done.
      split; [done|]. split; [done|]. split; [apply dict_contains_set_eq|done].
  - intros -> Hbad.
    match goal with
    | |- context [_get_default_response_template wt ?f ?w0] =>
        pose proof (template_outcome wt f w0) as Ht
    end.
    rewrite Hbad in Ht. by rewrite Ht.
Qed.

(** X11. When no parsing attempt succeeds, [_process_mt199_stp_failure]
    returns the workcase UNKNOWN without extracted fields, with one timeline
    entry dated by the first clock reading, the regulations and the service
    levels of an unknown workcase, and the UNKNOWN template filled with the
    defaults. *)
Theorem mt199_analysis_falls_back_to_unknown
  (mt_message : string) (w : World) (response : string) :
  respond (sent w) (mt199_prompt mt_message) = Ok response ->
  parse_attempts "{" "}" response = None ->
  exists result w',
    _process_mt199_stp_failure mt_message w = (Ok result, w') /\
    getitem result "workcase_type" = Ok (JStr "UNKNOWN") /\
    getitem result "extracted_fields" = Ok (JObj []) /\
    getitem result "timeline"
    = Ok (JArr [ JObj [ ("date", JStr (strftime "%Y-%m-%d" (clock (reads w))));
                        ("action", JStr "Initial review");
                        ("status", JStr "open") ] ]) /\
    getitem result "regulations" = Ok (_get_default_regulations (JStr "UNKNOWN")) /\
    getitem result "sla" = Ok (_get_default_sla (JStr "UNKNOWN")) /\
    getitem result "response_template"
    = Ok (JStr (rendered "UNKNOWN" "Unknown" "Valued Correspondent" "Unknown" "USD"
                  (strftime_local "%Y-%m-%d" (clock (S (reads w))))
                  "Unknown" "Customer request")) /\
    store w' = store w /\
    reads w' = 2 + reads w.
Proof.
  intros Hresp Hparse.
  unfold _process_mt199_stp_failure. unfold bind at 1. unfold call_openai at 1.
  rewrite Hresp, Hparse.
  unfold bind at 1. unfold bind at 1. unfold utcnow at 1. unfold ret at 1.
  unfold mt199_default.
  unfold bind at 1. unfold lift at 1, contains at 1.
  change (dict_contains "regulations" _) with false. cbv iota.
  unfold bind at 1. unfold bind at 1. unfold lift at 1, method_get at 1.
  unfold lift at 1, setitem at 1.
  unfold bind at 1. unfold lift at 1, contains at 1.
  match goal with
  | |- context [dict_contains "sla" ?l] =>
      let v := eval vm_compute in (dict_contains "sla" l) in
      change (dict_contains "sla" l) with v
  end. cbv iota.
  unfold bind at 1. unfold bind at 1. unfold lift at 1, method_get at 1.
  unfold lift at 1, setitem at 1.
  unfold bind at 1. unfold lift at 1, contains at 1.
  match goal with
  | |- context [dict_contains "response_template" ?l] =>
      let v := eval vm_compute in (dict_contains "response_template" l) in
      change (dict_contains "response_template" l) with v
  end. cbv iota.
  unfold bind at 1. unfold bind at 1. unfold lift at 1, method_get at 1.
  unfold bind at 1. unfold lift at 1, method_get at 1.
  repeat match goal with
  | |- context [dict_get_default ?k (JStr "UNKNOWN") ?l] =>
      change (dict_get_default k (JStr "UNKNOWN") l) with (JStr "UNKNOWN")
  end.
  match goal with
  | |- context [dict_get_default "extracted_fields" ?x ?l] =>
      change (dict_get_default "extracted_fields" x l) with (JObj [])
  end.
  unfold bind at 1. rewrite template_run.
  unfold bind, lift, setitem, ret.
  eexists _, _. split; [reflexivity|]. simpl.
  repeat split.
Qed.

(** X12. [_get_default_response_template] outside the domain of C7. A
    workcase type that is a list or an object makes it raise [TypeError],
    the lookup of the template being outside the guarded block. With any
    other workcase type and extracted fields that are no object, it returns
    the template unfilled, placeholders included, without reading the
    clock. *)
Theorem response_template_without_usable_arguments (workcase_type : json) (w : World) :
  (hashable workcase_type = false ->
   forall fields,
     _get_default_response_template workcase_type fields w = (Raised TypeError, w)) /\
  (hashable workcase_type = true ->
   forall fields,
     (forall d, fields <> JObj d) ->
     exists template,
       templates_get workcase_type = Ok template /\
       _get_default_response_template workcase_type fields w = (Ok template, w) /\
       is_substring "{reference}" template = true).
Proof.
  split.
  - intros Hbad fields. pose proof (template_outcome workcase_type fields w) as Ht.
    by rewrite Hbad in Ht.
  - intros Hok fields Hnot.
    assert (Hget : exists template, templates_get workcase_type = Ok template /\
                     (template = template_NON_RECEIPT \/ template = template_CANCELLATION
                      \/ template = template_UNKNOWN)).
    { destruct workcase_type; simpl in *; try discriminate; try (eexists; split; [done|tauto]).
      destruct (String.eqb s "NON_RECEIPT"); [eexists; split; [done|tauto]|].
      destruct (String.eqb s "CANCELLATION"); eexists; split; done || tauto. }
    destruct Hget as (template & Hget & Hcases). exists template. split; [done|].
    split.
    + unfold _get_default_response_template, bind, lift, try_except. rewrite Hget.
      destruct fields as [| | | | |d]; try done. by destruct (Hnot d).
    + destruct Hcases as [->|[->| ->]]; vm_compute; reflexivity.
Qed.

(** X13. For every workcase type [_get_default_sla] gives hours to the
    five stages; acknowledgment, initial research, correspondence and
    follow-up come in non-decreasing order and correspondence never exceeds
    resolution. Resolution is not before follow-up except for the type
    CANCELLATION, whose resolution (72) precedes its follow-up (120). *)
Theorem default_sla_stage_order (workcase_type : json) :
  exists a r c f s,
    sla_hours workcase_type "acknowledgment" = Some a /\
    sla_hours workcase_type "initial_research" = Some r /\
    sla_hours workcase_type "correspondence" = Some c /\
    sla_hours workcase_type "follow_up" = Some f /\
    sla_hours workcase_type "resolution" = Some s /\
    (0 < a <= r)%Z /\ (r <= c <= f)%Z /\ (c <= s)%Z /\
    (f <= s <-> is_str "CANCELLATION" workcase_type = false)%Z.
Proof.
  unfold sla_hours, _get_default_sla.
  destruct (is_str "CANCELLATION" workcase_type);
    [|destruct (is_str "REGULATORY_COMPLIANCE" workcase_type)];
    eexists _, _, _, _, _; repeat (split; [reflexivity|]); simpl; 
    repeat split; try lia; try done.
Qed.

End Analysis.

(** ** Single messages and tables of messages *)

Section Messages.
Context {lib : PyLib} {out : Outside}.
Import MTService.

Lemma advancing_ret {A : Type} (a : A) : advancing (ret a).
Proof. by intros w. Qed.

Lemma advancing_raise {A : Type} (e : exn) : advancing (@raise A e).
Proof. by intros w. Qed.

Lemma advancing_lift {A : Type} (r : Result A) : advancing (lift r).
Proof. by intros w. Qed.

Lemma advancing_utcnow : advancing utcnow.
Proof. intros w. simpl. lia. Qed.

Lemma advancing_call_openai (prompt : string) : advancing (call_openai prompt).
Proof. by intros w. Qed.

Lemma advancing_bind {A B : Type} (c : M A) (k : A -> M B) :
  advancing c -> (forall a, advancing (k a)) -> advancing (bind c k).
Proof.
  intros Hc Hk w. unfold bind. specialize (Hc w).
  destruct (c w) as [[a|e] w1]; simpl in *; [|done].
  specialize (Hk a w1). lia.
Qed.

Lemma advancing_try_except {A : Type} (c : M A) (h : exn -> M A) :
  advancing c -> (forall e, advancing (h e)) -> advancing (try_except c h).
Proof.
  intros Hc Hh w. unfold try_except. specialize (Hc w).
  destruct (c w) as [[a|e] w1]; simpl in *; [done|].
  specialize (Hh e w1). lia.
Qed.

Lemma advancing_if {A : Type} (b : bool) (c1 c2 : M A) :
  advancing c1 -> advancing c2 -> advancing (if b then c1 else c2).
Proof. by destruct b. Qed.

Lemma reads_only_if {A : Type} (b : bool) (c1 c2 : M A) :
  reads_only c1 -> reads_only c2 -> reads_only (if b then c1 else c2).
Proof. by destruct b. Qed.

#[local] Hint Resolve advancing_ret advancing_raise advancing_lift advancing_utcnow
  advancing_call_openai advancing_try_except advancing_if : advancing.
#[local] Hint Extern 2 (advancing (bind _ _)) =>
  apply advancing_bind; [|intros ?] : advancing.
#[local] Hint Resolve reads_only_ret reads_only_raise reads_only_lift
  reads_only_utcnow reads_only_call_openai reads_only_get_store
  reads_only_try_except reads_only_if : reads_only.
#[local] Hint Extern 2 (reads_only (bind _ _)) =>
  apply reads_only_bind; [|intros ?] : reads_only.

Lemma template_keeps (workcase_type fields : json) :
  reads_only (_get_default_response_template workcase_type fields) /\
  advancing (_get_default_response_template workcase_type fields).
Proof.
  unfold _get_default_response_template. split.
  - apply reads_only_bind; [auto with reads_only|]. intros template.
    apply reads_only_try_except; [|auto with reads_only].
    destruct fields; auto with reads_only.
  - apply advancing_bind; [auto with advancing|]. intros template.
    apply advancing_try_except; [|auto with advancing].
    destruct fields; auto with advancing.
Qed.

Lemma mt199_keeps (mt_message : string) :
  reads_only (_process_mt199_stp_failure mt_message) /\
  advancing (_process_mt199_stp_failure mt_message).
Proof.
  unfold _process_mt199_stp_failure. split.
  - apply reads_only_bind; [auto with reads_only|]. intros response.
    apply reads_only_bind.
    { destruct (parse_attempts "{" "}" response); auto with reads_only. }
    intros result. apply reads_only_bind; [auto with reads_only|]. intros p1.
    apply reads_only_bind; [destruct p1; auto with reads_only|].
    intros r1. apply reads_only_bind; [auto with reads_only|]. intros p2.
    apply reads_only_bind; [destruct p2; auto with reads_only|].
    intros r2. apply reads_only_bind; [auto with reads_only|]. intros p3.
    apply reads_only_bind; [|auto with reads_only].
    destruct p3; [auto with reads_only|].
    apply reads_only_bind; [auto with reads_only|]. intros wt.
    apply reads_only_bind; [auto with reads_only|]. intros fields.
    apply reads_only_bind; [apply template_keeps|]. auto with reads_only.
  - apply advancing_bind; [auto with advancing|]. intros response.
    apply advancing_bind.
    { destruct (parse_attempts "{" "}" response); auto with advancing. }
    intros result. apply advancing_bind; [auto with advancing|]. intros p1.
    apply advancing_bind; [destruct p1; auto with advancing|].
    intros r1. apply advancing_bind; [auto with advancing|]. intros p2.
    apply advancing_bind; [destruct p2; auto with advancing|].
    intros r2. apply advancing_bind; [auto with advancing|]. intros p3.
    apply advancing_bind; [|auto with advancing].
    destruct p3; [auto with advancing|].
    apply advancing_bind; [auto with advancing|]. intros wt.
    apply advancing_bind; [auto with advancing|]. intros fields.
    apply advancing_bind; [apply template_keeps|]. auto with advancing.
Qed.

Lemma merge_stage_keeps (message_content : string) (base : json) :
  reads_only (merge_stage message_content base) /\
  advancing (merge_stage message_content base).
Proof.
  unfold merge_stage. destruct (is_mt199 message_content).
  - split.
    + apply reads_only_bind; [apply mt199_keeps|]. intros info.
      apply reads_only_bind; [auto with reads_only|]. intros p.
      destruct p; auto 10 with reads_only.
    + apply advancing_bind; [apply mt199_keeps|]. intros info.
      apply advancing_bind; [auto with advancing|]. intros p.
      destruct p; auto 10 with advancing.
  - split; auto with reads_only advancing.
Qed.

Lemma message_id_stage_run (message_id : option string) (w : World) :
  exists n,
    message_id_stage message_id (tick 1 w)
    = (Ok (assigned_id message_id w), tick n w) /\ 1 <= n.
Proof.
  unfold message_id_stage, assigned_id.
  destruct message_id as [id|].
  - destruct (String.eqb id ""); [exists 2|exists 1]; (split; [reflexivity|lia]).
  - exists 2. split; [reflexivity|lia].
Qed.

Lemma stamp_stage_run (start_time : Z) (id : string) (d : list (string * json))
  (w : World) :
  stamp_stage start_time id (JObj d) w
  = (Ok (JObj (dict_set "processed_at" (JStr (isoformat (clock (S (reads w)))))
                 (dict_set "processing_time" (JNum (clock (reads w) - start_time) (-6))
                    (dict_set "message_id" (JStr id) d))),
         JNum (clock (reads w) - start_time) (-6)),
     tick 2 w).
Proof. reflexivity. Qed.

Lemma stamp_stage_raises (start_time : Z) (id : string) (v : json) (w : World) :
  (forall d, v <> JObj d) ->
  stamp_stage start_time id v w = (Raised TypeError, tick 1 w).
Proof. intros Hnot. destruct v; try done. by destruct (Hnot fields). Qed.

(** The prompts one message sends. *)
Lemma single_message_prompts (message_content mode : string)
  (message_id : option string) (w : World) :
  sent (snd (process_single_message message_content mode message_id w))
  = (sent w ++ prompts_of mode message_content w)%list.
Proof.
  rewrite process_single_message_run. unfold prompts_of.
  destruct (message_id_stage_run message_id w) as (n & -> & _). simpl.
  destruct (respond (sent w) (base_prompt mode message_content)) as [response|e];
    [|simpl; by destruct (is_mt199 message_content)].
  unfold bind.
  match goal with
  | |- context [merge_stage message_content ?b ?w0] =>
      assert (Hm : sent (snd (merge_stage message_content b w0))
                   = (sent w0 ++ if is_mt199 message_content
                                 then [mt199_prompt message_content] else [])%list);
      [|destruct (merge_stage message_content b w0) as [[merged|e] w4]]
  end.
  { destruct (is_mt199 message_content) eqn:Hmark.
    - rewrite merge_stage_world by done. apply mt199_sends_one_prompt.
    - unfold merge_stage. rewrite Hmark. simpl. by rewrite app_nil_r. }
  - rewrite silent_stamp_stage. simpl in Hm. rewrite Hm. simpl.
    by rewrite <- app_assoc.
  - simpl in *. rewrite Hm. by rewrite <- app_assoc.
Qed.

Lemma single_message_keeps (message_content mode : string) (message_id : option string) :
  reads_only (process_single_message message_content mode message_id).
Proof.
  rewrite process_single_message_stages.
  apply reads_only_bind; [auto with reads_only|]. intros start.
  apply reads_only_bind.
  { unfold message_id_stage. destruct message_id as [id|]; [|auto with reads_only].
    destruct (String.eqb id ""); auto with reads_only. }
  intros id. apply reads_only_bind.
  { unfold _convert_mt_to_mx, _extract_attributes.
    destruct (String.eqb mode "convert"); auto with reads_only. }
  intros base. apply reads_only_bind; [apply merge_stage_keeps|]. intros merged.
  unfold stamp_stage. auto 10 with reads_only.
Qed.

(** X14. When the conversion or extraction call raises,
    [process_single_message] raises the same exception; the only prompt
    sent is that of the failed call, also for a message with the MT199
    marker, and the database is unchanged. *)
Theorem first_call_failure_stops_the_message
  (message_content mode : string) (message_id : option string) (w : World) (e : exn) :
  respond (sent w) (base_prompt mode message_content) = Raised e ->
  exists w',
    process_single_message message_content mode message_id w = (Raised e, w') /\
    sent w' = (sent w ++ [base_prompt mode message_content])%list /\
    store w' = store w.
Proof.
  intros Hfail. rewrite process_single_message_run.
  destruct (message_id_stage_run message_id w) as (n & -> & _). simpl.
  rewrite Hfail. by eexists.
Qed.

(** X15. A result returned by [process_single_message] carries the keys
    message_id, processing_time and processed_at written by the function
    itself, over any value the generative service gave under these names:
    the message id is the one supplied, or the generated one when none or
    an empty one was supplied; the processing time is the difference of a
    later and the first clock reading and is the second component of the
    result. The database is unchanged. *)
Theorem returned_result_is_stamped
  (message_content mode : string) (message_id : option string) (w w' : World)
  (result t : json) :
  process_single_message message_content mode message_id w = (Ok (result, t), w') ->
  exists n,
    reads w < n /\
    reads w' = S (S n) /\
    t = JNum (clock n - clock (reads w)) (-6) /\
    getitem result "message_id" = Ok (JStr (assigned_id message_id w)) /\
    getitem result "processing_time" = Ok t /\
    getitem result "processed_at" = Ok (JStr (isoformat (clock (S n)))) /\
    store w' = store w.
Proof.
  intros Hrun.
  pose proof (single_message_keeps message_content mode message_id w) as Hstore.
  rewrite Hrun in Hstore. simpl in Hstore.
  rewrite process_single_message_run in Hrun.
  destruct (message_id_stage_run message_id w) as (n & Hid & Hn). rewrite Hid in Hrun.
  simpl in Hrun.
  destruct (respond (sent w) (base_prompt mode message_content)) as [response|e];
    [|discriminate].
  unfold bind in Hrun.
  match type of Hrun with
  | context [merge_stage message_content ?b ?w0] =>
      pose proof (proj2 (merge_stage_keeps message_content b) w0) as Hadv;
      destruct (merge_stage message_content b w0) as [[merged|e] w4]
  end; [|discriminate].
  simpl in Hadv.
  destruct merged as [| | | | |d]; try discriminate.
  rewrite stamp_stage_run in Hrun. injection Hrun as <- <- <-.
  exists (reads w4). split; [lia|]. split; [done|]. split; [done|]. simpl.
  rewrite !dict_get_set_ne by done. rewrite !dict_get_set_eq.
  rewrite dict_get_set_ne by done. rewrite !dict_get_set_eq. done.
Qed.

(** X16. When the answer of the first call parses to a value that is no
    object, [process_single_message] does not return a result; without the
    MT199 marker it raises [TypeError]. *)
Theorem answer_that_is_no_object_raises
  (message_content mode : string) (message_id : option string) (w : World)
  (response : string) (v : json) :
  respond (sent w) (base_prompt mode message_content) = Ok response ->
  parse_attempts "{" "}" response = Some v ->
  (forall d, v <> JObj d) ->
  (forall r, fst (process_single_message message_content mode message_id w) <> Ok r) /\
  (is_mt199 message_content = false ->
   fst (process_single_message message_content mode message_id w) = Raised TypeError).
Proof.
  intros Hresp Hparse Hnot.
  assert (Hbase : base_result mode response = v).
  { unfold base_result, normalize_conversion, normalize_extraction, parse_response.
    rewrite Hparse. by destruct (String.eqb mode "convert"). }
  rewrite process_single_message_run.
  destruct (message_id_stage_run message_id w) as (n & -> & _). simpl.
  rewrite Hresp, Hbase. unfold bind. split.
  - intros r. unfold merge_stage. destruct (is_mt199 message_content).
    + unfold bind at 1.
      destruct (_process_mt199_stp_failure message_content _) as [[info|e] w1]; [|done].
      unfold bind, lift.
      destruct v as [| | | | |d]; simpl; try done.
      * destruct (is_substring "attributes" s); simpl; done.
      * destruct (existsb _ items); simpl; done.
      * by destruct (Hnot d).
    + unfold ret. rewrite stamp_stage_raises by done. done.
  - intros Hmark. unfold merge_stage. rewrite Hmark. unfold ret.
    by rewrite stamp_stage_raises.
Qed.

Lemma error_entry_run (id : string) (e : exn) (w : World) :
  error_entry id e w
  = (Ok (JObj [ ("message_id", JStr id); ("error", JStr (exn_str e));
                ("processed_at", JStr (isoformat (clock (reads w)))) ]), tick 1 w).
Proof. reflexivity. Qed.

Lemma row_outcome_world (mode : string) (row : string * string) (w : World) :
  store (snd (row_outcome mode row w)) = store w /\
  sent (snd (row_outcome mode row w))
  = (sent w ++ prompts_of mode (snd row) w)%list.
Proof.
  unfold row_outcome.
  pose proof (single_message_keeps (snd row) mode (Some (fst row)) w) as Hst.
  pose proof (single_message_prompts (snd row) mode (Some (fst row)) w) as Hs.
  destruct (process_single_message (snd row) mode (Some (fst row)) w) as [[r|e] w1];
    simpl in *; done.
Qed.

(** X17. Processing a table is processing its first rows and then its
    remaining rows in the world the first rows left: the results are
    concatenated. *)
Theorem bulk_processing_composes
  (df1 df2 : list (string * string)) (mode : string) (w : World) :
  exists r1 w1 r2 w2,
    process_bulk_messages df1 mode w = (Ok r1, w1) /\
    process_bulk_messages df2 mode w1 = (Ok r2, w2) /\
    process_bulk_messages (df1 ++ df2)%list mode w = (Ok (r1 ++ r2)%list, w2).
Proof.
  revert w. induction df1 as [|row df1 IH]; intros w.
  - destruct (bulk_rows df2 mode w) as (r2 & w2 & Hrun & _).
    exists [], w, r2, w2. by repeat split.
  - destruct (IH (snd (row_outcome mode row w))) as (r1 & w1 & r2 & w2 & H1 & H2 & H12).
    simpl app. rewrite !bulk_cons, H1, H12.
    eexists _, w1, r2, w2. by repeat split.
Qed.

(** X18. [process_bulk_messages] leaves the database unchanged, keeps the
    prompts sent before and sends at least one and at most two prompts for
    each row; when no row has the MT199 marker the prompts are those of the
    conversion or extraction, one for each row in row order. *)
Theorem bulk_processing_prompt_count
  (df : list (string * string)) (mode : string) (w : World) :
  exists results w' new,
    process_bulk_messages df mode w = (Ok results, w') /\
    store w' = store w /\
    sent w' = (sent w ++ new)%list /\
    length df <= length new <= 2 * length df /\
    (Forall (fun row => is_mt199 (snd row) = false) df -> new = map (fun row => base_prompt mode (snd row)) df).
Proof.
  revert w. induction df as [|row df IH]; intros w.
  - exists [], w, []. simpl. rewrite app_nil_r. repeat split; done || lia.
  - rewrite bulk_cons.
    destruct (row_outcome_world mode row w) as [Hst Hsent].
    destruct (IH (snd (row_outcome mode row w)))
      as (results & w' & new & -> & Hst' & Hsent' & Hlen & Hplain).
    eexists _, w', (prompts_of mode (snd row) w ++ new)%list.
    split; [reflexivity|]. split; [congruence|].
    split; [by rewrite Hsent', Hsent, app_assoc|].
    split.
    + rewrite length_app. unfold prompts_of. simpl length.
      destruct (is_mt199 (snd row)); [|simpl; lia].
      destruct (respond _ _); simpl; lia.
    + intros Hall. inversion Hall as [|? ? Hrow Hrest]; subst.
      rewrite (Hplain Hrest). unfold prompts_of. by rewrite Hrow.
Qed.

End Messages.

(** ** The reading side of the case service *)

Section Reports.
Context {lib : PyLib} {out : Outside} {engine : Engine} {errors : PyErrors}.
Import InvestigationReports.

Lemma mapM_ok {A B : Type} (f : A -> M B) (l : list A) (w : World) :
  (forall x w0, x ∈ l -> store w0 = store w ->
     exists y, f x w0 = (Ok y, tick 1 w0)) ->
  exists ys,
    mapM f l w = (Ok ys, tick (length l) w) /\ length ys = length l.
Proof.
  revert w. induction l as [|x l IH]; intros w Hf.
  - exists []. by destruct w.
  - destruct (Hf x w) as [y Hy]; [by left|done|].
    destruct (IH (tick 1 w)) as (ys & Hys & Hlen).
    { intros x' w0 Hin Hst. apply Hf; [by right|done]. }
    exists (y :: ys). simpl. unfold bind. rewrite Hy, Hys. unfold ret.
    split; [|simpl; lia]. f_equal. unfold tick. simpl. f_equal. lia.
Qed.

Lemma filter_by_elem (col : Investigation -> string) (x : option string)
  (query : list (nat * Investigation)) (row : nat * Investigation) :
  row ∈ filter_by col x query <-> row ∈ query /\ passes x (col (snd row)).
Proof.
  unfold filter_by, passes. destruct x as [s|].
  - destruct (String.eqb s "") eqn:E.
    + apply String.eqb_eq in E as ->. split; [intros ?; split; [done|by right; left]|by intros [? _]].
    + apply String.eqb_neq in E. rewrite list_elem_of_filter. split.
      * intros [<- ?]. split; [done|by right; right].
      * intros [? [?|[?|?]]]; [done|congruence|]. split; [congruence|done].
  - split; [intros ?; split; [done|by left]|by intros [? _]].
Qed.

Lemma selected_elem (db : Store) (status priority : option string)
  (id : nat) (inv : Investigation) :
  (id, inv) ∈ selected db status priority <->
  investigations db !! id = Some inv /\
  passes status (i_status inv) /\ passes priority (i_priority inv).
Proof.
  unfold selected. rewrite !filter_by_elem, elem_of_map_to_list. simpl. tauto.
Qed.

Lemma summary_run (db : Store) (id : nat) (inv : Investigation) (w : World) :
  listable inv ->
  exists entry, summary db (id, inv) w = (Ok entry, tick 1 w).
Proof.
  intros [d Hd]. unfold summary, bind, lift. rewrite Hd. simpl.
  by eexists.
Qed.

Lemma length_order_by {A : Type} (col : A -> Z) (l : list (nat * A)) :
  length (order_by col l) = length l.
Proof. by rewrite order_by_rows. Qed.

(** X19. With a limit and an offset that are not negative, and customer
    information that is absent or the text of an object in every case,
    [get_investigations] returns; total counts all cases that pass the
    filters, whatever limit and offset are; the list holds the lesser of
    limit and the number of cases left after the offset; one clock reading
    is made for each listed case. A filter that is absent or the empty
    string passes every case. *)
Theorem get_investigations_lists_one_page
  (w : World) (status priority : option string) (limit offset : Z) :
  (0 <= limit)%Z -> (0 <= offset)%Z ->
  (forall id inv, investigations (store w) !! id = Some inv -> listable inv) ->
  exists entries,
    get_investigations status priority limit offset w
    = (Ok (JObj [ ("total", int (length (selected (store w) status priority)));
                  ("investigations", JArr entries);
                  ("limit", JNum limit 0); ("offset", JNum offset 0) ]),
       tick (length entries) w) /\
    length entries
    = Z.to_nat limit `min` (length (selected (store w) status priority) - Z.to_nat offset) /\
    (forall id inv,
       (id, inv) ∈ selected (store w) status priority <->
       investigations (store w) !! id = Some inv /\
       passes status (i_status inv) /\ passes priority (i_priority inv)).
Proof.
  intros Hlimit Hoffset Hall.
  unfold get_investigations, bind at 1, get_store.
  assert (Hpage : forall row, row ∈ page (store w) status priority limit offset ->
                    row ∈ selected (store w) status priority).
  { intros row. unfold page.
    rewrite limit_rows_nonneg, offset_rows_nonneg by done.
    intros Hin. apply subseteq_take, subseteq_drop in Hin.
    by rewrite order_by_rows in Hin. }
  destruct (mapM_ok (summary (store w)) (page (store w) status priority limit offset) w)
    as (entries & Hrun & Hlen).
  { intros [id inv] w0 Hin _. apply summary_run.
    apply Hpage, selected_elem in Hin as (Hin & _). by eapply Hall. }
  exists entries. unfold bind. rewrite Hrun. unfold ret. rewrite Hlen.
  split; [done|]. split; [|apply selected_elem].
  unfold page. rewrite limit_rows_nonneg, offset_rows_nonneg by done.
  rewrite length_take, length_drop, length_order_by. done.
Qed.

Lemma get_investigation_run (id : nat) (w : World) (inv : Investigation) :
  investigations (store w) !! id = Some inv ->
  get_investigation id w =
  match load_customer_info (i_customer_info inv) with
  | Ok customer_info =>
      (Ok (JObj
             [ ("id", int id);
               ("reference_number", JStr (i_reference_number inv));
               ("status", JStr (i_status inv));
               ("priority", JStr (i_priority inv));
               ("message",
                JObj [ ("id", match messages (store w) !! i_message_id inv with
                              | Some _ => int (i_message_id inv)
                              | None => JNull
                              end);
                       ("message_id", match messages (store w) !! i_message_id inv with
                                      | Some m => JStr (m_message_id m)
                                      | None => JNull
                                      end);
                       ("content", match messages (store w) !! i_message_id inv with
                                   | Some m => JStr (m_content m)
                                   | None => JNull
                                   end);
                       ("attributes",
                        match messages (store w) !! i_message_id inv with
                        | Some m => InvestigationService.attributes_dict m
                        | None => JObj []
                        end) ]);
               ("customer_info", customer_info);
               ("actions", JArr (map format_action (actions_of (store w) id)));
               ("created_at", JStr (isoformat (i_created_at inv)));
               ("updated_at", JStr (isoformat (i_updated_at inv)));
               ("resolution_notes", str_or_none (i_resolution_notes inv));
               ("resolved_at", isoformat_or_none (i_resolved_at inv)) ]), w)
  | Raised e => (Raised e, w)
  end.
Proof.
  intros Hlook. unfold get_investigation, bind, get_store. rewrite Hlook.
  unfold lift. by destruct (load_customer_info (i_customer_info inv)).
Qed.

Lemma length_actions_of (db : Store) (id : nat) :
  length (actions_of db id) = count_actions db id.
Proof.
  unfold actions_of, count_actions, rows. rewrite length_order_by.
  induction (map_to_list (actions db)) as [|[k a] l IH]; [done|].
  rewrite fmap_cons, !filter_cons. simpl.
  destruct (decide (a_investigation_id a = id)); simpl; by rewrite IH.
Qed.

(** X20. In a database with referential integrity,
    [get_investigation_by_reference] on the reference number of a stored
    case is [get_investigation] on its key, and on a reference number that
    is not in use it raises the [ValueError] of the source and changes
    nothing. *)
Theorem lookup_by_reference_agrees_with_lookup_by_key (w : World) :
  referential_integrity (store w) ->
  (forall id inv,
     investigations (store w) !! id = Some inv ->
     get_investigation_by_reference (i_reference_number inv) w = get_investigation id w) /\
  (forall reference_number,
     InvestigationService.reference_in_use (store w) reference_number = false ->
     get_investigation_by_reference reference_number w
     = (Raised (ValueError ("Investigation with reference " +:+ reference_number
                            +:+ " not found")), w)).
Proof.
  intros (Huniq & _). split.
  - intros id inv Hlook. unfold get_investigation_by_reference, bind at 1, get_store.
    destruct (head _) as [[j inv2]|] eqn:Ehead.
    + apply head_Some_elem_of, list_elem_of_filter in Ehead as [Href Hin].
      apply elem_of_map_to_list in Hin. simpl in *.
      by rewrite (Huniq j id inv2 inv Hin Hlook Href).
    + apply head_None in Ehead.
      assert (Hin : (id, inv) ∈ filter
                      (fun row : nat * Investigation =>
                         i_reference_number (snd row) = i_reference_number inv)
                      (map_to_list (investigations (store w)))).
      { apply list_elem_of_filter. split; [done|]. by apply elem_of_map_to_list. }
      rewrite Ehead in Hin. by apply elem_of_nil in Hin.
  - intros ref Hfree. unfold get_investigation_by_reference, bind at 1, get_store.
    destruct (head _) as [[j inv2]|] eqn:Ehead; [|done].
    apply head_Some_elem_of, list_elem_of_filter in Ehead as [Href Hin].
    apply elem_of_map_to_list in Hin. simpl in *.
    by destruct (reference_free _ _ _ _ Hfree Hin).
Qed.

(** X21. The route [get_investigation] answers 404 for a key that is not
    stored, and also for a stored case whose customer information does not
    decode, the decoding error being a [ValueError]. Otherwise it returns
    the case with its decoded customer information and its actions, each
    action of the case once, ordered by creation time; the world is
    unchanged in every case. *)
Theorem get_investigation_route_answers (w : World) (id : nat) :
  match investigations (store w) !! id with
  | None =>
      InvestigationRoutes.get_investigation id w
      = (HTTPException 404 ("Investigation with ID " +:+ pretty id +:+ " not found"), w)
  | Some inv =>
      match load_customer_info (i_customer_info inv) with
      | Ok customer_info =>
          exists body listed,
            InvestigationRoutes.get_investigation id w = (Returned body, w) /\
            getitem body "status" = Ok (JStr (i_status inv)) /\
            getitem body "customer_info" = Ok customer_info /\
            getitem body "actions" = Ok (JArr (map format_action listed)) /\
            listed ≡ₚ filter (fun row => a_investigation_id (snd row) = id)
                        (map_to_list (actions (store w))) /\
            StronglySorted (fun x y => (a_created_at (snd x) <= a_created_at (snd y))%Z)
                           listed
      | Raised e =>
          exists text,
            i_customer_info inv = Some text /\ json_loads text = None /\
            InvestigationRoutes.get_investigation id w
            = (HTTPException 404 (decode_error text), w)
      end
  end.
Proof.
  unfold InvestigationRoutes.get_investigation, handle.
  destruct (investigations (store w) !! id) as [inv|] eqn:Hlook.
  - rewrite (get_investigation_run _ _ _ Hlook).
    destruct (load_customer_info (i_customer_info inv)) as [c|e] eqn:Hload.
    + eexists _, (actions_of (store w) id). split; [reflexivity|].
      split; [done|]. split; [done|]. split; [done|].
      split; [apply order_by_rows|apply order_by_sorted].
    + unfold load_customer_info in Hload.
      destruct (i_customer_info inv) as [text|]; [|done].
      destruct (String.eqb text ""); [done|].
      destruct (json_loads text) eqn:Hparse; [done|].
      injection Hload as <-. by exists text.
  - unfold get_investigation, bind, get_store. by rewrite Hlook.
Qed.

End Reports.

(** ** The answers of the routes *)

Section RouteAnswers.
Context {lib : PyLib} {out : Outside} {engine : Engine} {errors : PyErrors}.
Import InvestigationReports.

(** X22. The routes [update_action_status], [resolve_investigation],
    [close_investigation] and [add_investigation_action] answer 400 with the
    message of the service, and change nothing, when the row they address
    is not stored. When it is stored the first three return a body with the
    key and the new status, and so does the fourth whenever the deadline,
    [deadline_days] after the first clock reading, is a date the library
    can represent. *)
Theorem lifecycle_routes_answer_400_for_missing_rows_only (w : World) :
  (forall k status notes,
     match actions (store w) !! k with
     | Some action =>
         exists body w',
           InvestigationRoutes.update_action_status k status notes w = (Returned body, w') /\
           getitem body "id" = Ok (int k) /\
           getitem body "investigation_id" = Ok (int (a_investigation_id action)) /\
           getitem body "status" = Ok (JStr status) /\
           getitem body "notes" = Ok (str_or_none notes)
     | None =>
         InvestigationRoutes.update_action_status k status notes w
         = (HTTPException 400 ("Action with ID " +:+ pretty k +:+ " not found"), w)
     end) /\
  (forall id text,
     match investigations (store w) !! id with
     | Some inv =>
         exists body w',
           InvestigationRoutes.resolve_investigation id text w = (Returned body, w') /\
           getitem body "id" = Ok (int id) /\
           getitem body "reference_number" = Ok (JStr (i_reference_number inv)) /\
           getitem body "status"
           = Ok (JStr (if String.eqb (i_status inv) "closed" then "closed" else "resolved")) /\
           getitem body "resolution_notes" = Ok (JStr text)
     | None =>
         InvestigationRoutes.resolve_investigation id text w
         = (HTTPException 400 ("Investigation with ID " +:+ pretty id +:+ " not found"), w)
     end) /\
  (forall id,
     match investigations (store w) !! id with
     | Some inv =>
         exists body w',
           InvestigationRoutes.close_investigation id w = (Returned body, w') /\
           getitem body "id" = Ok (int id) /\
           getitem body "reference_number" = Ok (JStr (i_reference_number inv)) /\
           getitem body "status" = Ok (JStr "closed")
     | None =>
         InvestigationRoutes.close_investigation id w
         = (HTTPException 400 ("Investigation with ID " +:+ pretty id +:+ " not found"), w)
     end) /\
  (forall id ty descr resp prio days,
     match investigations (store w) !! id with
     | Some inv =>
         forall delta,
           timedelta_days (JNum days 0) = Ok delta ->
           representable (clock (reads w) + delta) ->
           exists body w',
             InvestigationRoutes.add_investigation_action id ty descr resp prio days w
             = (Returned body, w') /\
             getitem body "id" = Ok (int (new_id (actions (store w)))) /\
             getitem body "investigation_id" = Ok (int id) /\
             getitem body "status" = Ok (JStr "pending") /\
             getitem body "deadline"
             = Ok (JStr (isoformat (clock (reads w) + delta)%Z))
     | None =>
         InvestigationRoutes.add_investigation_action id ty descr resp prio days w
         = (HTTPException 400 ("Investigation with ID " +:+ pretty id +:+ " not found"), w)
     end).
Proof.
  split; [|split; [|split]].
  - intros k status notes.
    unfold InvestigationRoutes.update_action_status, handle, bind at 1.
    destruct (actions (store w) !! k) as [action|] eqn:Hk.
    + rewrite (update_run _ _ _ _ _ Hk). cbv zeta. unfold ret.
      eexists _, _. split; [reflexivity|]. simpl.
      rewrite updated_action_status, updated_action_owner.
      repeat split. unfold updated_action. by destruct (String.eqb status "completed").
    + unfold InvestigationService.update_action_status, bind, get_store. by rewrite Hk.
  - intros id text.
    unfold InvestigationRoutes.resolve_investigation, handle, bind at 1.
    unfold InvestigationService.resolve_investigation, bind, get_store.
    destruct (investigations (store w) !! id) as [inv|] eqn:Hid; [|done].
    simpl. destruct (i_resolved_at inv); simpl;
      eexists _, _; (split; [reflexivity|]); simpl;
      destruct (String.eqb (i_status inv) "closed"); by repeat split.
  - intros id.
    unfold InvestigationRoutes.close_investigation, handle, bind at 1.
    unfold InvestigationService.close_investigation, bind, get_store.
    destruct (investigations (store w) !! id) as [inv|] eqn:Hid; [|done].
    simpl. eexists _, _. split; [reflexivity|]. by repeat split.
  - intros id ty descr resp prio days.
    unfold InvestigationRoutes.add_investigation_action, handle, bind at 1.
    unfold InvestigationService.add_investigation_action, bind, get_store.
    destruct (investigations (store w) !! id) as [inv|] eqn:Hid; [|done].
    intros delta Hdelta _. unfold lift. rewrite Hdelta. simpl.
    destruct (String.eqb (i_status inv) "open"); simpl;
      eexists _, _; (split; [reflexivity|]); by repeat split.
Qed.

Lemma count_actions_insert (db : Store) (id k : nat) (a : InvestigationAction)
  (t : gmap nat InvestigationAction) :
  t !! k = None ->
  length (filter (fun a => a_investigation_id a = id) (rows (<[k := a]> t)))
  = (if decide (a_investigation_id a = id) then 1 else 0)
    + length (filter (fun a => a_investigation_id a = id) (rows t)).
Proof.
  intros Hk. unfold rows. rewrite (map_to_list_insert t k a Hk).
  rewrite fmap_cons, filter_cons. simpl. by destruct (decide (a_investigation_id a = id)).
Qed.

Lemma count_actions_insert_all (id : nat) (pending : list InvestigationAction)
  (t : gmap nat InvestigationAction) :
  Forall (fun a => a_investigation_id a = id) pending ->
  length (filter (fun a => a_investigation_id a = id) (rows (insert_all pending t)))
  = length pending + length (filter (fun a => a_investigation_id a = id) (rows t)).
Proof.
  revert t. induction pending as [|a pending IH]; intros t Hall; [done|].
  inversion Hall as [|? ? Ha Hrest]; subst. simpl.
  rewrite IH by done.
  rewrite (count_actions_insert {| messages := ∅; investigations := ∅; actions := ∅ |})
    by apply new_id_fresh.
  destruct (decide (a_investigation_id a = a_investigation_id a)); [lia|done].
Qed.

Lemma no_orphans (db : Store) (id : nat) :
  referential_integrity db ->
  investigations db !! id = None ->
  filter (fun a => a_investigation_id a = id) (rows (actions db)) = [].
Proof.
  intros (_ & Hown & _) Hid.
  destruct (filter _ _) as [|a l] eqn:E; [done|].
  assert (Hin : a ∈ filter (fun a => a_investigation_id a = id) (rows (actions db))).
  { rewrite E. by left. }
  apply list_elem_of_filter in Hin as [Ha Hin].
  apply rows_elem in Hin as [k Hk].
  destruct (Hown _ _ Hk) as [inv Hinv]. congruence.
Qed.

(** X23. When [create_investigation] returns, the route
    [create_investigation] returns the stored case in the world the service
    left: key, reference number, status open, the priority given, and the
    customer information as it was sent, provided the library decodes what
    it encoded. In a database with referential integrity the body lists
    exactly the actions the call stored, all pending. *)
Theorem create_route_returns_the_stored_case
  (w w1 : World) (m : nat) (p : string) (ci : option json) (id : nat)
  (inv : Investigation) :
  InvestigationService.create_investigation m p ci w = (Ok (id, inv), w1) ->
  referential_integrity (store w) ->
  (forall c, ci = Some c -> truthy c = true ->
             json_dumps None c <> "" /\ json_loads (json_dumps None c) = Some c) ->
  exists body entries,
    InvestigationRoutes.create_investigation m p ci w = (Returned body, w1) /\
    getitem body "id" = Ok (int id) /\
    getitem body "reference_number" = Ok (JStr (drawn_reference w)) /\
    getitem body "status" = Ok (JStr "open") /\
    getitem body "priority" = Ok (JStr p) /\
    getitem body "customer_info"
    = Ok (match ci with
          | Some c => if truthy c then c else JObj []
          | None => JObj []
          end) /\
    getitem body "actions" = Ok (JArr entries) /\
    length entries + size (actions (store w)) = size (actions (store w1)) /\
    Forall (fun entry => getitem entry "status" = Ok (JStr "pending")) entries.
Proof.
  intros Hrun Hint Hlaw.
  pose proof Hrun as Hcreate. rewrite create_unfold in Hcreate.
  destruct (messages (store w) !! m) as [message|] eqn:Hm; [|discriminate].
  destruct (InvestigationService.reference_in_use (store w) (drawn_reference w));
    [discriminate|].
  match type of Hcreate with
  | context [InvestigationService._analyze_and_create_actions ?i message ?w0] =>
      pose proof (analyze_run i message w0) as Ha;
      destruct (InvestigationService._analyze_and_create_actions i message w0)
        as [[[]|e] w2]
  end; [|discriminate].
  injection Hcreate as <- <- <-. simpl in Ha.
  destruct Ha as (pending & Hstore & Hall).
  set (id := new_id (investigations (store w))) in *.
  assert (Hlook : investigations (store w2) !! id = Some (created_case w m p ci)).
  { rewrite Hstore. simpl. apply lookup_insert_eq. }
  assert (Hfresh : investigations (store w) !! id = None) by apply new_id_fresh.
  assert (Hload : load_customer_info (i_customer_info (created_case w m p ci))
                  = Ok (match ci with
                        | Some c => if truthy c then c else JObj []
                        | None => JObj []
                        end)).
  { unfold load_customer_info. simpl. destruct ci as [c|]; [|done].
    destruct (truthy c) eqn:Ht; [|done].
    destruct (Hlaw c eq_refl Ht) as [Hne ->].
    apply String.eqb_neq in Hne. by rewrite Hne. }
  unfold InvestigationRoutes.create_investigation, handle, bind at 1.
  rewrite Hrun. simpl fst. rewrite (get_investigation_run _ _ _ Hlook), Hload.
  eexists _, _. split; [reflexivity|]. simpl.
  repeat (split; [reflexivity|]).
  rewrite length_map, length_actions_of. unfold count_actions.
  rewrite Hstore. simpl.
  rewrite count_actions_insert_all by (eapply Forall_impl; [exact Hall|by intros a (? & _)]).
  rewrite (no_orphans (store w) id Hint Hfresh), insert_all_size. simpl.
  split; [lia|].
  apply Forall_forall. intros entry Hentry.
  apply list_elem_of_fmap in Hentry as ([k a] & -> & Hin).
  unfold actions_of in Hin. rewrite order_by_rows in Hin.
  apply list_elem_of_filter in Hin as [Howner Hin].
  apply elem_of_map_to_list in Hin. simpl in *.
  destruct (actions (store w) !! k) as [a0|] eqn:Hold.
  - rewrite (insert_all_old _ _ _ _ Hold) in Hin. injection Hin as <-.
    destruct Hint as (_ & Hown & _). destruct (Hown _ _ Hold) as [x Hx]. congruence.
  - apply (insert_all_new _ _ _ _ Hin) in Hold.
    rewrite Forall_forall in Hall. destruct (Hall _ Hold) as (_ & -> & _). done.
Qed.


End RouteAnswers.

(** ** Customer notifications *)

Section Notifications.
Context {lib : PyLib} {out : Outside} {engine : Engine} {errors : PyErrors}.
Import InvestigationReports.

Lemma handle_400 (c : M json) (w w' : World) (e : exn) :
  c w = (Raised e, w') ->
  handle 400 c w = (HTTPException (status_code_of e) (exn_str e), w').
Proof. intros Hc. unfold handle. rewrite Hc. by destruct e. Qed.

(** X24. The route [create_investigation] answers 400 and changes nothing
    when the message is not stored. When the generative service raises, it
    answers with the text of the exception, 400 for a [ValueError] and 500
    otherwise, while the case stays stored without actions. *)
Theorem create_route_reports_failure_after_storing_the_case
  (w : World) (m : nat) (p : string) (ci : option json) :
  match messages (store w) !! m with
  | None =>
      InvestigationRoutes.create_investigation m p ci w
      = (HTTPException 400 ("Message with ID " +:+ pretty m +:+ " not found"), w)
  | Some message =>
      InvestigationService.reference_in_use (store w) (drawn_reference w) = false ->
      forall e,
        respond (sent w)
          (InvestigationService.suggest_prompt (m_content message)
             (InvestigationService.attributes_dict message)) = Raised e ->
        exists w',
          InvestigationRoutes.create_investigation m p ci w
          = (HTTPException (status_code_of e) (exn_str e), w') /\
          investigations (store w')
          = <[new_id (investigations (store w)) := created_case w m p ci]>
              (investigations (store w)) /\
          actions (store w') = actions (store w)
  end.
Proof.
  unfold InvestigationRoutes.create_investigation.
  destruct (messages (store w) !! m) as [message|] eqn:Hm.
  - intros Hfree e Hfail.
    eexists. split.
    + apply handle_400. unfold bind at 1. rewrite create_unfold, Hm, Hfree.
      unfold InvestigationService._analyze_and_create_actions,
        InvestigationService._suggest_investigation_actions.
      unfold bind, call_openai. simpl. rewrite Hfail. reflexivity.
    + done.
  - unfold handle, bind at 1. by rewrite create_unfold, Hm.
Qed.

Lemma notification_run (id : nat) (nt : string) (w : World) (inv : Investigation)
  (c : json) :
  investigations (store w) !! id = Some inv ->
  load_customer_info (i_customer_info inv) = Ok c ->
  generate_customer_notification id nt w =
  let w1 := {| store := store w; sent := (sent w ++ [prompt_for inv c nt])%list;
               reads := reads w; draws := draws w |} in
  match respond (sent w) (prompt_for inv c nt) with
  | Ok response =>
      match parse_response "{" "}"
              (default_notification (i_reference_number inv) (i_status inv)) response with
      | JObj d =>
          (Ok (JObj (with_metadata id (i_reference_number inv) (clock (reads w)) nt d)),
           tick 1 w1)
      | _ => (Raised TypeError, w1)
      end
  | Raised e => (Raised e, w1)
  end.
Proof.
  intros Hlook Hload. unfold generate_customer_notification. unfold bind at 1.
  rewrite (get_investigation_run _ _ _ Hlook), Hload.
  unfold bind at 1. unfold lift at 1, getitem at 1.
  change (dict_get "reference_number" _) with (Some (JStr (i_reference_number inv))).
  cbv iota. unfold bind at 1. unfold lift at 1, getitem at 1.
  change (dict_get "status" _) with (Some (JStr (i_status inv))).
  cbv iota. unfold bind at 1. unfold lift at 1, getitem at 1.
  change (dict_get "created_at" _) with (Some (JStr (isoformat (i_created_at inv)))).
  cbv iota. unfold bind at 1. unfold lift at 1, getitem at 1.
  change (dict_get "customer_info" _) with (Some c).
  cbv iota. unfold bind at 1. unfold call_openai at 1. unfold py_str.
  fold (prompt_for inv c nt).
  destruct (respond (sent w) (prompt_for inv c nt)) as [response|e]; [|done].
  cbv zeta.
  destruct (parse_response "{" "}" _ response); try done.
Qed.

(** X25. When the answer parses to an object,
    [generate_customer_notification] returns it with the entries
    investigation_id, reference_number, generated_at and notification_type
    set from the call, over any value the answer held under these names;
    all other entries are those of the answer. One prompt is sent and the
    database is unchanged. *)
Theorem notification_metadata_overrides_the_answer
  (w : World) (id : nat) (nt : string) (inv : Investigation) (c : json)
  (response : string) (d : list (string * json)) :
  investigations (store w) !! id = Some inv ->
  load_customer_info (i_customer_info inv) = Ok c ->
  respond (sent w) (prompt_for inv c nt) = Ok response ->
  parse_attempts "{" "}" response = Some (JObj d) ->
  exists d' w',
    generate_customer_notification id nt w = (Ok (JObj d'), w') /\
    dict_get "investigation_id" d' = Some (int id) /\
    dict_get "reference_number" d' = Some (JStr (i_reference_number inv)) /\
    dict_get "generated_at" d' = Some (JStr (isoformat (clock (reads w)))) /\
    dict_get "notification_type" d' = Some (JStr nt) /\
    (forall k,
       k ∉ ["investigation_id"; "reference_number"; "generated_at"; "notification_type"] ->
       dict_get k d' = dict_get k d) /\
    store w' = store w /\
    sent w' = (sent w ++ [prompt_for inv c nt])%list.
Proof.
  intros Hlook Hload Hresp Hparse.
  rewrite (notification_run _ _ _ _ _ Hlook Hload). cbv zeta. rewrite Hresp.
  unfold parse_response. rewrite Hparse.
  eexists _, _. split; [reflexivity|]. unfold with_metadata.
  split; [by rewrite !dict_get_set_ne, dict_get_set_eq by done|].
  split; [by rewrite !dict_get_set_ne, dict_get_set_eq by done|].
  split; [by rewrite !dict_get_set_ne, dict_get_set_eq by done|].
  split; [by rewrite dict_get_set_eq|].
  split; [|done].
  intros k Hk. rewrite !dict_get_set_ne; [done|..]; intros ->; apply Hk; set_solver.
Qed.

(** X26. When no parsing attempt succeeds,
    [generate_customer_notification] returns the basic notification: the
    subject names the reference number of the case, the body is the text of
    the source with the reference number and the status, and the metadata
    are set. *)
Theorem notification_falls_back_to_basic_text
  (w : World) (id : nat) (nt : string) (inv : Investigation) (c : json)
  (response : string) :
  investigations (store w) !! id = Some inv ->
  load_customer_info (i_customer_info inv) = Ok c ->
  respond (sent w) (prompt_for inv c nt) = Ok response ->
  parse_attempts "{" "}" response = None ->
  exists result w',
    generate_customer_notification id nt w = (Ok result, w') /\
    getitem result "subject"
    = Ok (JStr ("Update on your payment investigation - Ref: " +:+ i_reference_number inv)) /\
    getitem result "body"
    = getitem (default_notification (i_reference_number inv) (i_status inv)) "body" /\
    getitem result "investigation_id" = Ok (int id) /\
    getitem result "reference_number" = Ok (JStr (i_reference_number inv)) /\
    getitem result "notification_type" = Ok (JStr nt).
Proof.
  intros Hlook Hload Hresp Hparse.
  rewrite (notification_run _ _ _ _ _ Hlook Hload). cbv zeta. rewrite Hresp.
  unfold parse_response. rewrite Hparse. unfold default_notification.
  eexists _, _. split; [reflexivity|]. unfold with_metadata, getitem.
  rewrite !dict_get_set_ne by done.
  split; [done|]. split; [done|].
  split; [by rewrite dict_get_set_eq|].
  split; [by rewrite !dict_get_set_ne, dict_get_set_eq by done|].
  by rewrite dict_get_set_eq.
Qed.

(** X27. The route [generate_customer_notification] answers 400 and sends
    nothing for a case that is not stored. For a stored case, when the
    generative service raises it answers with the text of the exception, 400
    for a [ValueError] and 500 otherwise; when the answer parses to a value
    that is no object it answers 500. It never writes to the database. *)
Theorem notification_route_answers (w : World) (id : nat) (nt : string) :
  match investigations (store w) !! id with
  | None =>
      InvestigationRoutes.generate_customer_notification id nt w
      = (HTTPException 400 ("Investigation with ID " +:+ pretty id +:+ " not found"), w)
  | Some inv =>
      forall c,
        load_customer_info (i_customer_info inv) = Ok c ->
        (forall e,
           respond (sent w) (prompt_for inv c nt) = Raised e ->
           exists w',
             InvestigationRoutes.generate_customer_notification id nt w
             = (HTTPException (status_code_of e) (exn_str e), w') /\
             store w' = store w) /\
        (forall response v,
           respond (sent w) (prompt_for inv c nt) = Ok response ->
           parse_attempts "{" "}" response = Some v ->
           (forall d, v <> JObj d) ->
           exists w',
             InvestigationRoutes.generate_customer_notification id nt w
             = (HTTPException 500 (exn_str TypeError), w') /\
             store w' = store w)
  end.
Proof.
  unfold InvestigationRoutes.generate_customer_notification.
  destruct (investigations (store w) !! id) as [inv|] eqn:Hlook.
  - intros c Hload. split.
    + intros e Hfail. eexists. split.
      * apply handle_400.
        rewrite (notification_run _ _ _ _ _ Hlook Hload). cbv zeta. by rewrite Hfail.
      * done.
    + intros response v Hresp Hparse Hnot. eexists. split.
      * apply (handle_400 _ _ _ TypeError).
        rewrite (notification_run _ _ _ _ _ Hlook Hload). cbv zeta. rewrite Hresp.
        unfold parse_response. rewrite Hparse.
        destruct v; try done. by destruct (Hnot fields).
      * done.
  - unfold handle, generate_customer_notification, bind at 1.
    unfold get_investigation, bind, get_store. by rewrite Hlook.
Qed.

End Notifications.

(** ** The route that analyses an MT199 message *)

Section AnalyzeRoute.
Context {lib : PyLib} {out : Outside}.
Import MTService.

Lemma mt199_result_has_template (mt_message : string) (w w' : World)
  (d : list (string * json)) :
  _process_mt199_stp_failure mt_message w = (Ok (JObj d), w') ->
  dict_contains "response_template" d = true.
Proof.
  unfold _process_mt199_stp_failure.
  unfold bind at 1. destruct (call_openai _ w) as [[response|e] w1]; [|discriminate].
  unfold bind at 1.
  match goal with |- context [match ?c w1 with _ => _ end] =>
    destruct (c w1) as [[r0|e] w2] end; [|discriminate].
  unfold bind at 1.
  destruct (lift (contains "regulations" r0) w2) as [[p1|e] w3]; [|discriminate].
  unfold bind at 1.
  match goal with |- context [match ?c w3 with _ => _ end] =>
    destruct (c w3) as [[r1|e] w4] end; [|discriminate].
  unfold bind at 1.
  destruct (lift (contains "sla" r1) w4) as [[p2|e] w5]; [|discriminate].
  unfold bind at 1.
  match goal with |- context [match ?c w5 with _ => _ end] =>
    destruct (c w5) as [[r2|e] w6] end; [|discriminate].
  unfold bind at 1. unfold lift at 1.
  destruct (contains "response_template" r2) as [p3|e] eqn:Hp3; [|discriminate].
  unfold bind at 1. destruct p3.
  - unfold ret. intros [= -> _]. simpl in Hp3. by injection Hp3.
  - unfold bind at 1. destruct (lift _ w6) as [[wt|e] w7]; [|discriminate].
    unfold bind at 1. destruct (lift _ w7) as [[fields|e] w8]; [|discriminate].
    unfold bind at 1.
    destruct (_get_default_response_template wt fields w8) as [[template|e] w9];
      [|discriminate].
    unfold lift, ret. destruct r2; simpl; try discriminate.
    intros [= <- _]. apply dict_contains_set_eq.
Qed.

(** X28. Whenever the route [analyze_mt199] returns a body, the analysis
    returned an object that has a response template, and the body keeps it.
    Unless the analysis brought its own formatted response, the formatted
    response of the body is built from that template and from the reference
    of the extracted fields or REF1234: the text that the source passes as
    default for a missing template is never used. *)
Theorem analyze_route_embeds_the_response_template
  (content : string) (w w' : World) (body : json) :
  MTRoutes.analyze_mt199 content w = (Returned body, w') ->
  exists d template,
    _process_mt199_stp_failure content w = (Ok (JObj d), w') /\
    dict_get "response_template" d = Some template /\
    getitem body "response_template" = Ok template /\
    (dict_contains "mt199_formatted_response" d = true /\ body = JObj d \/
     dict_contains "mt199_formatted_response" d = false /\
     exists fields,
       dict_get_default "extracted_fields" (JObj []) d = JObj fields /\
       getitem body "mt199_formatted_response"
       = Ok (JStr (MTRoutes.formatted_response
                     (py_str (dict_get_default "reference" (JStr "REF1234") fields))
                     (py_str template)))).
Proof.
  unfold MTRoutes.analyze_mt199, handle. unfold bind at 1.
  destruct (_process_mt199_stp_failure content w) as [[result|e] w1] eqn:Hrun;
    [|by destruct e].
  destruct result as [| | | | |d]; try discriminate.
  pose proof (mt199_result_has_template _ _ _ _ Hrun) as Htpl.
  unfold dict_contains in Htpl.
  destruct (dict_get "response_template" d) as [template|] eqn:Ht; [|discriminate].
  unfold bind, lift, ret. simpl.
  destruct (dict_contains "mt199_formatted_response" d) eqn:Hf.
  - intros [= <- <-]. exists d, template. split; [done|]. split; [done|].
    split; [by simpl; rewrite Ht|]. by left.
  - destruct (dict_get_default "extracted_fields" (JObj []) d) as [| | | | |fields] eqn:Hfields;
      simpl; try discriminate.
    intros [= <- <-]. exists d, template. split; [done|]. split; [done|].
    split.
    { simpl. rewrite dict_get_set_ne by done. by rewrite Ht. }
    right. split; [done|]. exists fields. split; [done|].
    simpl. rewrite dict_get_set_eq. unfold dict_get_default at 2. by rewrite Ht.
Qed.

End AnalyzeRoute.

(** ** The further properties on the fixtures *)

Lemma empty_world_integrity : referential_integrity (store empty_world).
Proof.
  split; [|split]; simpl.
  - intros i j inv1 inv2 Hi. by rewrite lookup_empty in Hi.
  - intros k a Hk. by rewrite lookup_empty in Hk.
  - intros i inv Hi. by rewrite lookup_empty in Hi.
Qed.

Lemma empty_world_coherent : coherent (store empty_world).
Proof.
  split; simpl.
  - intros i inv Hi. by rewrite lookup_empty in Hi.
  - intros k a Hk. by rewrite lookup_empty in Hk.
Qed.

Lemma world_of_integrity (inv : Investigation) (act : InvestigationAction) :
  i_message_id inv = 1 -> a_investigation_id act = 1 ->
  referential_integrity (store (world_of inv act)).
Proof.
  intros Hm Ha. split; [|split]; simpl.
  - intros i j inv1 inv2 Hi Hj _.
    apply lookup_singleton_Some in Hi as [<- _].
    by apply lookup_singleton_Some in Hj as [<- _].
  - intros k a Hk. apply lookup_singleton_Some in Hk as [_ <-].
    rewrite Ha. by rewrite lookup_singleton_eq.
  - intros i inv' Hi. apply lookup_singleton_Some in Hi as [_ <-].
    rewrite Hm. by rewrite lookup_singleton_eq.
Qed.

Lemma calls_keep_referential_integrity_witness :
  referential_integrity (store empty_world) /\
  referential_integrity
    (store (perform_all (lib := fixture_lib) (out := flaky)
              [CreateInvestigation 1 "high" None; UpdateActionStatus 1 "completed" None;
               CloseInvestigation 1]
              empty_world)).
Proof.
  split; [exact empty_world_integrity|].
  apply (calls_keep_referential_integrity (lib := fixture_lib) (out := flaky)).
  exact empty_world_integrity.
Defined.

Lemma calls_keep_status_coherent_witness :
  coherent (store empty_world) /\
  coherent
    (store (perform_all (lib := fixture_lib) (out := flaky)
              [CreateInvestigation 1 "high" None; UpdateActionStatus 1 "completed" None;
               CloseInvestigation 1]
              empty_world)).
Proof.
  split; [exact empty_world_coherent|].
  apply (calls_keep_status_coherent (lib := fixture_lib) (out := flaky)).
  exact empty_world_coherent.
Defined.

(** A closed case with a pending action is resolved by the completion of
    the action and stays settled. *)
Example closed_case_stays_settled :
  i_status <$>
    investigations
      (store (perform_all (lib := fixture_lib) (out := offline)
                [UpdateActionStatus 1 "completed" None; AddAction 1 "other" "Call" None "low" 1]
                (world_of (case1 "closed" None) (step1 "pending" None)))) !! 1
  = Some "resolved".
Proof. vm_compute. reflexivity. Qed.

Lemma resolve_investigation_keeps_first_resolution_time_witness :
  investigations (store (world_of (case1 "in_progress" None) (step1 "pending" None))) !! 1
  = Some (case1 "in_progress" None) /\
  exists inv1 w1 inv2 w2,
    InvestigationService.resolve_investigation (out := offline) 1 "Funds traced"
      (world_of (case1 "in_progress" None) (step1 "pending" None)) = (Ok inv1, w1) /\
    i_resolved_at inv1 = Some 10%Z /\
    InvestigationService.resolve_investigation (out := offline) 1 "Funds returned" w1
    = (Ok inv2, w2) /\
    i_resolved_at inv2 = Some 10%Z /\
    i_resolution_notes inv2 = Some "Funds returned".
Proof.
  split; [reflexivity|].
  destruct (resolve_investigation_keeps_first_resolution_time (out := offline)
              (world_of (case1 "in_progress" None) (step1 "pending" None))
              1 "Funds traced" "Funds returned" (case1 "in_progress" None) eq_refl)
    as (inv1 & w1 & inv2 & w2 & Hrun & _ & _ & _ & _ & _ & Hat & Hrun2 & _ & Hat2 & Hn).
  exists inv1, w1, inv2, w2. split; [exact Hrun|]. split; [exact Hat|].
  split; [exact Hrun2|]. split; [|exact Hn]. by rewrite Hat2.
Defined.

Lemma close_investigation_holds_against_resolve_witness :
  investigations (store (world_of (case1 "open" None) (step1 "pending" None))) !! 1
  = Some (case1 "open" None) /\
  exists inv1 w1 inv2 w2,
    InvestigationService.close_investigation (out := offline) 1
      (world_of (case1 "open" None) (step1 "pending" None)) = (Ok inv1, w1) /\
    i_status inv1 = "closed" /\
    InvestigationService.resolve_investigation (out := offline) 1 "Too late" w1
    = (Ok inv2, w2) /\
    i_status inv2 = "closed".
Proof.
  split; [reflexivity|].
  destruct (close_investigation_holds_against_resolve (out := offline)
              (world_of (case1 "open" None) (step1 "pending" None))
              1 "Too late" (case1 "open" None) eq_refl)
    as (inv1 & w1 & inv2 & w2 & Hrun & _ & _ & _ & Hst & _ & _ & Hrun2 & Hst2 & _).
  exists inv1, w1, inv2, w2. split; [exact Hrun|]. split; [exact Hst|].
  split; [exact Hrun2|exact Hst2].
Defined.

Lemma add_investigation_action_adds_one_pending_action_witness :
  investigations (store (world_of (case1 "resolved" (Some 5%Z)) (step1 "completed" (Some 4%Z)))) !! 1
  = Some (case1 "resolved" (Some 5%Z)) /\
  timedelta_days (PyLib := fixture_lib) (JNum 2 0) = Ok 172800000000%Z /\
  representable (10 + 172800000000) /\
  exists k row w',
    InvestigationService.add_investigation_action (lib := fixture_lib) (out := offline)
      1 "other" "Call the customer" None "low" 2
      (world_of (case1 "resolved" (Some 5%Z)) (step1 "completed" (Some 4%Z)))
    = (Ok (k, row), w') /\
    a_status row = "pending" /\
    investigations (store w')
    = investigations (store (world_of (case1 "resolved" (Some 5%Z))
                                      (step1 "completed" (Some 4%Z)))) /\
    ~ all_completed (store w') 1.
Proof.
  assert (Hdate : representable (10 + 172800000000)) by (unfold representable; lia).
  split; [reflexivity|]. split; [reflexivity|]. split; [exact Hdate|].
  destruct (add_investigation_action_adds_one_pending_action (lib := fixture_lib)
              (out := offline)
              (world_of (case1 "resolved" (Some 5%Z)) (step1 "completed" (Some 4%Z)))
              1 "other" "Call the customer" None "low" 2 172800000000
              (case1 "resolved" (Some 5%Z)) eq_refl eq_refl Hdate)
    as (k & row & w' & Hrun & _ & _ & _ & Hst & _ & _ & Hinv & Hnot).
  exists k, row, w'. split; [exact Hrun|]. split; [exact Hst|].
  split; [exact Hinv|exact Hnot].
Defined.


Lemma flaky_answer_has_no_list (blob : string) :
  spans "[" "]" "Here you are: {} I hope this helps" blob ->
  json_loads (PyLib := fixture_lib) blob = None.
Proof. intros Hspan. apply re_search_spans in Hspan. vm_compute in Hspan. discriminate. Qed.

Lemma create_investigation_falls_back_to_default_action_witness :
  messages (store empty_world) !! 1 = Some mt199_message /\
  exists w',
    InvestigationService.create_investigation (lib := fixture_lib) (out := flaky)
      1 "high" None empty_world
    = (Ok (1, created_case (lib := fixture_lib) (out := flaky) empty_world 1 "high" None), w') /\
    actions (store w')
    = {[ 1 := default_action_row (out := flaky) 1 259200000000 (drawn 3 empty_world) ]}.
Proof.
  split; [reflexivity|].
  destruct (create_investigation_falls_back_to_default_action (lib := fixture_lib)
              (out := flaky) empty_world 1 "high" None mt199_message
              "Here you are: {} I hope this helps" 259200000000
              eq_refl eq_refl eq_refl eq_refl flaky_answer_has_no_list eq_refl)
    as (w' & Hrun & _ & Hacts).
  exists w'. split; [exact Hrun|exact Hacts].
Defined.

Lemma create_investigation_with_no_suggestions_witness :
  messages (store empty_world) !! 1 = Some mt199_message /\
  exists w',
    InvestigationService.create_investigation (lib := fixture_lib) (out := terse)
      1 "high" None empty_world
    = (Ok (1, created_case (lib := fixture_lib) (out := terse) empty_world 1 "high" None), w') /\
    actions (store w') = ∅ /\
    ~ has_action (store w') 1.
Proof.
  split; [reflexivity|].
  destruct (create_investigation_with_no_suggestions (lib := fixture_lib)
              (out := terse) empty_world 1 "high" None mt199_message "[]"
              eq_refl eq_refl eq_refl eq_refl empty_world_integrity)
    as (w' & Hrun & _ & Hacts & Hnone).
  exists w'. split; [exact Hrun|]. split; [exact Hacts|exact Hnone].
Defined.

Lemma mt199_analysis_fills_only_missing_keys_witness :
  respond (Outside := flaky) (sent empty_world)
    (MTService.mt199_prompt "{1:F01BANK}{2:I199BANKDEFF}")
  = Ok "Here you are: {} I hope this helps" /\
  parse_attempts (H := fixture_lib) "{" "}" "Here you are: {} I hope this helps"
  = Some (JObj []) /\
  exists d' w',
    MTService._process_mt199_stp_failure (lib := fixture_lib) (out := flaky)
      "{1:F01BANK}{2:I199BANKDEFF}" empty_world = (Ok (JObj d'), w') /\
    dict_get "sla" d' = Some (MTService._get_default_sla (JStr "UNKNOWN")) /\
    dict_contains "response_template" d' = true.
Proof.
  split; [reflexivity|]. split; [reflexivity|].
  destruct (mt199_analysis_fills_only_missing_keys (lib := fixture_lib) (out := flaky)
              "{1:F01BANK}{2:I199BANKDEFF}" empty_world
              "Here you are: {} I hope this helps" [] eq_refl eq_refl)
    as [Hfill _].
  destruct (Hfill eq_refl) as (d' & w' & Hrun & _ & _ & _ & Hsla & Htpl & _).
  exists d', w'. split; [exact Hrun|]. split; [exact Hsla|exact Htpl].
Defined.

Lemma mt199_analysis_falls_back_to_unknown_witness :
  respond (Outside := chatty) (sent empty_world)
    (MTService.mt199_prompt "{1:F01BANK}{2:I199BANKDEFF}")
  = Ok "I cannot help with that" /\
  parse_attempts (H := fixture_lib) "{" "}" "I cannot help with that" = None /\
  exists result w',
    MTService._process_mt199_stp_failure (lib := fixture_lib) (out := chatty)
      "{1:F01BANK}{2:I199BANKDEFF}" empty_world = (Ok result, w') /\
    getitem result "workcase_type" = Ok (JStr "UNKNOWN") /\
    reads w' = 2.
Proof.
  split; [reflexivity|]. split; [reflexivity|].
  destruct (mt199_analysis_falls_back_to_unknown (lib := fixture_lib) (out := chatty)
              "{1:F01BANK}{2:I199BANKDEFF}" empty_world "I cannot help with that"
              eq_refl eq_refl)
    as (result & w' & Hrun & Hwt & _ & _ & _ & _ & _ & _ & Hreads).
  exists result, w'. split; [exact Hrun|]. split; [exact Hwt|exact Hreads].
Defined.

Lemma first_call_failure_stops_the_message_witness :
  respond (Outside := offline) (sent empty_world)
    (base_prompt "extract" "{1:F01BANK}{2:I199BANKDEFF}")
  = Raised (Exception "Error calling OpenAI API: connection refused") /\
  exists w',
    MTService.process_single_message (lib := fixture_lib) (out := offline)
      "{1:F01BANK}{2:I199BANKDEFF}" "extract" None empty_world
    = (Raised (Exception "Error calling OpenAI API: connection refused"), w') /\
    sent w' = [base_prompt "extract" "{1:F01BANK}{2:I199BANKDEFF}"].
Proof.
  split; [reflexivity|].
  destruct (first_call_failure_stops_the_message (lib := fixture_lib) (out := offline)
              "{1:F01BANK}{2:I199BANKDEFF}" "extract" None empty_world
              (Exception "Error calling OpenAI API: connection refused") eq_refl)
    as (w' & Hrun & Hsent & _).
  exists w'. split; [exact Hrun|exact Hsent].
Defined.

Lemma returned_result_is_stamped_witness :
  exists result t w',
    MTService.process_single_message (lib := fixture_lib) (out := flaky)
      "{1:F01BANK}{2:I103BANKDEFF}" "extract" (Some "") empty_world
    = (Ok (result, t), w') /\
    getitem result "message_id" = Ok (JStr "MT-0") /\
    getitem result "processing_time" = Ok t.
Proof.
  destruct (MTService.process_single_message (lib := fixture_lib) (out := flaky)
              "{1:F01BANK}{2:I103BANKDEFF}" "extract" (Some "") empty_world)
    as [[[result t]|e] w'] eqn:Hrun.
  - exists result, t, w'. split; [reflexivity|].
    destruct (returned_result_is_stamped (lib := fixture_lib) (out := flaky)
                _ _ _ _ _ _ _ Hrun) as (n & _ & _ & _ & Hid & Ht & _).
    split; [exact Hid|exact Ht].
  - exfalso. vm_compute in Hrun. discriminate.
Defined.

Lemma answer_that_is_no_object_raises_witness :
  respond (Outside := terse) (sent empty_world)
    (base_prompt "convert" "{1:F01BANK}{2:I103BANKDEFF}") = Ok "[]" /\
  parse_attempts (H := fixture_lib) "{" "}" "[]" = Some (JArr []) /\
  fst (MTService.process_single_message (lib := fixture_lib) (out := terse)
         "{1:F01BANK}{2:I103BANKDEFF}" "convert" (Some "M1") empty_world)
  = Raised TypeError.
Proof.
  split; [reflexivity|]. split; [reflexivity|].
  apply (answer_that_is_no_object_raises (lib := fixture_lib) (out := terse)
           "{1:F01BANK}{2:I103BANKDEFF}" "convert" (Some "M1") empty_world
           "[]" (JArr []) eq_refl eq_refl).
  - intros d. discriminate.
  - reflexivity.
Defined.

Lemma world_of_listable (inv : Investigation) (act : InvestigationAction) :
  i_customer_info inv = None ->
  forall id inv',
    investigations (store (world_of inv act)) !! id = Some inv' ->
    listable (lib := fixture_lib) (errors := fixture_errors) inv'.
Proof.
  intros Hnone id inv' Hlook. simpl in Hlook.
  apply lookup_singleton_Some in Hlook as [_ <-].
  exists []. unfold InvestigationReports.load_customer_info. by rewrite Hnone.
Qed.

Lemma get_investigations_lists_one_page_witness :
  exists entries,
    InvestigationReports.get_investigations (lib := fixture_lib) (out := offline)
      (engine := fixture_engine) (errors := fixture_errors)
      (Some "open") None 10 0 (world_of (case1 "open" None) (step1 "pending" None))
    = (Ok (JObj [ ("total", JNum 1 0); ("investigations", JArr entries);
                  ("limit", JNum 10 0); ("offset", JNum 0 0) ]),
       tick (length entries) (world_of (case1 "open" None) (step1 "pending" None))) /\
    length entries = 1.
Proof.
  destruct (get_investigations_lists_one_page (lib := fixture_lib) (out := offline)
              (engine := fixture_engine) (errors := fixture_errors)
              (world_of (case1 "open" None) (step1 "pending" None))
              (Some "open") None 10 0 ltac:(lia) ltac:(lia)
              (world_of_listable (case1 "open" None) (step1 "pending" None) eq_refl))
    as (entries & Hrun & Hlen & _).
  exists entries. split; [exact Hrun|exact Hlen].
Defined.

Lemma lookup_by_reference_agrees_with_lookup_by_key_witness :
  referential_integrity (store (world_of (case1 "open" None) (step1 "pending" None))) /\
  InvestigationReports.get_investigation_by_reference (lib := fixture_lib)
    (engine := fixture_engine) (errors := fixture_errors)
    "INV-20231231-ZZ99" (world_of (case1 "open" None) (step1 "pending" None))
  = InvestigationReports.get_investigation (lib := fixture_lib)
      (engine := fixture_engine) (errors := fixture_errors)
      1 (world_of (case1 "open" None) (step1 "pending" None)).
Proof.
  split; [by apply world_of_integrity|].
  destruct (lookup_by_reference_agrees_with_lookup_by_key (lib := fixture_lib)
              (engine := fixture_engine) (errors := fixture_errors)
              (world_of (case1 "open" None) (step1 "pending" None))
              (world_of_integrity (case1 "open" None) (step1 "pending" None) eq_refl eq_refl))
    as [Hsame _].
  exact (Hsame 1 (case1 "open" None) eq_refl).
Defined.

Lemma create_route_returns_the_stored_case_witness :
  exists body entries w1,
    InvestigationRoutes.create_investigation (lib := fixture_lib) (out := flaky)
      (engine := fixture_engine) (errors := fixture_errors) 1 "high" None empty_world
    = (Returned body, w1) /\
    getitem body "status" = Ok (JStr "open") /\
    getitem body "customer_info" = Ok (JObj []) /\
    getitem body "actions" = Ok (JArr entries) /\
    length entries + 0 = size (actions (store w1)).
Proof.
  destruct (InvestigationService.create_investigation (lib := fixture_lib) (out := flaky)
              1 "high" None empty_world) as [[[id inv]|e] w1] eqn:Hrun.
  - destruct (create_route_returns_the_stored_case (lib := fixture_lib) (out := flaky)
                (engine := fixture_engine) (errors := fixture_errors)
                empty_world w1 1 "high" None id inv Hrun empty_world_integrity)
      as (body & entries & Hroute & _ & _ & Hst & _ & Hci & Hacts & Hlen & _).
    { intros c Hc. discriminate. }
    exists body, entries, w1. split; [exact Hroute|]. split; [exact Hst|].
    split; [exact Hci|]. split; [exact Hacts|exact Hlen].
  - exfalso. vm_compute in Hrun. discriminate.
Defined.

Lemma notification_metadata_overrides_the_answer_witness :
  investigations (store (world_of (case1 "open" None) (step1 "pending" None))) !! 1
  = Some (case1 "open" None) /\
  exists d' w',
    InvestigationReports.generate_customer_notification (lib := fixture_lib)
      (out := flaky) (engine := fixture_engine) (errors := fixture_errors)
      1 "status_update" (world_of (case1 "open" None) (step1 "pending" None))
    = (Ok (JObj d'), w') /\
    dict_get "reference_number" d' = Some (JStr "INV-20231231-ZZ99") /\
    dict_get "notification_type" d' = Some (JStr "status_update").
Proof.
  split; [reflexivity|].
  destruct (notification_metadata_overrides_the_answer (lib := fixture_lib)
              (out := flaky) (engine := fixture_engine) (errors := fixture_errors)
              (world_of (case1 "open" None) (step1 "pending" None))
              1 "status_update" (case1 "open" None) (JObj [])
              "Here you are: {} I hope this helps" []
              eq_refl eq_refl eq_refl eq_refl)
    as (d' & w' & Hrun & _ & Href & _ & Hnt & _).
  exists d', w'. split; [exact Hrun|]. split; [exact Href|exact Hnt].
Defined.

Lemma notification_falls_back_to_basic_text_witness :
  investigations (store (world_of (case1 "open" None) (step1 "pending" None))) !! 1
  = Some (case1 "open" None) /\
  exists result w',
    InvestigationReports.generate_customer_notification (lib := fixture_lib)
      (out := chatty) (engine := fixture_engine) (errors := fixture_errors)
      1 "status_update" (world_of (case1 "open" None) (step1 "pending" None))
    = (Ok result, w') /\
    getitem result "subject"
    = Ok (JStr "Update on your payment investigation - Ref: INV-20231231-ZZ99").
Proof.
  split; [reflexivity|].
  destruct (notification_falls_back_to_basic_text (lib := fixture_lib)
              (out := chatty) (engine := fixture_engine) (errors := fixture_errors)
              (world_of (case1 "open" None) (step1 "pending" None))
              1 "status_update" (case1 "open" None) (JObj [])
              "I cannot help with that" eq_refl eq_refl eq_refl eq_refl)
    as (result & w' & Hrun & Hsubject & _).
  exists result, w'. split; [exact Hrun|exact Hsubject].
Defined.

Lemma analyze_route_embeds_the_response_template_witness :
  exists body w' d template,
    MTRoutes.analyze_mt199 (lib := fixture_lib) (out := flaky)
      "{1:F01BANK}{2:I199BANKDEFF}" empty_world = (Returned body, w') /\
    MTService._process_mt199_stp_failure (lib := fixture_lib) (out := flaky)
      "{1:F01BANK}{2:I199BANKDEFF}" empty_world = (Ok (JObj d), w') /\
    getitem body "response_template" = Ok template.
Proof.
  destruct (MTRoutes.analyze_mt199 (lib := fixture_lib) (out := flaky)
              "{1:F01BANK}{2:I199BANKDEFF}" empty_world) as [[body|code detail] w'] eqn:Hrun.
  - destruct (analyze_route_embeds_the_response_template (lib := fixture_lib)
                (out := flaky) _ _ _ _ Hrun)
      as (d & template & Hservice & _ & Hbody & _).
    exists body, w', d, template. split; [reflexivity|]. split; [exact Hservice|exact Hbody].
  - exfalso. vm_compute in Hrun. discriminate.
Defined.

Lemma response_template_without_usable_arguments_witness :
  MTService._get_default_response_template (lib := fixture_lib) (out := offline)
    (JArr [JStr "CANCELLATION"]) (JObj []) empty_world
  = (Raised TypeError, empty_world) /\
  exists template,
    MTService._get_default_response_template (lib := fixture_lib) (out := offline)
      (JStr "CANCELLATION") JNull empty_world
    = (Ok template, empty_world) /\
    is_substring "{reference}" template = true.
Proof.
  split.
  - destruct (response_template_without_usable_arguments (lib := fixture_lib)
                (out := offline) (JArr [JStr "CANCELLATION"]) empty_world) as [Hbad _].
    exact (Hbad eq_refl (JObj [])).
  - destruct (response_template_without_usable_arguments (lib := fixture_lib)
                (out := offline) (JStr "CANCELLATION") empty_world) as [_ Hraw].
    destruct (Hraw eq_refl JNull) as (template & _ & Hrun & Hbrace).
    { intros d. discriminate. }
    exists template. split; [exact Hrun|exact Hbrace].
Defined.

Lemma bulk_processing_prompt_count_witness :
  exists results w',
    MTService.process_bulk_messages (lib := fixture_lib) (out := flaky)
      [("M1", "{1:F01BANK}{2:I103BANKDEFF}"); ("M2", "BROKEN")] "extract" empty_world
    = (Ok results, w') /\
    sent w' = [ base_prompt "extract" "{1:F01BANK}{2:I103BANKDEFF}";
                base_prompt "extract" "BROKEN" ].
Proof.
  destruct (bulk_processing_prompt_count (lib := fixture_lib) (out := flaky)
              [("M1", "{1:F01BANK}{2:I103BANKDEFF}"); ("M2", "BROKEN")] "extract"
              empty_world)
    as (results & w' & new & Hrun & _ & Hsent & _ & Hplain).
  exists results, w'. split; [exact Hrun|].
  rewrite Hsent, Hplain; [reflexivity|].
  repeat constructor.
Defined.

Lemma get_investigation_route_answers_witness :
  exists body,
    InvestigationRoutes.get_investigation (lib := fixture_lib)
      (engine := fixture_engine) (errors := fixture_errors) 1
      (world_of (case1 "open" None) (step1 "pending" None))
    = (Returned body, world_of (case1 "open" None) (step1 "pending" None)) /\
    getitem body "status" = Ok (JStr "open") /\
    getitem body "customer_info" = Ok (JObj []).
Proof.
  pose proof (get_investigation_route_answers (lib := fixture_lib)
                (engine := fixture_engine) (errors := fixture_errors)
                (world_of (case1 "open" None) (step1 "pending" None)) 1) as Hroute.
  change (investigations (store (world_of (case1 "open" None) (step1 "pending" None))) !! 1)
    with (Some (case1 "open" None)) in Hroute.
  simpl in Hroute.
  destruct Hroute as (body & listed & Hrun & Hst & Hci & _).
  exists body. split; [exact Hrun|]. split; [exact Hst|exact Hci].
Defined.

Lemma lifecycle_routes_answer_400_for_missing_rows_only_witness :
  (exists body w',
     InvestigationRoutes.update_action_status (lib := fixture_lib) (out := offline)
       1 "completed" (Some "done")
       (world_of (case1 "in_progress" None) (step1 "pending" None))
     = (Returned body, w') /\
     getitem body "status" = Ok (JStr "completed")) /\
  InvestigationRoutes.close_investigation (lib := fixture_lib) (out := offline) 7
    (world_of (case1 "in_progress" None) (step1 "pending" None))
  = (HTTPException 400 "Investigation with ID 7 not found",
     world_of (case1 "in_progress" None) (step1 "pending" None)).
Proof.
  destruct (lifecycle_routes_answer_400_for_missing_rows_only (lib := fixture_lib)
              (out := offline)
              (world_of (case1 "in_progress" None) (step1 "pending" None)))
    as (Hupdate & _ & Hclose & _).
  split.
  - specialize (Hupdate 1 "completed" (Some "done")).
    change (actions (store (world_of (case1 "in_progress" None) (step1 "pending" None))) !! 1)
      with (Some (step1 "pending" None)) in Hupdate.
    simpl in Hupdate.
    destruct Hupdate as (body & w' & Hrun & _ & _ & Hst & _).
    exists body, w'. split; [exact Hrun|exact Hst].
  - specialize (Hclose 7).
    change (investigations (store (world_of (case1 "in_progress" None)
                                             (step1 "pending" None))) !! 7)
      with (@None Investigation) in Hclose.
    exact Hclose.
Defined.

Lemma create_route_reports_failure_after_storing_the_case_witness :
  exists w',
    InvestigationRoutes.create_investigation (lib := fixture_lib) (out := offline)
      (engine := fixture_engine) (errors := fixture_errors) 1 "high" None empty_world
    = (HTTPException 500 "Error calling OpenAI API: connection refused", w') /\
    actions (store w') = actions (store empty_world) /\
    investigations (store w')
    = <[1 := created_case (lib := fixture_lib) (out := offline) empty_world 1 "high" None]>
        (investigations (store empty_world)).
Proof.
  pose proof (create_route_reports_failure_after_storing_the_case (lib := fixture_lib)
                (out := offline) (engine := fixture_engine) (errors := fixture_errors)
                empty_world 1 "high" None) as Hroute.
  change (messages (store empty_world) !! 1) with (Some mt199_message) in Hroute.
  simpl in Hroute.
  destruct (Hroute eq_refl (Exception "Error calling OpenAI API: connection refused")
              eq_refl) as (w' & Hrun & Hinv & Hacts).
  exists w'. split; [exact Hrun|]. split; [exact Hacts|exact Hinv].
Defined.

Lemma notification_route_answers_witness :
  exists w',
    InvestigationRoutes.generate_customer_notification (lib := fixture_lib)
      (out := offline) (engine := fixture_engine) (errors := fixture_errors)
      1 "status_update" (world_of (case1 "open" None) (step1 "pending" None))
    = (HTTPException 500 "Error calling OpenAI API: connection refused", w') /\
    store w' = store (world_of (case1 "open" None) (step1 "pending" None)).
Proof.
  pose proof (notification_route_answers (lib := fixture_lib)
                (out := offline) (engine := fixture_engine) (errors := fixture_errors)
                (world_of (case1 "open" None) (step1 "pending" None))
                1 "status_update") as Hroute.
  change (investigations (store (world_of (case1 "open" None) (step1 "pending" None))) !! 1)
    with (Some (case1 "open" None)) in Hroute.
  simpl in Hroute.
  destruct (Hroute (JObj []) eq_refl) as [Hfail _].
  exact (Hfail (Exception "Error calling OpenAI API: connection refused") eq_refl).
Defined.
